(** * GreatSoft implementation server: the office import pipeline

    A shallow embedding of [GreatSoftImplementation.importOffices] and of the
    private helpers it calls ([mapExcelToSQL], [validateOfficeData], the code
    generation loop and the per-row insert loop), of [licenseDatabase] with
    its splitting of a script into batches, of the constructor, of
    [getImplementationStatus] and of the handler of tool calls, followed by
    the properties of the import that the specification states and by
    further properties of the code.

    Conventions of the embedding.
    - A JavaScript value that can sit in a spreadsheet cell or in a field of
      a row object is a [jsval]: [undefined], [null], a boolean, a number or
      a string.  Numbers are restricted to the integers a double holds
      exactly (magnitude at most 2^53), as [Z]; on these [String(n)] is the
      plain decimal form.  [Date] cells are not modelled.
    - A JavaScript string is a [string]; one [ascii] stands for one UTF-16
      code unit below 128.  [toUpperCase] is modelled on that range (a-z go
      to A-Z, nothing else changes), so the statements on generated codes
      describe the program on ASCII descriptions.
    - A row object is a finite map from property names to values; reading a
      property that is absent yields [undefined].
    - The world outside the class (the spreadsheet reader, [sql.connect], the
      store answering each INSERT, [uuidv4]) is a set of section variables;
      the statements sent to the store are logged in the session state. *)

From Stdlib Require Import ZArith Ascii String DecimalString DecimalNat.
From stdpp Require Import gmap strings list fin_maps.

Local Open Scope string_scope.
Local Open Scope list_scope.

(** ** JavaScript values *)

Inductive jsval : Type :=
  | VUndefined
  | VNull
  | VBool (b : bool)
  | VNum (n : Z)
  | VStr (s : string).

#[global] Instance jsval_eq_dec : EqDecision jsval.
Proof. solve_decision. Defined.

Definition jsval_encode (v : jsval) : (unit + unit) + (bool + (Z + string)) :=
  match v with
  | VUndefined => inl (inl tt)
  | VNull => inl (inr tt)
  | VBool b => inr (inl b)
  | VNum n => inr (inr (inl n))
  | VStr s => inr (inr (inr s))
  end.

Definition jsval_decode (x : (unit + unit) + (bool + (Z + string))) : jsval :=
  match x with
  | inl (inl _) => VUndefined
  | inl (inr _) => VNull
  | inr (inl b) => VBool b
  | inr (inr (inl n)) => VNum n
  | inr (inr (inr s)) => VStr s
  end.

#[global] Instance jsval_countable : Countable jsval.
Proof.
  apply (inj_countable' jsval_encode jsval_decode).
  intros []; reflexivity.
Defined.

(** [Boolean(v)], the test behind [!v], [v && _] and [filter(Boolean)]. *)
Definition truthy (v : jsval) : bool :=
  match v with
  | VUndefined | VNull => false
  | VBool b => b
  | VNum n => negb (n =? 0)%Z
  | VStr s => negb (String.eqb s "")
  end.

(** [String(v)], as a template literal converts its holes.  For a number
    this is the plain decimal form, which is what JavaScript writes for an
    integer below 10^21; the exponent notation of larger numbers is outside
    the range of the embedding. *)
Definition toString (v : jsval) : string :=
  match v with
  | VUndefined => "undefined"
  | VNull => "null"
  | VBool true => "true"
  | VBool false => "false"
  | VNum n => NilZero.string_of_int (Z.to_int n)
  | VStr s => s
  end.

(** [n.toString()] for a loop counter. *)
Definition natToString (n : nat) : string :=
  NilZero.string_of_uint (Nat.to_uint n).

(** ** Strings *)

(** [s.includes(needle)]. *)
Fixpoint includes (needle s : string) : bool :=
  String.prefix needle s ||
  match s with
  | EmptyString => false
  | String _ rest => includes needle rest
  end.

Definition upperChar (c : ascii) : ascii :=
  let n := nat_of_ascii c in
  if (97 <=? n)%nat && (n <=? 122)%nat then ascii_of_nat (n - 32) else c.

(** [s.toUpperCase()] on ASCII text. *)
Fixpoint toUpperCase (s : string) : string :=
  match s with
  | EmptyString => EmptyString
  | String c rest => String (upperChar c) (toUpperCase rest)
  end.

(** The character class [[A-Z0-9]]. *)
Definition isUpperAlnum (c : ascii) : bool :=
  let n := nat_of_ascii c in
  ((65 <=? n)%nat && (n <=? 90)%nat) || ((48 <=? n)%nat && (n <=? 57)%nat).

(** [s.replace(/[^A-Z0-9]/g, "")]. *)
Fixpoint stripNonAlnum (s : string) : string :=
  match s with
  | EmptyString => EmptyString
  | String c rest =>
      if isUpperAlnum c then String c (stripNonAlnum rest) else stripNonAlnum rest
  end.

Fixpoint repeatChar (n : nat) (c : ascii) : string :=
  match n with
  | O => EmptyString
  | S k => String c (repeatChar k c)
  end.

(** [s.padStart(targetLength, pad)] for a pad string of one character. *)
Definition padStart (targetLength : nat) (pad : ascii) (s : string) : string :=
  repeatChar (targetLength - String.length s) pad +:+ s.

(** ** Rows, errors and results *)

(** [row[key]]: a missing property reads as [undefined]. *)
Definition get (row : gmap string jsval) (key : string) : jsval :=
  default VUndefined (row !! key).

Record ValidationError : Type := mkValidationError {
  row : nat;
  field : string;
  value : jsval;
  message : string
}.

#[global] Instance ValidationError_eq_dec : EqDecision ValidationError.
Proof. solve_decision. Defined.

Record ImportResult : Type := mkImportResult {
  success : bool;
  recordsImported : nat;
  errors : list ValidationError;
  resultMessage : string;
  generatedCodes : option (gmap string string)
}.

(** ** mapExcelToSQL *)

Definition mapExcelToSQL (excelRow : gmap string jsval)
    (mappings : list (string * string)) : gmap string jsval :=
  fold_left
    (fun (sqlRow : gmap string jsval) (entry : string * string) =>
       let value := get excelRow entry.1 in
       let value :=
         if bool_decide (value = VStr "NULL") || bool_decide (value = VStr "null")
         then VNull else value in
       <[entry.2 := value]> sqlRow)
    mappings ∅.

Definition columnMap : list (string * string) :=
  [ ("OfficeCode", "OfficeCode"); ("OfficeDesc", "OfficeDesc");
    ("OfficePAddress", "OfficePAddress"); ("OfficeBussAdd", "OfficeBussAdd");
    ("OfficeTel", "OfficeTel"); ("OfficeFax", "OfficeFax");
    ("OfficeBank", "OfficeBank"); ("OfficeBranch", "OfficeBranch");
    ("OfficeBranchNo", "OfficeBranchNo"); ("OfficeBankAcc", "OfficeBankAcc");
    ("OfficeRegNo", "OfficeRegNo"); ("OfficeTaxNo", "OfficeTaxNo");
    ("OfficeURL", "OfficeURL"); ("OfficeEmail", "OfficeEmail") ].

(** ** validateOfficeData *)

Definition isSentinel (code : jsval) : bool :=
  bool_decide (code = VStr "OfficeCode") || bool_decide (code = VStr "Data")
  || bool_decide (code = VStr "Context").

(** [v.length > bound], guarded in the source by [v] being truthy: only a
    string has a [length]; on a number or a boolean the property is
    [undefined] and the comparison is false. *)
Definition lengthExceeds (v : jsval) (bound : nat) : bool :=
  match v with
  | VStr s => bool_decide (bound < String.length s)
  | _ => false
  end.

Definition pushIf (cond : bool) (e : ValidationError)
    (errors : list ValidationError) : list ValidationError :=
  if cond then errors ++ [e] else errors.

(** The body of the [forEach] callback, on the two accumulators that the
    callback closes over. *)
Definition validateRow (rowOffset : nat)
    (acc : list ValidationError * gset jsval) (index : nat)
    (r : gmap string jsval) : list ValidationError * gset jsval :=
  let '(errors, seenCodes) := acc in
  let actualRow := index + rowOffset in
  let code := get r "OfficeCode" in
  let desc := get r "OfficeDesc" in
  if isSentinel code then (errors, seenCodes)
  else
    let errors :=
      pushIf (negb (truthy code))
        (mkValidationError actualRow "OfficeCode" code
           "Office Code is required and will be auto-generated if missing")
        errors in
    let errors :=
      pushIf (negb (truthy desc))
        (mkValidationError actualRow "OfficeDesc" desc "Office Name is required")
        errors in
    let errors :=
      pushIf (truthy code && bool_decide (code ∈ seenCodes))
        (mkValidationError actualRow "OfficeCode" code
           ("Duplicate Office Code: " +:+ toString code))
        errors in
    let seenCodes := if truthy code then {[code]} ∪ seenCodes else seenCodes in
    let errors :=
      pushIf (truthy code && lengthExceeds code 10)
        (mkValidationError actualRow "OfficeCode" code
           "Office Code must be 10 characters or less")
        errors in
    let errors :=
      pushIf (truthy desc && lengthExceeds desc 100)
        (mkValidationError actualRow "OfficeDesc" desc
           "Office Name must be 100 characters or less")
        errors in
    (errors, seenCodes).

Fixpoint validateFrom (rowOffset index : nat) (data : list (gmap string jsval))
    (acc : list ValidationError * gset jsval)
    : list ValidationError * gset jsval :=
  match data with
  | [] => acc
  | r :: rest =>
      validateFrom rowOffset (S index) rest (validateRow rowOffset acc index r)
  end.

Definition validateOfficeData (data : list (gmap string jsval))
    (rowOffset : nat) : list ValidationError :=
  (validateFrom rowOffset 0 data ([], ∅)).1.

(** The filter of [importOffices] that picks the blocking errors. *)
Definition isCritical (e : ValidationError) : bool :=
  includes "required" (message e) || includes "Duplicate" (message e).

Definition criticalErrors (validationErrors : list ValidationError)
    : list ValidationError :=
  List.filter isCritical validationErrors.

(** ** The code generation loop of importOffices *)

(** What a piece of the program does when run: it returns, it throws an
    [Error] with a message, or (for the [while] loop only) the bounded
    unrolling of the model is used up before the loop ends. *)
Inductive result (A : Type) : Type :=
  | Returned (a : A)
  | Thrown (errorMessage : string)
  | Diverged.
Arguments Returned {A} a.
Arguments Thrown {A} errorMessage.
Arguments Diverged {A}.

(** [office.OfficeCode]. *)
Definition officeCodeOf (office : gmap string jsval) : jsval :=
  get office "OfficeCode".

(** [offices.map(o => o.OfficeCode).filter(Boolean)]. *)
Definition existingCodes (offices : list (gmap string jsval)) : list jsval :=
  List.filter truthy (map officeCodeOf offices).

(** [office.OfficeDesc.substring(0, 10).toUpperCase().replace(/[^A-Z0-9]/g, "")]. *)
Definition baseCodeOf (desc : string) : string :=
  stripNonAlnum (toUpperCase (substring 0 10 desc)).

(** The candidate built inside the [while] loop. *)
Definition candidate (baseCode : string) (counter : nat) : string :=
  substring 0 8 baseCode +:+ padStart 2 "0" (natToString counter).

(** The [while] loop, entered with the current [code] and [counter]; [fuel]
    bounds the number of iterations of the model. *)
Fixpoint probe (fuel : nat) (existing : list jsval) (baseCode : string)
    (counter : nat) (code : string) : option string :=
  if bool_decide (VStr code ∈ existing) then
    match fuel with
    | O => None
    | S fuel' =>
        probe fuel' existing baseCode (S counter) (candidate baseCode counter)
    end
  else Some code.

(** [generatedCodes[desc] = code] on the plain object [generatedCodes]: the
    key "__proto__" reaches the setter of [Object.prototype], which ignores
    a string, so no own property is stored; every other key is stored. *)
Definition setGenerated (generated : gmap string string) (desc code : string)
    : gmap string string :=
  if String.eqb desc "__proto__" then generated else <[desc := code]> generated.

(** One iteration of the first [for (const office of offices)] loop, for the
    record at position [i] of the batch; the record is updated in place. *)
Definition reconcileOffice
    (st : list (gmap string jsval) * gmap string string) (i : nat)
    : result (list (gmap string jsval) * gmap string string) :=
  let '(offices, generated) := st in
  match offices !! i with
  | None => Returned st
  | Some office =>
      if truthy (officeCodeOf office) then Returned st
      else
        match get office "OfficeDesc" with
        | VStr desc =>
            let baseCode := baseCodeOf desc in
            let existing := existingCodes offices in
            match probe (S (length existing)) existing baseCode 1 baseCode with
            | None => Diverged
            | Some code =>
                Returned
                  (<[i := <["OfficeCode" := VStr code]> office]> offices,
                   setGenerated generated desc code)
            end
        | VUndefined =>
            Thrown "Cannot read properties of undefined (reading 'substring')"
        | VNull => Thrown "Cannot read properties of null (reading 'substring')"
        | _ => Thrown "office.OfficeDesc.substring is not a function"
        end
  end.

Fixpoint reconcileLoop (indices : list nat)
    (st : list (gmap string jsval) * gmap string string)
    : result (list (gmap string jsval) * gmap string string) :=
  match indices with
  | [] => Returned st
  | i :: rest =>
      match reconcileOffice st i with
      | Returned st' => reconcileLoop rest st'
      | Thrown m => Thrown m
      | Diverged => Diverged
      end
  end.

Definition reconcile (offices : list (gmap string jsval))
    : result (list (gmap string jsval) * gmap string string) :=
  reconcileLoop (seq 0 (length offices)) (offices, ∅).

(** ** The session and the import *)

Record Session : Type := mkSession {
  pool : bool;                            (* [this.pool] is not [null] *)
  countryID : Z;
  sent : list (list (string * jsval));    (* INSERTs received by the store *)
  uuidCalls : nat                         (* calls to [uuidv4] so far *)
}.

Definition withPool (s : Session) (p : bool) : Session :=
  mkSession p (countryID s) (sent s) (uuidCalls s).

Definition tickUuid (s : Session) : Session :=
  mkSession (pool s) (countryID s) (sent s) (S (uuidCalls s)).

Definition logQuery (s : Session) (params : list (string * jsval)) : Session :=
  mkSession (pool s) (countryID s) (sent s ++ [params]) (uuidCalls s).

(** The sixteen [request.input] calls. *)
Definition bindParams (country : Z) (office : gmap string jsval)
    (officeID : string) : list (string * jsval) :=
  [ ("CountryID", VNum country); ("OfficeCode", get office "OfficeCode");
    ("OfficeID", VStr officeID); ("OfficeDesc", get office "OfficeDesc");
    ("OfficePAddress", get office "OfficePAddress");
    ("OfficeBussAdd", get office "OfficeBussAdd");
    ("OfficeTel", get office "OfficeTel"); ("OfficeFax", get office "OfficeFax");
    ("OfficeBank", get office "OfficeBank");
    ("OfficeBranch", get office "OfficeBranch");
    ("OfficeBranchNo", get office "OfficeBranchNo");
    ("OfficeBankAcc", get office "OfficeBankAcc");
    ("OfficeRegNo", get office "OfficeRegNo");
    ("OfficeTaxNo", get office "OfficeTaxNo");
    ("OfficeURL", get office "OfficeURL");
    ("OfficeEmail", get office "OfficeEmail") ].

Definition databaseError (index : nat) (office : gmap string jsval)
    (errorMessage : string) : ValidationError :=
  mkValidationError (index + 2) "database" (get office "OfficeCode")
    ("Database error: " +:+ errorMessage).

Definition generalError (errorMessage : string) : ImportResult :=
  mkImportResult false 0 [mkValidationError 0 "general" (VStr "") errorMessage]
    ("Failed to import offices: " +:+ errorMessage) None.

(** The predicate [row => row.OfficeDesc] of the filter. *)
Definition hasDesc (r : gmap string jsval) : bool := truthy (get r "OfficeDesc").

(** [rawData.map(row => this.mapExcelToSQL(row, columnMap)).filter(row => row.OfficeDesc)]. *)
Definition officesOf (rawData : list (gmap string jsval))
    : list (gmap string jsval) :=
  List.filter hasDesc (map (fun r => mapExcelToSQL r columnMap) rawData).

Section ImportModel.

(** [sql.connect(config)]: [None] when the pool is obtained, [Some m] when
    the promise rejects with message [m]. *)
Variable sql_connect : option string.
(** [readExcelFile(path)]: the rows of the first sheet, or the message of
    the fault raised while reading. *)
Variable readExcelFile : string -> string + list (gmap string jsval).
(** [request.query(INSERT ...)]: given the statements the store received
    before and the bound parameters, [None] when the insert succeeds and
    [Some m] when it fails with message [m]. *)
Variable query : list (list (string * jsval)) -> list (string * jsval) -> option string.
(** The identifier returned by the n-th call of [uuidv4]. *)
Variable uuidv4 : nat -> string.

Definition connect (s : Session) : Session * result unit :=
  if pool s then (s, Returned tt)
  else
    match sql_connect with
    | None => (withPool s true, Returned tt)
    | Some m => (s, Thrown m)
    end.

(** The second [for (const office of offices)] loop; [index] is the
    position of [office] in the batch, which is what
    [offices.indexOf(office)] finds for the distinct row objects built by
    [map]. *)
Fixpoint persistFrom (index : nat) (offices : list (gmap string jsval))
    (s : Session) (recordsImported : nat)
    (validationErrors : list ValidationError)
    : Session * nat * list ValidationError :=
  match offices with
  | [] => (s, recordsImported, validationErrors)
  | office :: rest =>
      let officeID := uuidv4 (uuidCalls s) in
      let s := tickUuid s in
      if pool s then
        let params := bindParams (countryID s) office officeID in
        match query (sent s) params with
        | None =>
            persistFrom (S index) rest (logQuery s params)
              (S recordsImported) validationErrors
        | Some m =>
            persistFrom (S index) rest (logQuery s params) recordsImported
              (validationErrors ++ [databaseError index office m])
        end
      else
        persistFrom (S index) rest s recordsImported
          (validationErrors ++
             [databaseError index office
                "Cannot read properties of null (reading 'request')"])
  end.

(** The body of the [try] block of [importOffices]. *)
Definition importBody (s : Session) (excelPath : string)
    : Session * result ImportResult :=
  match readExcelFile excelPath with
  | inl m => (s, Thrown m)
  | inr rawData =>
      let offices := officesOf rawData in
      let validationErrors := validateOfficeData offices 2 in
      let critical := criticalErrors validationErrors in
      if bool_decide (0 < length validationErrors)
         && bool_decide (0 < length critical)
      then
        (s, Returned
              (mkImportResult false 0 validationErrors
                 ("Validation failed with " +:+ natToString (length critical)
                    +:+ " critical error(s)") None))
      else
        match reconcile offices with
        | Thrown m => (s, Thrown m)
        | Diverged => (s, Diverged)
        | Returned (offices', generated) =>
            let '(s', imported, allErrors) :=
              persistFrom 0 offices' s 0 validationErrors in
            (s', Returned
                   (mkImportResult (bool_decide (0 < imported)) imported
                      allErrors
                      ("Successfully imported " +:+ natToString imported
                         +:+ " of " +:+ natToString (length offices')
                         +:+ " office(s)")
                      (if bool_decide (0 < size generated)
                       then Some generated else None)))
        end
  end.

(** [importOffices]: [await this.connect()] stands before the [try]; the
    [catch] turns whatever the body throws into the general error. *)
Definition importOffices (s : Session) (excelPath : string)
    : Session * result ImportResult :=
  match connect s with
  | (s1, Thrown m) => (s1, Thrown m)
  | (s1, Diverged) => (s1, Diverged)
  | (s1, Returned _) =>
      match importBody s1 excelPath with
      | (s2, Thrown m) => (s2, Returned (generalError m))
      | other => other
      end
  end.

End ImportModel.

(** A row object with a code and a description, the other columns empty. *)
Definition mkRow (code desc : jsval) : gmap string jsval :=
  <["OfficeDesc" := desc]> (<["OfficeCode" := code]> ∅).

(** ** licenseDatabase *)

(** The line terminators of a regular expression ([^] and [$] under the
    [m] flag) among the characters modelled: line feed and carriage return. *)
Definition isLineTerminator (c : ascii) : bool :=
  let n := nat_of_ascii c in (n =? 10)%nat || (n =? 13)%nat.

(** The class [\s], which is also what [trim] strips: tab, line feed,
    vertical tab, form feed, carriage return and space. *)
Definition isWhiteSpace (c : ascii) : bool :=
  let n := nat_of_ascii c in ((9 <=? n)%nat && (n <=? 13)%nat) || (n =? 32)%nat.

(** [^] before a position, given the character that precedes it. *)
Definition atLineStart (prev : option ascii) : bool :=
  match prev with
  | None => true
  | Some c => isLineTerminator c
  end.

(** The length of the longest run of [\s] at the head of [s]. *)
Fixpoint wsRun (s : string) : nat :=
  match s with
  | String c rest => if isWhiteSpace c then S (wsRun rest) else 0
  | EmptyString => 0
  end.

Fixpoint dropChars (n : nat) (s : string) : string :=
  match n, s with
  | S k, String _ rest => dropChars k rest
  | _, _ => s
  end.

(** The tail [\s*$] of the pattern, greedy with backtracking: the largest
    number of whitespace characters at the head of [s] after which the input
    ends or a line terminator follows; [None] when there is none. *)
Fixpoint trailing (s : string) : option nat :=
  match s with
  | EmptyString => Some 0
  | String c rest =>
      if isWhiteSpace c then
        match trailing rest with
        | Some k => Some (S k)
        | None => if isLineTerminator c then Some 0 else None
        end
      else None
  end.

(** The letters of the separator under the [i] flag. *)
Definition isLetterG (c : ascii) : bool :=
  let n := nat_of_ascii c in (n =? 71)%nat || (n =? 103)%nat.
Definition isLetterO (c : ascii) : bool :=
  let n := nat_of_ascii c in (n =? 79)%nat || (n =? 111)%nat.

(** A match of [/^\s*GO\s*$/im] that starts exactly at the head of [s],
    where [prev] is the character before it: the length of the match.  The
    leading [\s*] can only stop at the end of the whitespace run, since
    anywhere earlier the next character is no [G]. *)
Definition matchSeparator (prev : option ascii) (s : string) : option nat :=
  if atLineStart prev then
    match dropChars (wsRun s) s with
    | String g (String o rest) =>
        if isLetterG g && isLetterO o
        then option_map (fun k => wsRun s + 2 + k) (trailing rest)
        else None
    | _ => None
    end
  else None.

(** [script.split(/^\s*GO\s*$/gim)]: the scan of the split algorithm.
    [piece] is the text since the end of the last match, [skip] the number
    of characters of the current match still to pass over; a match is tried
    at every other position, from left to right. *)
Fixpoint splitFrom (prev : option ascii) (piece : string) (skip : nat)
    (s : string) : list string :=
  match s with
  | EmptyString => [piece]
  | String c rest =>
      match skip with
      | S k => splitFrom (Some c) piece k rest
      | O =>
          match matchSeparator prev s with
          | Some (S k) => piece :: splitFrom (Some c) EmptyString k rest
          | _ => splitFrom (Some c) (piece +:+ String c EmptyString) 0 rest
          end
      end
  end.

Definition splitGO (script : string) : list string :=
  splitFrom None EmptyString 0 script.

Fixpoint trimStart (s : string) : string :=
  match s with
  | String c rest => if isWhiteSpace c then trimStart rest else s
  | EmptyString => EmptyString
  end.

Fixpoint trimEnd (s : string) : string :=
  match s with
  | String c rest =>
      match trimEnd rest with
      | EmptyString => if isWhiteSpace c then EmptyString else String c EmptyString
      | kept => String c kept
      end
  | EmptyString => EmptyString
  end.

(** [s.trim()]. *)
Definition trim (s : string) : string := trimEnd (trimStart s).

(** The batches of a script: split, trimmed, the empty ones dropped. *)
Definition batchesOf (script : string) : list string :=
  List.filter (fun batch => bool_decide (0 < String.length batch))
    (map trim (splitGO script)).

Definition scriptError (errorMessage : string) : ImportResult :=
  mkImportResult false 0 [mkValidationError 0 "script" (VStr "") errorMessage]
    ("Failed to license database: " +:+ errorMessage) None.

Section LicenseModel.

Variable sql_connect : option string.
(** [fs.readFile(scriptPath, "utf-8")]: the text, or the message of the
    fault. *)
Variable readFile : string -> string + string.
(** [request.query(batch)]: given the batches the store received before in
    this call, [None] when the batch runs and [Some m] when it fails. *)
Variable queryBatch : list string -> string -> option string.

(** The [for (const batch of batches)] loop: the batches the store has
    received, and the message of the failure that ended the loop, if any. *)
Fixpoint runBatches (received : list string) (batches : list string)
    : list string * option string :=
  match batches with
  | [] => (received, None)
  | batch :: rest =>
      match queryBatch received batch with
      | None => runBatches (received ++ [batch]) rest
      | Some m => (received ++ [batch], Some m)
      end
  end.

(** [licenseDatabase]: the session, the batches the store received, and the
    result.  After [connect] returned, [this.pool] is set. *)
Definition licenseDatabase (s : Session) (scriptPath : string)
    : Session * list string * result ImportResult :=
  match connect sql_connect s with
  | (s1, Thrown m) => (s1, [], Thrown m)
  | (s1, Diverged) => (s1, [], Diverged)
  | (s1, Returned _) =>
      match readFile scriptPath with
      | inl m => (s1, [], Returned (scriptError m))
      | inr script =>
          let batches := batchesOf script in
          match runBatches [] batches with
          | (received, None) =>
              (s1, received,
               Returned
                 (mkImportResult true 0 []
                    ("Database licensed successfully. Executed " +:+
                       natToString (length batches) +:+ " SQL batches.") None))
          | (received, Some m) => (s1, received, Returned (scriptError m))
          end
      end
  end.

End LicenseModel.

(** ** The constructor and the request handler *)

(** [ConnectionConfig], with the arguments typed as the input schema of
    [configure_database] declares them. *)
Record ConnectionConfig : Type := mkConnectionConfig {
  server : string;
  database : string;
  user : string;
  password : string;
  port : option Z;
  options : option (gmap string jsval)
}.

(** [s.split(sep)] for a separator of one character; [piece] is the text
    since the last separator. *)
Fixpoint splitChar (sep : ascii) (piece : string) (s : string) : list string :=
  match s with
  | EmptyString => [piece]
  | String c rest =>
      if Ascii.eqb c sep then piece :: splitChar sep EmptyString rest
      else splitChar sep (piece +:+ String c EmptyString) rest
  end.

(** The constructor of [GreatSoftImplementation]: the value of
    [this.config].  [parts[1]] is [undefined] when there is no second part. *)
Definition newImplementation (config : ConnectionConfig) : ConnectionConfig :=
  let parts :=
    if includes "\" (server config)
    then Some (splitChar "\" EmptyString (server config)) else None in
  let serverName :=
    match parts with
    | Some (first :: _) => first
    | _ => server config
    end in
  let instanceName :=
    match parts with
    | Some (_ :: second :: _) => VStr second
    | _ => VUndefined
    end in
  mkConnectionConfig serverName (database config) (user config)
    (password config) (port config)
    (Some
       (default ∅ (options config)
          ∪ <["instanceName" := instanceName]>
              (<["trustServerCertificate" := VBool true]>
                 (<["encrypt" := VBool true]> ∅)))).

(** The arguments of a tool call, typed as the input schemas declare them;
    the optional numbers may be absent. *)
Record Arguments : Type := mkArguments {
  argServer : string;
  argDatabase : string;
  argUser : string;
  argPassword : string;
  argPort : option Z;
  argCountryID : option Z;
  argScriptPath : string;
  argExcelPath : string
}.

Record CallToolRequest : Type := mkCallToolRequest {
  name : string;
  arguments : Arguments
}.

(** The answer of the handler; [isError] is [false] where the source leaves
    the property out. *)
Record ToolResponse : Type := mkToolResponse {
  text : string;
  isError : bool
}.

(** The module variable [implementation] ([None] for [null]) with the pool
    and the country of the instance in [session], and the batches the store
    received from [licenseDatabase]. *)
Record ServerState : Type := mkServerState {
  implementation : option ConnectionConfig;
  session : Session;
  batchesReceived : list string
}.

(** [n || fallback] for an optional number. *)
Definition numberOr (n : option Z) (fallback : Z) : Z :=
  match n with
  | Some k => if (k =? 0)%Z then fallback else k
  | None => fallback
  end.

(** The line feed, and the three characters of the texts that lie outside
    ASCII, each kept as one opaque piece of text. *)
Definition nl : string := String "010" EmptyString.
Definition checkMark : string := "✓".
Definition crossMark : string := "❌".
Definition bullet : string := "•".

Fixpoint concatStrings (l : list string) : string :=
  match l with
  | [] => EmptyString
  | x :: rest => x +:+ concatStrings rest
  end.

Definition warningLine (e : ValidationError) : string :=
  "  " +:+ bullet +:+ " Row " +:+ natToString (row e) +:+ ", " +:+ field e
    +:+ ": " +:+ message e +:+ nl.

Definition generatedLine (entry : string * string) : string :=
  "  " +:+ bullet +:+ " " +:+ entry.1 +:+ ": " +:+ entry.2 +:+ nl.

Section HandlerModel.

(** [sql.connect(config)] for the configuration of the instance. *)
Variable sql_connect : ConnectionConfig -> option string.
Variable readExcelFile : string -> string + list (gmap string jsval).
Variable query : list (list (string * jsval)) -> list (string * jsval) -> option string.
Variable uuidv4 : nat -> string.
Variable readFile : string -> string + string.
Variable queryBatch : list string -> string -> option string.
(** The [count] of the first row a counting query returns, or the message
    of its failure. *)
Variable countQuery : string -> string + jsval.
(** [JSON.stringify(result, null, 2)]. *)
Variable jsonStringify : ImportResult -> string.
(** [Object.entries] of the generated codes, in the order of the object. *)
Variable objectEntries : gmap string string -> list (string * string).

(** [getImplementationStatus]: the three counts. *)
Definition getImplementationStatus (config : ConnectionConfig) (s : Session)
    : Session * result (jsval * jsval * jsval) :=
  match connect (sql_connect config) s with
  | (s1, Thrown m) => (s1, Thrown m)
  | (s1, Diverged) => (s1, Diverged)
  | (s1, Returned _) =>
      match countQuery "SELECT COUNT(*) as count FROM dbo.Office" with
      | inl m => (s1, Thrown m)
      | inr offices =>
          match countQuery "SELECT COUNT(*) as count FROM dbo.Employee" with
          | inl m => (s1, Thrown m)
          | inr employees =>
              match countQuery "SELECT COUNT(*) as count FROM dbo.Client" with
              | inl m => (s1, Thrown m)
              | inr clients => (s1, Returned (offices, employees, clients))
              end
          end
      end
  end.

(** The text the handler builds from the result of [importOffices]. *)
Definition importText (res : ImportResult) : string :=
  let message := resultMessage res in
  let message :=
    match generatedCodes res with
    | Some generated =>
        if bool_decide (0 < size generated)
        then message +:+ nl +:+ nl +:+ "**Auto-generated Office Codes:**" +:+ nl
               +:+ concatStrings (map generatedLine (objectEntries generated))
        else message
    | None => message
    end in
  if bool_decide (0 < length (errors res))
  then message +:+ nl +:+ nl +:+ "**Validation Warnings:**" +:+ nl
         +:+ concatStrings (map warningLine (errors res))
  else message.

(** The body of the [try] block of the [CallToolRequestSchema] handler. *)
Definition callToolBody (st : ServerState) (request : CallToolRequest)
    : ServerState * result ToolResponse :=
  let args := arguments request in
  if String.eqb (name request) "configure_database" then
    let config :=
      mkConnectionConfig (argServer args) (argDatabase args) (argUser args)
        (argPassword args) (Some (numberOr (argPort args) 1433))
        (Some (<["trustServerCertificate" := VBool true]>
                 (<["encrypt" := VBool true]> ∅))) in
    let instance := newImplementation config in
    let s := mkSession false 1 (sent (session st)) (uuidCalls (session st)) in
    let s :=
      match argCountryID args with
      | Some k =>
          if (k =? 0)%Z then s
          else mkSession (pool s) k (sent s) (uuidCalls s)
      | None => s
      end in
    match connect (sql_connect instance) s with
    | (s1, Returned _) =>
        (mkServerState (Some instance) s1 (batchesReceived st),
         Returned
           (mkToolResponse
              (checkMark +:+ " Connected to SQL Server: " +:+ server config
                 +:+ "/" +:+ database config +:+ nl +:+ checkMark
                 +:+ " Country ID set to: "
                 +:+ toString (VNum (numberOr (argCountryID args) 1))
                 +:+ nl +:+ nl +:+ "Ready for implementation!")
              false))
    | (s1, Thrown m) =>
        (mkServerState (Some instance) s1 (batchesReceived st), Thrown m)
    | (s1, Diverged) =>
        (mkServerState (Some instance) s1 (batchesReceived st), Diverged)
    end
  else
    match implementation st with
    | None => (st, Thrown "Database not configured. Call configure_database first.")
    | Some instance =>
        if String.eqb (name request) "license_database" then
          match licenseDatabase (sql_connect instance) readFile queryBatch
                  (session st) (argScriptPath args) with
          | (s1, received, out) =>
              (mkServerState (Some instance) s1 (batchesReceived st ++ received),
               match out with
               | Returned res => Returned (mkToolResponse (jsonStringify res) false)
               | Thrown m => Thrown m
               | Diverged => Diverged
               end)
          end
        else if String.eqb (name request) "import_offices" then
          match importOffices (sql_connect instance) readExcelFile query uuidv4
                  (session st) (argExcelPath args) with
          | (s1, out) =>
              (mkServerState (Some instance) s1 (batchesReceived st),
               match out with
               | Returned res => Returned (mkToolResponse (importText res) false)
               | Thrown m => Thrown m
               | Diverged => Diverged
               end)
          end
        else if String.eqb (name request) "get_implementation_status" then
          match getImplementationStatus instance (session st) with
          | (s1, out) =>
              (mkServerState (Some instance) s1 (batchesReceived st),
               match out with
               | Returned (offices, employees, clients) =>
                   Returned
                     (mkToolResponse
                        ("**GreatSoft Implementation Status**" +:+ nl +:+ nl
                           +:+ "Offices: " +:+ toString offices +:+ nl
                           +:+ "Employees: " +:+ toString employees +:+ nl
                           +:+ "Clients: " +:+ toString clients +:+ nl +:+ nl
                           +:+ "Status: In Progress")
                        false)
               | Thrown m => Thrown m
               | Diverged => Diverged
               end)
          end
        else (st, Thrown ("Unknown tool: " +:+ name request))
    end.

(** The handler: whatever the body throws becomes an error response. *)
Definition callTool (st : ServerState) (request : CallToolRequest)
    : ServerState * result ToolResponse :=
  match callToolBody st request with
  | (st1, Thrown m) =>
      (st1, Returned (mkToolResponse (crossMark +:+ " Error: " +:+ m) true))
  | other => other
  end.

End HandlerModel.

(** * Vocabulary of the statements

    Definitions used to state the properties: none of them is part of the
    program. *)

(** The parameter sets of one INSERT per record, in batch order. *)
Fixpoint attempts (uuidv4 : nat -> string) (country : Z) (uuidBase : nat)
    (offices : list (gmap string jsval)) : list (list (string * jsval)) :=
  match offices with
  | [] => []
  | office :: rest =>
      bindParams country office (uuidv4 uuidBase)
        :: attempts uuidv4 country (S uuidBase) rest
  end.

(** What the store answers to each of them, sent one after the other. *)
Fixpoint outcomes
    (query : list (list (string * jsval)) -> list (string * jsval) -> option string)
    (sentBefore : list (list (string * jsval)))
    (statements : list (list (string * jsval))) : list (option string) :=
  match statements with
  | [] => []
  | p :: rest =>
      query sentBefore p :: outcomes query (sentBefore ++ [p]) rest
  end.

(** The codes that enter [seenCodes]. *)
Definition tracked (data : list (gmap string jsval)) : list jsval :=
  List.filter (fun c => truthy c && negb (isSentinel c)) (map officeCodeOf data).

(** The errors one row adds, given the codes seen before it. *)
Definition rowErrors (rowOffset index : nat) (r : gmap string jsval)
    (seen : gset jsval) : list ValidationError :=
  (validateRow rowOffset ([], seen) index r).1.

(** The errors the rows of [data] add, the first of them at position
    [index], given the codes seen before them. *)
Definition errorsOf (rowOffset index : nat) (data : list (gmap string jsval))
    (seen : gset jsval) : list ValidationError :=
  (validateFrom rowOffset index data ([], seen)).1.

(** Names for the five findings of the validator. *)
Definition missingCodeError (actualRow : nat) (code : jsval) : ValidationError :=
  mkValidationError actualRow "OfficeCode" code
    "Office Code is required and will be auto-generated if missing".
Definition missingDescError (actualRow : nat) (desc : jsval) : ValidationError :=
  mkValidationError actualRow "OfficeDesc" desc "Office Name is required".
Definition duplicateError (actualRow : nat) (code : jsval) : ValidationError :=
  mkValidationError actualRow "OfficeCode" code
    ("Duplicate Office Code: " +:+ toString code).
Definition longCodeError (actualRow : nat) (code : jsval) : ValidationError :=
  mkValidationError actualRow "OfficeCode" code
    "Office Code must be 10 characters or less".
Definition longDescError (actualRow : nat) (desc : jsval) : ValidationError :=
  mkValidationError actualRow "OfficeDesc" desc
    "Office Name must be 100 characters or less".

(** Reading a counter back from its padded decimal form. *)
Definition parseCounter (s : string) : option nat :=
  option_map Nat.of_uint (NilEmpty.uint_of_string s).

(** The database findings for the inserts that failed. *)
Fixpoint failures (index : nat) (offices : list (gmap string jsval))
    (outs : list (option string)) : list ValidationError :=
  match offices, outs with
  | office :: rest, out :: outs' =>
      match out with
      | Some m => [databaseError index office m]
      | None => []
      end ++ failures (S index) rest outs'
  | _, _ => []
  end.

(** The number of inserts that succeeded. *)
Fixpoint successes (outs : list (option string)) : nat :=
  match outs with
  | [] => 0
  | None :: rest => S (successes rest)
  | Some _ :: rest => successes rest
  end.

(** Sample worlds for the concrete runs below. *)
Definition sampleSession : Session := mkSession false 1 [] 0.
Definition acceptAll : list (list (string * jsval)) -> list (string * jsval) -> option string :=
  fun _ _ => None.
Definition sheet (rows : list (gmap string jsval))
    : string -> string + list (gmap string jsval) :=
  fun _ => inr rows.
Definition sampleUuid : nat -> string := fun n => "uuid-" +:+ natToString n.

(** The codes of the batch after the code generation loop. *)
Definition codesAfter (offices : list (gmap string jsval)) : result (list jsval) :=
  match reconcile offices with
  | Returned (offices', _) => Returned (map officeCodeOf offices')
  | Thrown m => Thrown m
  | Diverged => Diverged
  end.

(** A store that refuses every insert carrying the given office code. *)
Definition rejectCode (code : string)
    : list (list (string * jsval)) -> list (string * jsval) -> option string :=
  fun _ params =>
    if bool_decide (("OfficeCode", VStr code) ∈ params)
    then Some "Violation of UNIQUE KEY constraint" else None.

(** A batch of 99 records that carry the codes "ABCDEFGH01" to "ABCDEFGH99",
    followed by one record without a code whose description is
    "ABCDEFGH01". *)
Definition crowdedBatch : list (gmap string jsval) :=
  map (fun k => mkRow (VStr (candidate "ABCDEFGH01" k)) (VStr "Branch office"))
    (seq 1 99)
  ++ [mkRow VNull (VStr "ABCDEFGH01")].


(** The conversion the loop of [mapExcelToSQL] applies to one cell. *)
Definition normalizeCell (v : jsval) : jsval :=
  if bool_decide (v = VStr "NULL") || bool_decide (v = VStr "null")
  then VNull else v.

(** The test the specification words: the text "null" in any letter case. *)
Definition isNullLiteralAnyCase (v : jsval) : bool :=
  match v with
  | VStr s => String.eqb (toUpperCase s) "NULL"
  | _ => false
  end.

(** The state of the batch when the loop reaches position [k]: the records
    from [k] on are untouched, the earlier ones keep their explicit code or
    carry a generated one, and a generated code that is not empty sits on no
    other record. *)
Definition freshUpTo (orig : list (gmap string jsval)) (k : nat)
    (cur : list (gmap string jsval)) : Prop :=
  length cur = length orig
  /\ (forall j, k <= j -> cur !! j = orig !! j)
  /\ (forall j o, j < k -> orig !! j = Some o ->
        (truthy (officeCodeOf o) = true -> cur !! j = Some o)
        /\ (truthy (officeCodeOf o) = false ->
            exists code,
              cur !! j = Some (<["OfficeCode" := VStr code]> o)
              /\ (code <> "" ->
                  forall l o', l <> j -> cur !! l = Some o' ->
                    officeCodeOf o' <> VStr code))).

(** The character before the position that follows [x], when [prev] is the
    character before [x]. *)
Fixpoint lastOr (prev : option ascii) (x : string) : option ascii :=
  match x with
  | EmptyString => prev
  | String c rest => lastOr (Some c) rest
  end.

(** No separator matches at any position of [x], when [x] is followed by
    [rest] and preceded by [prev]. *)
Fixpoint quiet (prev : option ascii) (x rest : string) : Prop :=
  match x with
  | EmptyString => True
  | String c x' =>
      matchSeparator prev (String c x' +:+ rest) = None
      /\ quiet (Some c) x' rest
  end.

(** The text after a position: empty, or starting with a line terminator. *)
Definition opensLine (rest : string) : Prop :=
  match rest with
  | EmptyString => True
  | String c _ => isLineTerminator c = true
  end.

(** A text made of whitespace only. *)
Fixpoint allWhiteSpace (s : string) : bool :=
  match s with
  | EmptyString => true
  | String c rest => isWhiteSpace c && allWhiteSpace rest
  end.

(** A batch as [licenseDatabase] sends them: not empty, no whitespace at
    either end, and no separator line inside. *)
Definition cleanBatch (batch : string) : Prop :=
  batch <> EmptyString /\ trimStart batch = batch /\ trimEnd batch = batch
  /\ splitGO batch = [batch].

(** Batches written out as a script, a line "GO" between two of them. *)
Fixpoint joinGO (batches : list string) : string :=
  match batches with
  | [] => EmptyString
  | [batch] => batch
  | batch :: rest =>
      batch +:+ String "010" ("GO" +:+ String "010" (joinGO rest))
  end.

(** * Properties *)

(** ** Strings and values *)

Lemma string_app_length (a b : string) :
  String.length (a +:+ b) = String.length a + String.length b.
Proof. induction a as [|c a IH]; simpl; [done | by rewrite IH]. Qed.

Lemma string_app_inv_head (p a b : string) : p +:+ a = p +:+ b -> a = b.
Proof. induction p as [|c p IH]; simpl; [done | intros [= H]; auto]. Qed.

Lemma truthy_not_sentinel (v : jsval) : truthy v = false -> isSentinel v = false.
Proof. by destruct v as [| |[]|[]|[]]. Qed.

Lemma isSentinel_spec (v : jsval) :
  isSentinel v = true <->
  v = VStr "OfficeCode" \/ v = VStr "Data" \/ v = VStr "Context".
Proof.
  unfold isSentinel. rewrite !orb_true_iff, !bool_decide_eq_true. tauto.
Qed.

(** ** The validator, row by row *)

Lemma pushIf_app c e (a b : list ValidationError) :
  pushIf c e (a ++ b) = a ++ pushIf c e b.
Proof. destruct c; simpl; [by rewrite app_assoc | done]. Qed.

Lemma validateRow_split off errs seen k r :
  validateRow off (errs, seen) k r =
  (errs ++ rowErrors off k r seen, seen ∪ list_to_set (tracked [r])).
Proof.
  unfold rowErrors, validateRow, tracked, officeCodeOf. simpl.
  destruct (isSentinel (get r "OfficeCode")) eqn:Hs; simpl.
  - rewrite andb_false_r. simpl. f_equal; [by rewrite app_nil_r | set_solver].
  - rewrite andb_true_r.
    rewrite <- (app_nil_r errs) at 1. rewrite !pushIf_app. f_equal.
    destruct (truthy (get r "OfficeCode")); simpl; set_solver.
Qed.

Lemma tracked_cons r l : tracked (r :: l) = tracked [r] ++ tracked l.
Proof. unfold tracked. simpl. by destruct (_ && _). Qed.

Lemma tracked_app l1 l2 : tracked (l1 ++ l2) = tracked l1 ++ tracked l2.
Proof. unfold tracked. by rewrite map_app, List.filter_app. Qed.

Lemma validateFrom_split off k data errs seen :
  validateFrom off k data (errs, seen) =
  (errs ++ errorsOf off k data seen, seen ∪ list_to_set (tracked data)).
Proof.
  revert k errs seen. induction data as [|r l IH]; intros k errs seen.
  - unfold errorsOf. simpl. f_equal; [by rewrite app_nil_r | set_solver].
  - unfold errorsOf. cbn [validateFrom].
    rewrite !validateRow_split, !IH. cbn [fst snd]. rewrite app_nil_l.
    rewrite (tracked_cons r l), list_to_set_app_L.
    f_equal; [by rewrite app_assoc | set_solver].
Qed.

Lemma errorsOf_cons off k r l seen :
  errorsOf off k (r :: l) seen =
  rowErrors off k r seen ++ errorsOf off (S k) l (seen ∪ list_to_set (tracked [r])).
Proof.
  unfold errorsOf at 1. cbn [validateFrom].
  by rewrite validateRow_split, validateFrom_split.
Qed.

Lemma errorsOf_app off k l1 l2 seen :
  errorsOf off k (l1 ++ l2) seen =
  errorsOf off k l1 seen ++
  errorsOf off (k + length l1) l2 (seen ∪ list_to_set (tracked l1)).
Proof.
  revert k seen. induction l1 as [|r l IH]; intros k seen.
  - simpl. rewrite Nat.add_0_r. unfold errorsOf at 2. simpl.
    by rewrite (right_id_L ∅ (∪)).
  - simpl. rewrite !errorsOf_cons, IH, <- app_assoc. do 3 f_equal; [lia|].
    rewrite (tracked_cons r l), list_to_set_app_L. set_solver.
Qed.

Lemma rowErrors_row off k r seen e : e ∈ rowErrors off k r seen -> row e = k + off.
Proof.
  unfold rowErrors, validateRow, pushIf.
  repeat (case_match; simpl); set_solver.
Qed.

Lemma errorsOf_rows off k data seen e :
  e ∈ errorsOf off k data seen -> k + off <= row e < k + length data + off.
Proof.
  revert k seen. induction data as [|r l IH]; intros k seen.
  - unfold errorsOf. simpl. set_solver.
  - rewrite errorsOf_cons, elem_of_app. intros [H|H].
    + apply rowErrors_row in H. simpl. lia.
    + apply IH in H. simpl. lia.
Qed.

(** The errors of a batch, split around the record at position [i]. *)
Lemma validate_at data off i r :
  data !! i = Some r ->
  exists before after,
    validateOfficeData data off =
      before ++ rowErrors off i r (list_to_set (tracked (take i data))) ++ after
    /\ (forall e, e ∈ before -> row e < i + off)
    /\ (forall e, e ∈ after -> i + off < row e).
Proof.
  intros Hi.
  pose proof (take_drop_middle data i r Hi) as Hsplit.
  assert (length (take i data) = i) as Hlen.
  { rewrite length_take. apply lookup_lt_Some in Hi. lia. }
  change (validateOfficeData data off) with (errorsOf off 0 data ∅).
  set (pre := take i data) in *. set (post := drop (S i) data) in *.
  clearbody pre post. subst data.
  rewrite errorsOf_app, errorsOf_cons. simpl. rewrite Hlen.
  eexists _, _. split; [|split].
  - f_equal. f_equal. f_equal. set_solver.
  - intros e He. apply errorsOf_rows in He. lia.
  - intros e He. apply errorsOf_rows in He. lia.
Qed.

Lemma rowErrors_elem off k r seen e :
  e ∈ rowErrors off k r seen <->
  isSentinel (officeCodeOf r) = false /\
  let code := officeCodeOf r in
  let desc := get r "OfficeDesc" in
  (e = missingCodeError (k + off) code /\ truthy code = false) \/
  (e = missingDescError (k + off) desc /\ truthy desc = false) \/
  (e = duplicateError (k + off) code /\ truthy code = true /\ code ∈ seen) \/
  (e = longCodeError (k + off) code /\ truthy code = true
     /\ lengthExceeds code 10 = true) \/
  (e = longDescError (k + off) desc /\ truthy desc = true
     /\ lengthExceeds desc 100 = true).
Proof.
  unfold rowErrors, validateRow, officeCodeOf, missingCodeError,
    missingDescError, duplicateError, longCodeError, longDescError.
  cbn zeta.
  destruct (isSentinel (get r "OfficeCode")); [set_solver|].
  destruct (truthy (get r "OfficeCode")), (truthy (get r "OfficeDesc")),
    (lengthExceeds (get r "OfficeCode") 10),
    (lengthExceeds (get r "OfficeDesc") 100);
    cbn [negb andb pushIf app fst]; try case_bool_decide;
    cbn [pushIf app fst]; set_solver.
Qed.

Lemma missingCode_critical k c : isCritical (missingCodeError k c) = true.
Proof. reflexivity. Qed.

Lemma missingDesc_critical k d : isCritical (missingDescError k d) = true.
Proof. reflexivity. Qed.

Lemma duplicate_critical k c : isCritical (duplicateError k c) = true.
Proof. unfold isCritical. apply orb_true_iff. right. reflexivity. Qed.

Lemma criticalErrors_elem e l : e ∈ criticalErrors l <-> e ∈ l /\ isCritical e = true.
Proof. unfold criticalErrors. rewrite !list_elem_of_In. apply filter_In. Qed.

Lemma criticalErrors_nil l e :
  criticalErrors l = [] -> e ∈ l -> isCritical e = true -> False.
Proof.
  intros Hnil He Hc.
  assert (e ∈ criticalErrors l) as H by (by apply criticalErrors_elem).
  rewrite Hnil in H. by apply elem_of_nil in H.
Qed.

Lemma tracked_elem c l :
  c ∈ tracked l <->
  truthy c = true /\ isSentinel c = false /\
  exists i r, l !! i = Some r /\ officeCodeOf r = c.
Proof.
  unfold tracked. rewrite list_elem_of_In, filter_In, in_map_iff.
  rewrite andb_true_iff, negb_true_iff. split.
  - intros [(r & Hr & Hin) [Ht Hs]]. repeat split; try done.
    apply list_elem_of_In, list_elem_of_lookup in Hin as [i Hi]. eauto.
  - intros (Ht & Hs & i & r & Hi & Hr). repeat split; try done.
    exists r. split; [done|]. apply list_elem_of_In, list_elem_of_lookup. eauto.
Qed.

Lemma missing_code_reported data off i r :
  data !! i = Some r -> truthy (officeCodeOf r) = false ->
  missingCodeError (i + off) (officeCodeOf r) ∈ validateOfficeData data off.
Proof.
  intros Hi Ht. destruct (validate_at data off i r Hi) as (b & a & -> & _).
  rewrite !elem_of_app, rowErrors_elem. right; left.
  split; [by apply truthy_not_sentinel | by left].
Qed.

Lemma missing_desc_reported data off i r :
  data !! i = Some r -> isSentinel (officeCodeOf r) = false ->
  truthy (get r "OfficeDesc") = false ->
  missingDescError (i + off) (get r "OfficeDesc") ∈ validateOfficeData data off.
Proof.
  intros Hi Hs Ht. destruct (validate_at data off i r Hi) as (b & a & -> & _).
  rewrite !elem_of_app, rowErrors_elem. right; left.
  split; [done | by right; left].
Qed.

(** Errors of the row at position [i] come from the record at position [i]. *)
Lemma error_at_row data off i e :
  e ∈ validateOfficeData data off -> row e = i + off ->
  exists r, data !! i = Some r /\
    e ∈ rowErrors off i r (list_to_set (tracked (take i data))).
Proof.
  intros He Hrow.
  assert (i < length data) as Hlt.
  { apply errorsOf_rows in He. lia. }
  destruct (lookup_lt_is_Some_2 data i Hlt) as [r Hi].
  exists r. split; [done|].
  destruct (validate_at data off i r Hi) as (b & a & Heq & Hb & Ha).
  rewrite Heq, !elem_of_app in He. destruct He as [He|[He|He]]; [|done|].
  - apply Hb in He. lia.
  - apply Ha in He. lia.
Qed.

Lemma sentinel_no_error data off i r e :
  data !! i = Some r -> isSentinel (officeCodeOf r) = true ->
  e ∈ validateOfficeData data off -> row e <> i + off.
Proof.
  intros Hi Hs He Hrow.
  destruct (error_at_row data off i e He Hrow) as (r' & Hi' & Hin).
  assert (r' = r) as -> by congruence.
  apply rowErrors_elem in Hin as [Hns _]. congruence.
Qed.

(** First-seen-wins: a duplicate finding is raised on a row exactly when its
    code is present, is no sentinel, and sits on an earlier row. *)
Lemma duplicate_reported_iff data off j c :
  duplicateError (j + off) c ∈ validateOfficeData data off <->
  exists r, data !! j = Some r /\ officeCodeOf r = c /\ truthy c = true /\
    isSentinel c = false /\
    exists i r', i < j /\ data !! i = Some r' /\ officeCodeOf r' = c.
Proof.
  split.
  - intros He.
    destruct (error_at_row data off j _ He eq_refl) as (r & Hj & Hin).
    exists r. split; [done|].
    apply rowErrors_elem in Hin as [Hns Hcases]. cbn zeta in Hcases.
    destruct Hcases as [[[=] _]|[[[=] _]|[(Heq & Ht & Hseen)|[[[=] _]|[[=] _]]]]].
    injection Heq as Hc _. subst c. repeat split; try done.
    apply elem_of_list_to_set, tracked_elem in Hseen as (_ & _ & i & r' & Hi & Hr).
    exists i, r'. pose proof (lookup_lt_Some _ _ _ Hi) as Hlt.
    rewrite length_take in Hlt. rewrite lookup_take_lt in Hi by lia.
    repeat split; [lia | done | done].
  - intros (r & Hj & <- & Ht & Hs & i & r' & Hlt & Hi & Hr).
    destruct (validate_at data off j r Hj) as (b & a & -> & _).
    rewrite !elem_of_app, rowErrors_elem. right; left. split; [done|].
    right; right; left. repeat split; try done.
    apply elem_of_list_to_set, tracked_elem. repeat split; try done.
    exists i, r'. by rewrite lookup_take_lt.
Qed.

(** A batch that raises no critical finding has a code on every record, and
    only sentinel codes can repeat. *)
Lemma no_critical_codes data off :
  criticalErrors (validateOfficeData data off) = [] ->
  (forall i r, data !! i = Some r -> truthy (officeCodeOf r) = true) /\
  (forall i j ri rj, i < j -> data !! i = Some ri -> data !! j = Some rj ->
     officeCodeOf ri = officeCodeOf rj -> isSentinel (officeCodeOf ri) = true).
Proof.
  intros Hnil. split.
  - intros i r Hi. destruct (truthy (officeCodeOf r)) eqn:Ht; [done|].
    exfalso. eapply criticalErrors_nil; [done| |apply missingCode_critical].
    by apply missing_code_reported.
  - intros i j ri rj Hlt Hi Hj Heq.
    destruct (isSentinel (officeCodeOf ri)) eqn:Hs; [done|].
    exfalso. eapply criticalErrors_nil; [done| |apply duplicate_critical].
    apply (duplicate_reported_iff data off j (officeCodeOf ri)).
    exists rj. repeat split; try done.
    + destruct (truthy (officeCodeOf ri)) eqn:Ht; [done|].
      exfalso. eapply criticalErrors_nil; [done| |apply missingCode_critical].
      by apply (missing_code_reported data off i ri).
    + by exists i, ri.
Qed.

(** ** The probing loop *)

Lemma parseCounter_zeros m s : parseCounter (repeatChar m "0" +:+ s) = parseCounter s.
Proof.
  induction m as [|m IH]; [done|].
  unfold parseCounter in *. simpl.
  destruct (NilEmpty.uint_of_string (repeatChar m "0" +:+ s)) as [d|],
    (NilEmpty.uint_of_string s) as [d'|]; simpl in *; try done.
Qed.

Lemma parseCounter_natToString k : parseCounter (natToString k) = Some k.
Proof.
  unfold parseCounter, natToString, NilZero.string_of_uint.
  pose proof (DecimalNat.Unsigned.of_to k) as Hk.
  destruct (Nat.to_uint k) eqn:Hd;
    try (rewrite NilEmpty.usu; simpl; by rewrite Hk).
  cbn in Hk. subst k. discriminate Hd.
Qed.

Lemma candidate_inj base k k' : candidate base k = candidate base k' -> k = k'.
Proof.
  unfold candidate, padStart. intros H%string_app_inv_head.
  apply (f_equal parseCounter) in H.
  rewrite !parseCounter_zeros, !parseCounter_natToString in H. congruence.
Qed.

Lemma probe_fresh existing base code :
  (VStr code ∉ existing) ->
  forall fuel c, probe fuel existing base c code = Some code.
Proof. intros H [|fuel] c; simpl; by rewrite bool_decide_eq_false_2. Qed.

(** What the loop returns: the code it was entered with when that is free,
    otherwise the candidate of the least counter from [c] on that is free. *)
Lemma probe_Some fuel existing base c code res :
  probe fuel existing base c code = Some res ->
  (res = code /\ (VStr code ∉ existing)) \/
  (VStr code ∈ existing /\ exists k, c <= k /\ res = candidate base k /\
     (VStr res ∉ existing) /\
     forall k', c <= k' < k -> VStr (candidate base k') ∈ existing).
Proof.
  revert c code. induction fuel as [|fuel IH]; intros c code; simpl;
    case_bool_decide as Hin; try done.
  - intros [= ->]. by left.
  - intros Hp. right. split; [done|].
    apply IH in Hp as [[-> Hfree]|(Hc & k & Hk & -> & Hfree & Hbelow)].
    + exists c. repeat split; [lia | done | intros k' ?; lia].
    + exists k. repeat split; [lia | done |].
      intros k' Hk'. destruct (decide (k' = c)) as [->|]; [done|].
      apply Hbelow. lia.
  - intros [= ->]. by left.
Qed.

Lemma probe_None fuel existing base c code :
  probe fuel existing base c code = None ->
  VStr code ∈ existing /\
  forall k, c <= k < c + fuel -> VStr (candidate base k) ∈ existing.
Proof.
  revert c code. induction fuel as [|fuel IH]; intros c code; simpl;
    case_bool_decide as Hin; try done.
  - intros _. split; [done | intros k ?; lia].
  - intros Hp. apply IH in Hp as [Hc Hrest]. split; [done|].
    intros k Hk. destruct (decide (k = c)) as [->|]; [done|].
    apply Hrest. lia.
Qed.

(** The loop ends: there are more candidates than codes in the batch. *)
Lemma probe_total existing base code :
  exists res, probe (S (length existing)) existing base 1 code = Some res.
Proof.
  destruct (probe _ _ _ _ _) as [res|] eqn:Hp; [by exists res|].
  exfalso. apply probe_None in Hp as [_ Hall].
  set (cands := map (fun k => VStr (candidate base k)) (seq 1 (S (length existing)))).
  assert (NoDup cands) as Hnd.
  { apply NoDup_fmap_2; [|apply NoDup_seq].
    intros k k' [= H]. by apply candidate_inj in H. }
  assert (cands ⊆+ existing) as Hsub.
  { apply NoDup_submseteq; [done|]. intros x Hx.
    apply list_elem_of_fmap in Hx as (k & -> & Hk).
    apply elem_of_seq in Hk. apply Hall. lia. }
  apply submseteq_length in Hsub. unfold cands in Hsub.
  rewrite length_map, length_seq in Hsub. lia.
Qed.

(** ** The code generation loop *)

Lemma reconcileOffice_keep offices generated i office :
  offices !! i = Some office -> truthy (officeCodeOf office) = true ->
  reconcileOffice (offices, generated) i = Returned (offices, generated).
Proof. intros Hi Ht. unfold reconcileOffice. by rewrite Hi, Ht. Qed.

Lemma reconcileLoop_noop offices generated indices :
  (forall i r, offices !! i = Some r -> truthy (officeCodeOf r) = true) ->
  reconcileLoop indices (offices, generated) = Returned (offices, generated).
Proof.
  intros Hall. induction indices as [|i rest IH]; [done|].
  cbn [reconcileLoop].
  destruct (offices !! i) as [office|] eqn:Hi.
  - by rewrite (reconcileOffice_keep _ _ _ office Hi (Hall _ _ Hi)).
  - unfold reconcileOffice. by rewrite Hi.
Qed.

(** With a code on every record the loop changes nothing. *)
Lemma reconcile_noop offices :
  (forall i r, offices !! i = Some r -> truthy (officeCodeOf r) = true) ->
  reconcile offices = Returned (offices, ∅).
Proof. apply reconcileLoop_noop. Qed.

Lemma reconcileOffice_generate offices generated i office desc :
  offices !! i = Some office -> truthy (officeCodeOf office) = false ->
  get office "OfficeDesc" = VStr desc ->
  exists code,
    probe (S (length (existingCodes offices))) (existingCodes offices)
      (baseCodeOf desc) 1 (baseCodeOf desc) = Some code /\
    reconcileOffice (offices, generated) i =
      Returned (<[i := <["OfficeCode" := VStr code]> office]> offices,
                setGenerated generated desc code).
Proof.
  intros Hi Ht Hd.
  destruct (probe_total (existingCodes offices) (baseCodeOf desc)
              (baseCodeOf desc)) as [code Hp].
  exists code. split; [done|].
  unfold reconcileOffice. by rewrite Hi, Ht, Hd, Hp.
Qed.

(** ** The insert loop *)

Lemma failures_elem index offices outs i office m :
  offices !! i = Some office -> outs !! i = Some (Some m) ->
  databaseError (index + i) office m ∈ failures index offices outs.
Proof.
  revert index outs i. induction offices as [|o l IH];
    intros index [|out outs] [|i]; simpl; try done.
  - intros [= ->] [= ->]. rewrite Nat.add_0_r. set_solver.
  - intros Hi Ho. apply elem_of_app. right.
    replace (index + S i) with (S index + i) by lia. by apply IH.
Qed.

Lemma failures_database index offices outs e :
  e ∈ failures index offices outs -> field e = "database".
Proof.
  revert index outs. induction offices as [|o l IH]; intros index [|out outs];
    simpl; try set_solver.
  rewrite elem_of_app. intros [H|H]; [|by eapply IH].
  destruct out; set_solver.
Qed.

Lemma successes_failures index offices outs :
  length offices = length outs ->
  successes outs + length (failures index offices outs) = length offices.
Proof.
  revert index outs. induction offices as [|o l IH]; intros index [|out outs];
    simpl; try done.
  intros [= Hlen]. specialize (IH (S index) outs Hlen).
  destruct out; simpl; lia.
Qed.

Section ImportFacts.

Variable sql_connect : option string.
Variable readExcelFile : string -> string + list (gmap string jsval).
Variable query : list (list (string * jsval)) -> list (string * jsval) -> option string.
Variable uuidv4 : nat -> string.

Lemma persistFrom_spec offices : forall index s n errs,
  pool s = true ->
  let statements := attempts uuidv4 (countryID s) (uuidCalls s) offices in
  let outs := outcomes query (sent s) statements in
  persistFrom query uuidv4 index offices s n errs =
    (mkSession true (countryID s) (sent s ++ statements)
       (uuidCalls s + length offices),
     n + successes outs, errs ++ failures index offices outs).
Proof.
  induction offices as [|office rest IH]; intros index s n errs Hpool.
  - destruct s as [p c snt u]. simpl in *. subst p.
    by rewrite !app_nil_r, !Nat.add_0_r.
  - destruct s as [p c snt u]. simpl in *. subst p. simpl.
    destruct (query snt (bindParams c office (uuidv4 u))) as [m|] eqn:Hq;
      rewrite IH by done; simpl; rewrite <- !app_assoc; simpl;
      repeat f_equal; lia.
Qed.

Lemma length_attempts country base offices :
  length (attempts uuidv4 country base offices) = length offices.
Proof.
  revert base. induction offices as [|o l IH]; intros base; simpl; [done|].
  by rewrite IH.
Qed.

Lemma length_outcomes sentBefore statements :
  length (outcomes query sentBefore statements) = length statements.
Proof.
  revert sentBefore. induction statements as [|p l IH]; intros sb; simpl;
    [done | by rewrite IH].
Qed.

Lemma attempts_lookup country base offices i office :
  offices !! i = Some office ->
  attempts uuidv4 country base offices !! i =
    Some (bindParams country office (uuidv4 (base + i))).
Proof.
  revert base i. induction offices as [|o l IH]; intros base [|i]; simpl;
    try done.
  - intros [= ->]. by rewrite Nat.add_0_r.
  - intros Hi. rewrite (IH (S base) i Hi). do 3 f_equal. lia.
Qed.

Lemma outcomes_lookup sentBefore statements i p :
  statements !! i = Some p ->
  outcomes query sentBefore statements !! i =
    Some (query (sentBefore ++ take i statements) p).
Proof.
  revert sentBefore i. induction statements as [|q l IH];
    intros sb [|i]; simpl; try done.
  - intros [= ->]. by rewrite app_nil_r.
  - intros Hi. rewrite (IH _ i Hi). by rewrite <- app_assoc.
Qed.

(** ** Running importOffices *)

Lemma connect_ok s :
  pool s = true \/ sql_connect = None ->
  connect sql_connect s = (withPool s true, Returned tt).
Proof.
  unfold connect, withPool. destruct s as [[] c snt u]; simpl; [done|].
  intros [?| ->]; done.
Qed.

Lemma importOffices_ok s excelPath :
  pool s = true \/ sql_connect = None ->
  importOffices sql_connect readExcelFile query uuidv4 s excelPath =
    match importBody readExcelFile query uuidv4 (withPool s true) excelPath with
    | (s2, Thrown m) => (s2, Returned (generalError m))
    | other => other
    end.
Proof. intros H. unfold importOffices. by rewrite connect_ok. Qed.

(** A critical finding: the import returns before the two loops. *)
Lemma importOffices_critical s excelPath rawData e :
  pool s = true \/ sql_connect = None ->
  readExcelFile excelPath = inr rawData ->
  e ∈ validateOfficeData (officesOf rawData) 2 -> isCritical e = true ->
  importOffices sql_connect readExcelFile query uuidv4 s excelPath =
    (withPool s true,
     Returned
       (mkImportResult false 0 (validateOfficeData (officesOf rawData) 2)
          ("Validation failed with " +:+
             natToString
               (length (criticalErrors (validateOfficeData (officesOf rawData) 2)))
             +:+ " critical error(s)") None)).
Proof.
  intros Hc Hread He Hcrit. rewrite importOffices_ok by done.
  unfold importBody. rewrite Hread. cbn zeta.
  assert (e ∈ criticalErrors (validateOfficeData (officesOf rawData) 2)) as Hin
    by (by apply criticalErrors_elem).
  rewrite !bool_decide_eq_true_2; [done| |].
  - destruct (criticalErrors _); [by apply elem_of_nil in Hin | simpl; lia].
  - destruct (validateOfficeData _ _); [by apply elem_of_nil in He | simpl; lia].
Qed.

(** No critical finding: every record of the batch goes to the store. *)
Lemma importOffices_clean s excelPath rawData :
  pool s = true \/ sql_connect = None ->
  readExcelFile excelPath = inr rawData ->
  criticalErrors (validateOfficeData (officesOf rawData) 2) = [] ->
  let offices := officesOf rawData in
  let statements := attempts uuidv4 (countryID s) (uuidCalls s) offices in
  let outs := outcomes query (sent s) statements in
  importOffices sql_connect readExcelFile query uuidv4 s excelPath =
    (mkSession true (countryID s) (sent s ++ statements)
       (uuidCalls s + length offices),
     Returned
       (mkImportResult (bool_decide (0 < successes outs)) (successes outs)
          (validateOfficeData offices 2 ++ failures 0 offices outs)
          ("Successfully imported " +:+ natToString (successes outs)
             +:+ " of " +:+ natToString (length offices) +:+ " office(s)")
          None)).
Proof.
  intros Hc Hread Hnil offices statements outs.
  subst statements outs offices.
  rewrite importOffices_ok by done.
  unfold importBody. rewrite Hread. cbn zeta.
  rewrite Hnil. simpl length. rewrite (bool_decide_eq_false_2 (0 < 0)) by lia.
  rewrite andb_false_r.
  rewrite reconcile_noop by (apply (no_critical_codes _ 2 Hnil)).
  rewrite persistFrom_spec by done. simpl.
  by rewrite map_size_empty.
Qed.

End ImportFacts.

(** * The claims of the specification *)

(** ** C1: a missing code is reported with a message that holds the word
    "required", which the critical filter matches *)

(** C1 (the code departs from the claim).  One record with a description and
    no code: the import stops at validation with one critical error, nothing
    is generated and nothing is sent to the store. *)
Theorem C1_missing_code_import_aborts :
  importOffices None (sheet [mkRow VNull (VStr "Cape Town")]) acceptAll
    sampleUuid sampleSession "offices.xlsx" =
  (mkSession true 1 [] 0,
   Returned
     (mkImportResult false 0
        [mkValidationError 2 "OfficeCode" VNull
           "Office Code is required and will be auto-generated if missing"]
        "Validation failed with 1 critical error(s)" None)).
Proof. vm_compute. reflexivity. Qed.

(** ** C2: records without a description *)

Lemma officesOf_filter rawData :
  officesOf (List.filter (fun raw => hasDesc (mapExcelToSQL raw columnMap)) rawData)
  = officesOf rawData.
Proof.
  unfold officesOf. induction rawData as [|raw l IH]; [done|]. simpl.
  destruct (hasDesc (mapExcelToSQL raw columnMap)) eqn:Hd; simpl;
    rewrite ?Hd, IH; done.
Qed.

Lemma officesOf_hasDesc rawData o :
  o ∈ officesOf rawData -> truthy (get o "OfficeDesc") = true.
Proof.
  unfold officesOf. rewrite list_elem_of_In, filter_In. by intros [_ H].
Qed.

Lemma importOffices_officesOf sql_connect query uuidv4 s excelPath raw1 raw2 :
  officesOf raw1 = officesOf raw2 ->
  importOffices sql_connect (sheet raw1) query uuidv4 s excelPath =
  importOffices sql_connect (sheet raw2) query uuidv4 s excelPath.
Proof.
  intros Heq. unfold importOffices, importBody, sheet. by rewrite Heq.
Qed.

(** C2, against the claim as stated: a sheet whose second row has an empty
    description is imported; the row raises no error and one insert is sent. *)
Lemma C2_counterexample :
  importOffices None
    (sheet [mkRow (VStr "HQ") (VStr "Head Office"); mkRow (VStr "BR") (VStr "")])
    acceptAll sampleUuid sampleSession "offices.xlsx"
  = (mkSession true 1
       [bindParams 1 (mapExcelToSQL (mkRow (VStr "HQ") (VStr "Head Office")) columnMap)
          "uuid-0"] 1,
     Returned
       (mkImportResult true 1 [] "Successfully imported 1 of 1 office(s)" None))
  /\ recordsImported
       (mkImportResult true 1 [] "Successfully imported 1 of 1 office(s)" None) <> 0.
Proof. split; [vm_compute; reflexivity | discriminate]. Qed.

(** C2 (amended).  The validator, handed a record without a description
    whose code is no sentinel, reports "Office Name is required" on its row,
    and that finding is critical.  [importOffices] never hands it such a
    record: rows without a description are filtered out before validation, so
    every record of the batch has one and the import of a sheet equals the
    import of the sheet without those rows. *)
Theorem C2_missing_description sql_connect query uuidv4 s excelPath
    (rawData data : list (gmap string jsval)) (rowOffset i : nat)
    (r : gmap string jsval)
    (Hi : data !! i = Some r)
    (Hdesc : truthy (get r "OfficeDesc") = false)
    (Hcode : isSentinel (officeCodeOf r) = false) :
  (missingDescError (i + rowOffset) (get r "OfficeDesc")
     ∈ validateOfficeData data rowOffset
   /\ missingDescError (i + rowOffset) (get r "OfficeDesc") =
        mkValidationError (i + rowOffset) "OfficeDesc" (get r "OfficeDesc")
          "Office Name is required"
   /\ isCritical (missingDescError (i + rowOffset) (get r "OfficeDesc")) = true)
  /\ (forall o, o ∈ officesOf rawData -> truthy (get o "OfficeDesc") = true)
  /\ importOffices sql_connect (sheet rawData) query uuidv4 s excelPath =
     importOffices sql_connect
       (sheet (List.filter (fun raw => hasDesc (mapExcelToSQL raw columnMap)) rawData))
       query uuidv4 s excelPath.
Proof.
  split; [split; [|split]|split].
  - by apply missing_desc_reported.
  - reflexivity.
  - apply missingDesc_critical.
  - apply officesOf_hasDesc.
  - apply importOffices_officesOf. symmetry. apply officesOf_filter.
Qed.

Lemma C2_missing_description_witness :
  missingDescError 3 (VStr "")
    ∈ validateOfficeData
        [mkRow (VStr "HQ") (VStr "Head Office"); mkRow (VStr "BR") (VStr "")] 2
  /\ importOffices None
       (sheet [mkRow (VStr "HQ") (VStr "Head Office"); mkRow (VStr "BR") (VStr "")])
       acceptAll sampleUuid sampleSession "offices.xlsx" =
     importOffices None
       (sheet (List.filter (fun raw => hasDesc (mapExcelToSQL raw columnMap))
                 [mkRow (VStr "HQ") (VStr "Head Office"); mkRow (VStr "BR") (VStr "")]))
       acceptAll sampleUuid sampleSession "offices.xlsx".
Proof.
  pose proof (C2_missing_description None acceptAll sampleUuid sampleSession
    "offices.xlsx"
    [mkRow (VStr "HQ") (VStr "Head Office"); mkRow (VStr "BR") (VStr "")]
    [mkRow (VStr "HQ") (VStr "Head Office"); mkRow (VStr "BR") (VStr "")]
    2 1 (mkRow (VStr "BR") (VStr "")) eq_refl eq_refl eq_refl) as [[H1 _] [_ H2]].
  split; [exact H1 | exact H2].
Defined.

(** ** C3: one insert per record, failures isolated *)

Lemma successes_pos outs i : outs !! i = Some None -> 0 < successes outs.
Proof.
  revert i. induction outs as [|out l IH]; intros [|i]; simpl; try done.
  - intros [= ->]. lia.
  - intros H. apply IH in H. destruct out; lia.
Qed.

(** C3.  When validation raises no critical finding, the import sends one
    INSERT per record of the batch, in batch order, whatever the store
    answered to the earlier ones; each failed insert adds a finding with
    field "database", the record's code and the failure's message (behind
    the prefix "Database error: "); [recordsImported] is the number of
    inserts that succeeded, and [success] holds exactly when it is
    positive. *)
Theorem C3_persistence_isolates_failures sql_connect readExcelFile query uuidv4
    s excelPath rawData
    (Hconn : pool s = true \/ sql_connect = None)
    (Hread : readExcelFile excelPath = inr rawData)
    (Hclean : criticalErrors (validateOfficeData (officesOf rawData) 2) = []) :
  let offices := officesOf rawData in
  let statements := attempts uuidv4 (countryID s) (uuidCalls s) offices in
  let outs := outcomes query (sent s) statements in
  exists s' res,
    importOffices sql_connect readExcelFile query uuidv4 s excelPath
      = (s', Returned res)
    /\ sent s' = sent s ++ statements
    /\ length statements = length offices
    /\ (forall i office, offices !! i = Some office ->
          statements !! i =
            Some (bindParams (countryID s) office (uuidv4 (uuidCalls s + i)))
          /\ outs !! i =
               Some (query (sent s ++ take i statements)
                       (bindParams (countryID s) office (uuidv4 (uuidCalls s + i)))))
    /\ (forall i office m, offices !! i = Some office -> outs !! i = Some (Some m) ->
          mkValidationError (i + 2) "database" (officeCodeOf office)
            ("Database error: " +:+ m) ∈ errors res)
    /\ errors res = validateOfficeData offices 2 ++ failures 0 offices outs
    /\ recordsImported res = successes outs
    /\ recordsImported res + length (failures 0 offices outs) = length offices
    /\ (success res = true <-> 0 < recordsImported res).
Proof.
  intros offices statements outs.
  eexists _, _. split.
  { apply importOffices_clean; done. }
  fold offices statements outs. cbn [sent errors recordsImported success].
  assert (length statements = length offices) as Hlen
    by apply length_attempts.
  split_and!; try done.
  - intros i office Hi. split.
    + by apply attempts_lookup.
    + apply outcomes_lookup. by apply attempts_lookup.
  - intros i office m Hi Ho. apply elem_of_app. right.
    by apply (failures_elem 0 offices outs i office m).
  - apply successes_failures. unfold outs. by rewrite length_outcomes.
  - apply bool_decide_eq_true.
Qed.

Lemma C3_persistence_isolates_failures_witness :
  exists s' res,
    importOffices None
      (sheet [mkRow (VStr "HQ") (VStr "Head Office");
              mkRow (VStr "BR") (VStr "Branch");
              mkRow (VStr "CT") (VStr "Cape Town")])
      (rejectCode "BR") sampleUuid sampleSession "offices.xlsx"
      = (s', Returned res)
    /\ length (sent s') = 3
    /\ recordsImported res = 2
    /\ errors res =
         [mkValidationError 3 "database" (VStr "BR")
            "Database error: Violation of UNIQUE KEY constraint"]
    /\ success res = true.
Proof.
  destruct (C3_persistence_isolates_failures None
    (sheet [mkRow (VStr "HQ") (VStr "Head Office");
            mkRow (VStr "BR") (VStr "Branch");
            mkRow (VStr "CT") (VStr "Cape Town")])
    (rejectCode "BR") sampleUuid sampleSession "offices.xlsx"
    [mkRow (VStr "HQ") (VStr "Head Office");
     mkRow (VStr "BR") (VStr "Branch");
     mkRow (VStr "CT") (VStr "Cape Town")]
    (or_intror eq_refl) eq_refl eq_refl)
    as (s' & res & Hrun & Hsent & _ & _ & _ & Herr & Hn & _ & Hs).
  exists s', res. split; [exact Hrun|].
  split; [rewrite Hsent; reflexivity|].
  split; [rewrite Hn; reflexivity|].
  split; [rewrite Herr; vm_compute; reflexivity|].
  apply Hs. rewrite Hn. vm_compute. lia.
Defined.

(** ** C4: duplicate codes *)

(** C4.  When two records of the batch carry the same code, present and no
    sentinel, the import returns with [recordsImported = 0] and the full list
    of findings, among them the critical duplicate finding on the row of the
    later record; nothing is sent to the store.  A duplicate finding sits on
    a row exactly when an earlier row carries the same code: the first
    occurrence wins. *)
Theorem C4_duplicate_code_aborts sql_connect readExcelFile query uuidv4
    s excelPath rawData (i j : nat) (ri rj : gmap string jsval) (code : jsval)
    (Hconn : pool s = true \/ sql_connect = None)
    (Hread : readExcelFile excelPath = inr rawData)
    (Hi : officesOf rawData !! i = Some ri)
    (Hj : officesOf rawData !! j = Some rj)
    (Hlt : i < j)
    (Hci : officeCodeOf ri = code) (Hcj : officeCodeOf rj = code)
    (Hpresent : truthy code = true) (Hplain : isSentinel code = false) :
  let offices := officesOf rawData in
  exists s' res,
    importOffices sql_connect readExcelFile query uuidv4 s excelPath
      = (s', Returned res)
    /\ success res = false /\ recordsImported res = 0
    /\ errors res = validateOfficeData offices 2
    /\ duplicateError (j + 2) code ∈ errors res
    /\ duplicateError (j + 2) code =
         mkValidationError (j + 2) "OfficeCode" code
           ("Duplicate Office Code: " +:+ toString code)
    /\ isCritical (duplicateError (j + 2) code) = true
    /\ sent s' = sent s /\ uuidCalls s' = uuidCalls s
    /\ (forall k c, duplicateError (k + 2) c ∈ errors res <->
          exists r, offices !! k = Some r /\ officeCodeOf r = c /\
            truthy c = true /\ isSentinel c = false /\
            exists k' r', k' < k /\ offices !! k' = Some r' /\ officeCodeOf r' = c).
Proof.
  intros offices.
  assert (duplicateError (j + 2) code ∈ validateOfficeData offices 2) as Hdup.
  { apply duplicate_reported_iff. exists rj. repeat split; try done.
    by exists i, ri. }
  eexists _, _. split.
  { eapply importOffices_critical;
      [done | done | exact Hdup | apply duplicate_critical]. }
  cbn [sent errors recordsImported success uuidCalls withPool].
  split_and!; try done.
  - apply duplicate_critical.
  - intros k c. apply duplicate_reported_iff.
Qed.

Lemma C4_duplicate_code_aborts_witness :
  exists s' res,
    importOffices None
      (sheet [mkRow (VStr "HQ") (VStr "Head Office");
              mkRow (VStr "BR") (VStr "Branch");
              mkRow (VStr "HQ") (VStr "Harbour Quay")])
      acceptAll sampleUuid sampleSession "offices.xlsx"
      = (s', Returned res)
    /\ recordsImported res = 0
    /\ duplicateError 4 (VStr "HQ") ∈ errors res
    /\ sent s' = [].
Proof.
  destruct (C4_duplicate_code_aborts None
    (sheet [mkRow (VStr "HQ") (VStr "Head Office");
            mkRow (VStr "BR") (VStr "Branch");
            mkRow (VStr "HQ") (VStr "Harbour Quay")])
    acceptAll sampleUuid sampleSession "offices.xlsx"
    [mkRow (VStr "HQ") (VStr "Head Office");
     mkRow (VStr "BR") (VStr "Branch");
     mkRow (VStr "HQ") (VStr "Harbour Quay")]
    0 2 (mapExcelToSQL (mkRow (VStr "HQ") (VStr "Head Office")) columnMap)
    (mapExcelToSQL (mkRow (VStr "HQ") (VStr "Harbour Quay")) columnMap)
    (VStr "HQ")
    (or_intror eq_refl) eq_refl eq_refl eq_refl (le_S _ _ (le_n 1))
    eq_refl eq_refl eq_refl eq_refl)
    as (s' & res & Hrun & _ & Hn & _ & Hdup & _ & _ & Hsent & _).
  exists s', res. repeat split; assumption.
Defined.

(** ** C5: the base candidate *)



Lemma substring_length_le s : forall n m, String.length (substring n m s) <= m.
Proof.
  induction s as [|c s IH]; intros [|n] [|m]; simpl; try lia.
  - specialize (IH 0 m). lia.
  - apply (IH n 0).
  - apply (IH n (S m)).
Qed.

Lemma toUpperCase_length s : String.length (toUpperCase s) = String.length s.
Proof. induction s as [|c s IH]; simpl; [done | by rewrite IH]. Qed.

Lemma stripNonAlnum_length_le s :
  String.length (stripNonAlnum s) <= String.length s.
Proof.
  induction s as [|c s IH]; cbn [stripNonAlnum]; [done|].
  destruct (isUpperAlnum c); simpl; lia.
Qed.

Lemma baseCodeOf_length desc : String.length (baseCodeOf desc) <= 10.
Proof.
  unfold baseCodeOf.
  pose proof (stripNonAlnum_length_le (toUpperCase (substring 0 10 desc))) as H.
  rewrite toUpperCase_length in H.
  pose proof (substring_length_le desc 0 10). lia.
Qed.




(** ** C6: probing on a collision *)

Lemma two_digits k : 0 < k < 100 -> String.length (padStart 2 "0" (natToString k)) = 2.
Proof.
  intros [H0 H100].
  do 100 (destruct k as [|k]; [first [lia | reflexivity]|]). lia.
Qed.

(** C6, against the claim as stated.  On a sheet with an explicit
    "ACMECORP" and a record "Acme Corp" without a code the import returns at
    validation: nothing is probed and no code is generated.  The base
    candidate "ACMECORP" has 8 characters, so the candidate the probing loop
    forms first is "ACMECORP01", not "ACMECOR01"; and the counter is padded,
    not cut, to two digits: at 100 the candidate is "ACMECORP100". *)
Lemma C6_counterexample :
  importOffices None
    (sheet [mkRow (VStr "ACMECORP") (VStr "Acme Head Office");
            mkRow VNull (VStr "Acme Corp")])
    acceptAll sampleUuid sampleSession "offices.xlsx" =
  (mkSession true 1 [] 0,
   Returned
     (mkImportResult false 0 [missingCodeError 3 VNull]
        "Validation failed with 1 critical error(s)" None))
  /\ baseCodeOf "Acme Corp" = "ACMECORP"
  /\ probe 2 [VStr "ACMECORP"] "ACMECORP" 1 "ACMECORP" = Some "ACMECORP01"
  /\ "ACMECORP01" <> "ACMECOR01"
  /\ candidate "ACMECORP" 100 = "ACMECORP100".
Proof.
  split_and!; [vm_compute; reflexivity | reflexivity | vm_compute; reflexivity
              | discriminate | vm_compute; reflexivity].
Qed.

(** C6 (amended).  The probing of the generation step, taken on its own:
    when the base candidate of a record that needs a code is already a code
    of the batch, the loop ends and the step assigns the first 8 characters
    of the base candidate followed by the counter [k] in decimal,
    left-padded with "0" to two digits (exactly two digits below 100), where
    [k >= 1] is the least counter whose candidate is no code of the batch;
    [k] is at most the number of codes of the batch plus one.  Entered with
    the base candidate "ACMECORP" against an existing "ACMECORP", the loop
    returns "ACMECORP01". *)
Theorem C6_collision_probing (offices : list (gmap string jsval))
    (generated : gmap string string) (i : nat) (office : gmap string jsval)
    (desc : string)
    (Hi : offices !! i = Some office)
    (Hmissing : truthy (officeCodeOf office) = false)
    (Hdesc : get office "OfficeDesc" = VStr desc)
    (Hcollides : VStr (baseCodeOf desc) ∈ existingCodes offices) :
  (exists k,
     let code :=
       substring 0 8 (baseCodeOf desc) +:+ padStart 2 "0" (natToString k) in
     1 <= k <= S (length (existingCodes offices))
     /\ reconcileOffice (offices, generated) i =
          Returned (<[i := <["OfficeCode" := VStr code]> office]> offices,
                    setGenerated generated desc code)
     /\ (VStr code ∉ existingCodes offices)
     /\ (forall k', 1 <= k' < k ->
           VStr (substring 0 8 (baseCodeOf desc)
                   +:+ padStart 2 "0" (natToString k')) ∈ existingCodes offices)
     /\ (k < 100 -> String.length (padStart 2 "0" (natToString k)) = 2))
  /\ probe 2 [VStr "ACMECORP"] "ACMECORP" 1 "ACMECORP" = Some "ACMECORP01".
Proof.
  split; [|vm_compute; reflexivity].
  destruct (reconcileOffice_generate offices generated i office desc Hi
              Hmissing Hdesc) as (code & Hp & Hrun).
  destruct (probe_Some _ _ _ _ _ _ Hp)
    as [[_ Hfree]|(_ & k & Hk & -> & Hfree & Hbelow)]; [done|].
  exists k. cbn zeta. fold (candidate (baseCodeOf desc) k).
  split_and!; try done.
  - destruct (decide (k <= S (length (existingCodes offices)))) as [|Hbig];
      [done|]. exfalso.
    set (cands := map (fun k => VStr (candidate (baseCodeOf desc) k))
                    (seq 1 (S (length (existingCodes offices))))).
    assert (cands ⊆+ existingCodes offices) as Hsub.
    { apply NoDup_submseteq.
      - apply NoDup_fmap_2; [|apply NoDup_seq].
        intros a b [= H]. by apply candidate_inj in H.
      - intros x Hx. apply list_elem_of_fmap in Hx as (k' & -> & Hk').
        apply elem_of_seq in Hk'. apply Hbelow. lia. }
    apply submseteq_length in Hsub. unfold cands in Hsub.
    rewrite length_map, length_seq in Hsub. lia.
  - intros Hlt. apply two_digits. lia.
Qed.

Lemma C6_collision_probing_witness :
  exists k,
    1 <= k <= 2
    /\ reconcileOffice
         ([mkRow (VStr "ACMECORP") (VStr "Acme Head Office");
           mkRow VNull (VStr "Acme Corp")], ∅) 1
       = Returned
           ([mkRow (VStr "ACMECORP") (VStr "Acme Head Office");
             <["OfficeCode" :=
                 VStr ("ACMECORP" +:+ padStart 2 "0" (natToString k))]>
               (mkRow VNull (VStr "Acme Corp"))],
            {["Acme Corp" := "ACMECORP" +:+ padStart 2 "0" (natToString k)]}).
Proof.
  assert (VStr (baseCodeOf "Acme Corp")
            ∈ existingCodes [mkRow (VStr "ACMECORP") (VStr "Acme Head Office");
                             mkRow VNull (VStr "Acme Corp")]) as Hcollides
    by (vm_compute; set_solver).
  destruct (proj1 (C6_collision_probing
    [mkRow (VStr "ACMECORP") (VStr "Acme Head Office");
     mkRow VNull (VStr "Acme Corp")] ∅ 1
    (mkRow VNull (VStr "Acme Corp")) "Acme Corp"
    eq_refl eq_refl eq_refl Hcollides))
    as (k & Hk & Hrun & _).
  exists k. split; [exact Hk | exact Hrun].
Defined.

(** ** C8: faults *)

(** C8, against the claim as stated: a connection that cannot be established
    is raised by [connect] before the guarded region, so the exception leaves
    [importOffices]; and a fault of the store on an insert is recorded under
    "database", not "general". *)
Lemma C8_counterexample :
  importOffices (Some "Failed to connect to localhost:1433")
    (sheet [mkRow (VStr "HQ") (VStr "Head Office")]) acceptAll sampleUuid
    sampleSession "offices.xlsx"
  = (sampleSession, Thrown "Failed to connect to localhost:1433")
  /\ (importOffices None (sheet [mkRow (VStr "HQ") (VStr "Head Office")])
        (rejectCode "HQ") sampleUuid sampleSession "offices.xlsx").2
     = Returned
         (mkImportResult false 0
            [mkValidationError 2 "database" (VStr "HQ")
               "Database error: Violation of UNIQUE KEY constraint"]
            "Successfully imported 0 of 1 office(s)" None).
Proof. split; vm_compute; reflexivity. Qed.

(** C8 (amended).  With the connection at hand (open already, or obtained by
    [connect]), a fault raised while reading the spreadsheet, and more
    generally anything thrown inside the guarded region, is returned as one
    [ImportResult] with [success = false], [recordsImported = 0] and exactly
    one error, under the field "general", carrying the fault's message; no
    exception leaves [importOffices].  A connection that cannot be
    established is thrown by [importOffices] itself. *)
Theorem C8_fault_handling sql_connect readExcelFile query uuidv4 s excelPath :
  (forall m, pool s = true \/ sql_connect = None ->
     readExcelFile excelPath = inl m ->
     importOffices sql_connect readExcelFile query uuidv4 s excelPath =
       (withPool s true,
        Returned
          (mkImportResult false 0
             [mkValidationError 0 "general" (VStr "") m]
             ("Failed to import offices: " +:+ m) None)))
  /\ (forall s2 m, pool s = true \/ sql_connect = None ->
        importBody readExcelFile query uuidv4 (withPool s true) excelPath
          = (s2, Thrown m) ->
        importOffices sql_connect readExcelFile query uuidv4 s excelPath =
          (s2, Returned (generalError m)))
  /\ (forall s2 m, pool s = true \/ sql_connect = None ->
        importOffices sql_connect readExcelFile query uuidv4 s excelPath
          <> (s2, Thrown m))
  /\ (forall m, pool s = false -> sql_connect = Some m ->
        importOffices sql_connect readExcelFile query uuidv4 s excelPath
          = (s, Thrown m)).
Proof.
  split_and!.
  - intros m Hc Hread. rewrite importOffices_ok by done.
    unfold importBody. by rewrite Hread.
  - intros s2 m Hc Hbody. rewrite importOffices_ok by done. by rewrite Hbody.
  - intros s2 m Hc. rewrite importOffices_ok by done.
    destruct (importBody _ _ _ _ _) as [s3 [res|m'|]]; congruence.
  - intros m Hpool Hconn. unfold importOffices, connect.
    by rewrite Hpool, Hconn.
Qed.

Lemma C8_fault_handling_witness :
  importOffices None (fun _ => inl "ENOENT: no such file or directory")
    acceptAll sampleUuid sampleSession "missing.xlsx"
  = (mkSession true 1 [] 0,
     Returned
       (mkImportResult false 0
          [mkValidationError 0 "general" (VStr "")
             "ENOENT: no such file or directory"]
          "Failed to import offices: ENOENT: no such file or directory" None))
  /\ importOffices (Some "Login failed for user 'sa'")
       (fun _ => inl "ENOENT: no such file or directory")
       acceptAll sampleUuid sampleSession "missing.xlsx"
     = (sampleSession, Thrown "Login failed for user 'sa'").
Proof.
  split.
  - apply (proj1 (C8_fault_handling None
      (fun _ => inl "ENOENT: no such file or directory") acceptAll sampleUuid
      sampleSession "missing.xlsx") "ENOENT: no such file or directory"
      (or_intror eq_refl) eq_refl).
  - apply (proj2 (proj2 (proj2 (C8_fault_handling
      (Some "Login failed for user 'sa'")
      (fun _ => inl "ENOENT: no such file or directory") acceptAll sampleUuid
      sampleSession "missing.xlsx"))) "Login failed for user 'sa'"
      eq_refl eq_refl).
Defined.

(** ** C9: normalization of a raw row *)

Lemma normalizeCell_idem v : normalizeCell (normalizeCell v) = normalizeCell v.
Proof.
  unfold normalizeCell.
  destruct (bool_decide (v = VStr "NULL") || bool_decide (v = VStr "null")) eqn:H;
    [done | by rewrite H].
Qed.

Lemma mapExcelToSQL_fold_other excelRow mappings (acc : gmap string jsval) sqlCol :
  sqlCol ∉ map snd mappings ->
  fold_left
    (fun (sqlRow : gmap string jsval) (entry : string * string) =>
       <[entry.2 := normalizeCell (get excelRow entry.1)]> sqlRow)
    mappings acc !! sqlCol = acc !! sqlCol.
Proof.
  revert acc. induction mappings as [|[e q] l IH]; intros acc Hnot; [done|].
  simpl in *. rewrite IH by set_solver. apply lookup_insert_ne. set_solver.
Qed.

Lemma mapExcelToSQL_fold_entry excelRow mappings (acc : gmap string jsval)
    excelCol sqlCol :
  NoDup (map snd mappings) -> (excelCol, sqlCol) ∈ mappings ->
  fold_left
    (fun (sqlRow : gmap string jsval) (entry : string * string) =>
       <[entry.2 := normalizeCell (get excelRow entry.1)]> sqlRow)
    mappings acc !! sqlCol = Some (normalizeCell (get excelRow excelCol)).
Proof.
  revert acc. induction mappings as [|[e q] l IH]; intros acc Hnd Hin.
  - by apply elem_of_nil in Hin.
  - simpl in *. apply NoDup_cons in Hnd as [Hq Hnd].
    apply elem_of_cons in Hin as [[= -> ->]|Hin].
    + rewrite mapExcelToSQL_fold_other by done. apply lookup_insert_eq.
    + by apply IH.
Qed.

Lemma mapExcelToSQL_lookup excelRow mappings excelCol sqlCol :
  NoDup (map snd mappings) -> (excelCol, sqlCol) ∈ mappings ->
  mapExcelToSQL excelRow mappings !! sqlCol
    = Some (normalizeCell (get excelRow excelCol)).
Proof. apply mapExcelToSQL_fold_entry. Qed.

Lemma mapExcelToSQL_lookup_other excelRow mappings sqlCol :
  sqlCol ∉ map snd mappings -> mapExcelToSQL excelRow mappings !! sqlCol = None.
Proof.
  intros H. unfold mapExcelToSQL.
  by rewrite (mapExcelToSQL_fold_other excelRow mappings ∅ sqlCol H).
Qed.

(** The target columns of a literal mapping are pairwise different. *)
Ltac distinct_columns :=
  vm_compute; repeat (constructor; [set_solver|]); constructor.

(** C9, against the claim as stated: the cell "Null" is the text "null" up to
    letter case, and it passes through as a string. *)
Lemma C9_counterexample :
  isNullLiteralAnyCase (VStr "Null") = true
  /\ get (mapExcelToSQL (mkRow (VStr "Null") (VStr "Head Office")) columnMap)
       "OfficeCode" = VStr "Null"
  /\ VStr "Null" <> VNull.
Proof. split_and!; [reflexivity | vm_compute; reflexivity | discriminate]. Qed.

(** C9 (amended).  Normalization writes, for every entry of the mapping, the
    raw cell of the source column under the target column, turned into
    [null] when it is exactly the string "NULL" or exactly the string "null"
    and unchanged otherwise (other spellings such as "Null", and cells that
    are already [null], pass through); columns outside the mapping are
    absent.  It is a function of the raw row, and on a mapping of each
    column to itself, as the one of [importOffices], normalizing the
    normalized row changes nothing. *)
Theorem C9_normalization (excelRow : gmap string jsval)
    (mappings : list (string * string))
    (Htargets : NoDup (map snd mappings)) :
  (forall excelCol sqlCol, (excelCol, sqlCol) ∈ mappings ->
     mapExcelToSQL excelRow mappings !! sqlCol =
       Some (if bool_decide (get excelRow excelCol = VStr "NULL")
                || bool_decide (get excelRow excelCol = VStr "null")
             then VNull else get excelRow excelCol))
  /\ (forall sqlCol, sqlCol ∉ map snd mappings ->
        mapExcelToSQL excelRow mappings !! sqlCol = None)
  /\ ((forall excelCol sqlCol, (excelCol, sqlCol) ∈ mappings -> excelCol = sqlCol) ->
        mapExcelToSQL (mapExcelToSQL excelRow mappings) mappings
          = mapExcelToSQL excelRow mappings)
  /\ NoDup (map snd columnMap)
  /\ (forall excelCol sqlCol, (excelCol, sqlCol) ∈ columnMap -> excelCol = sqlCol).
Proof.
  split_and!.
  - intros e q Hin. by apply mapExcelToSQL_lookup.
  - apply mapExcelToSQL_lookup_other.
  - intros Hid. apply map_eq. intros q.
    destruct (decide (q ∈ map snd mappings)) as [Hin|Hnot].
    + apply list_elem_of_fmap in Hin as ([e q'] & -> & Hin). simpl.
      pose proof (Hid e q' Hin) as ->.
      rewrite !(mapExcelToSQL_lookup _ mappings q' q') by done.
      unfold get at 1. rewrite (mapExcelToSQL_lookup _ mappings q' q') by done.
      simpl. by rewrite normalizeCell_idem.
    + by rewrite !mapExcelToSQL_lookup_other.
  - distinct_columns.
  - intros e q Hin. unfold columnMap in Hin.
    repeat (apply elem_of_cons in Hin as [[= -> ->]|Hin]; [done|]).
    by apply elem_of_nil in Hin.
Qed.

Lemma C9_normalization_witness :
  mapExcelToSQL (mkRow (VStr "NULL") (VStr "Head Office")) columnMap !! "OfficeCode"
    = Some VNull
  /\ mapExcelToSQL
       (mapExcelToSQL (mkRow (VStr "NULL") (VStr "Head Office")) columnMap)
       columnMap
     = mapExcelToSQL (mkRow (VStr "NULL") (VStr "Head Office")) columnMap.
Proof.
  pose proof (C9_normalization (mkRow (VStr "NULL") (VStr "Head Office"))
    columnMap) as H.
  assert (NoDup (map snd columnMap)) as Hnd.
  { distinct_columns. }
  destruct (H Hnd) as (Hcell & _ & Hidem & _ & Hid).
  split.
  - apply (Hcell "OfficeCode" "OfficeCode"). set_solver.
  - apply Hidem, Hid.
Defined.

(** ** C10: records carrying a sentinel code *)

Lemma existingCodes_elem offices i r :
  offices !! i = Some r -> truthy (officeCodeOf r) = true ->
  officeCodeOf r ∈ existingCodes offices.
Proof.
  intros Hi Ht. unfold existingCodes.
  apply list_elem_of_In, filter_In. split; [|done].
  apply in_map, list_elem_of_In, list_elem_of_lookup. eauto.
Qed.

Lemma isSentinel_truthy v : isSentinel v = true -> truthy v = true.
Proof. intros [->|[->| ->]]%isSentinel_spec; reflexivity. Qed.

(** C10.  A record whose code is "OfficeCode", "Data" or "Context" leaves
    both accumulators of the validator as they were: no finding of any kind
    sits on its row, and its code never enters the set of seen codes.  Its
    code still counts among the existing codes the generation loop probes
    against, and, when validation raises no critical finding, its INSERT is
    sent like any other and counted in [recordsImported] when it succeeds. *)
Theorem C10_sentinel_records sql_connect readExcelFile query uuidv4
    s excelPath rawData (i : nat) (r : gmap string jsval)
    (Hconn : pool s = true \/ sql_connect = None)
    (Hread : readExcelFile excelPath = inr rawData)
    (Hi : officesOf rawData !! i = Some r)
    (Hsentinel : isSentinel (officeCodeOf r) = true) :
  let offices := officesOf rawData in
  truthy (get r "OfficeDesc") = true
  /\ (forall rowOffset index acc, validateRow rowOffset acc index r = acc)
  /\ (forall e, e ∈ validateOfficeData offices 2 -> row e <> i + 2)
  /\ (officeCodeOf r ∉ (validateFrom 2 0 offices ([], ∅)).2)
  /\ officeCodeOf r ∈ existingCodes offices
  /\ (criticalErrors (validateOfficeData offices 2) = [] ->
      let statements := attempts uuidv4 (countryID s) (uuidCalls s) offices in
      let outs := outcomes query (sent s) statements in
      exists s' res,
        importOffices sql_connect readExcelFile query uuidv4 s excelPath
          = (s', Returned res)
        /\ sent s' = sent s ++ statements
        /\ statements !! i =
             Some (bindParams (countryID s) r (uuidv4 (uuidCalls s + i)))
        /\ recordsImported res = successes outs
        /\ (outs !! i = Some None ->
            0 < recordsImported res /\ success res = true)).
Proof.
  intros offices. split_and!.
  - apply (officesOf_hasDesc rawData). apply list_elem_of_lookup. eauto.
  - intros rowOffset index [errs seen]. unfold validateRow.
    unfold officeCodeOf in Hsentinel. by rewrite Hsentinel.
  - intros e He. by apply (sentinel_no_error offices 2 i r e).
  - rewrite validateFrom_split. cbn [snd].
    rewrite (left_id_L ∅ (∪)), elem_of_list_to_set, tracked_elem.
    intros (_ & Hns & _). congruence.
  - apply (existingCodes_elem offices i r Hi). by apply isSentinel_truthy.
  - intros Hclean statements outs. eexists _, _. split.
    { apply importOffices_clean; done. }
    fold offices statements outs. cbn [sent recordsImported success].
    split_and!; try done.
    + by apply attempts_lookup.
    + intros Ho. apply successes_pos in Ho. split; [done|].
      by apply bool_decide_eq_true.
Qed.

Lemma C10_sentinel_records_witness :
  (forall e,
     e ∈ validateOfficeData
           (officesOf [mkRow (VStr "Data") (VStr "Depot North");
                       mkRow (VStr "Data") (VStr "Depot South")]) 2 ->
     row e <> 3)
  /\ exists s' res,
       importOffices None
         (sheet [mkRow (VStr "Data") (VStr "Depot North");
                 mkRow (VStr "Data") (VStr "Depot South")])
         acceptAll sampleUuid sampleSession "offices.xlsx" = (s', Returned res)
       /\ recordsImported res = 2.
Proof.
  destruct (C10_sentinel_records None
    (sheet [mkRow (VStr "Data") (VStr "Depot North");
            mkRow (VStr "Data") (VStr "Depot South")])
    acceptAll sampleUuid sampleSession "offices.xlsx"
    [mkRow (VStr "Data") (VStr "Depot North");
     mkRow (VStr "Data") (VStr "Depot South")]
    1 (mapExcelToSQL (mkRow (VStr "Data") (VStr "Depot South")) columnMap)
    (or_intror eq_refl) eq_refl eq_refl eq_refl)
    as (_ & _ & Hrow & _ & _ & Hrun).
  split; [exact Hrow|].
  destruct (Hrun eq_refl) as (s' & res & Heq & _ & _ & Hn & _).
  exists s', res. split; [exact Heq|]. rewrite Hn. reflexivity.
Defined.

(** ** Further properties of the import *)

(** X1.  Whenever the batch holds a record without a code, the import
    returns at validation with [success = false], [recordsImported = 0] and
    the validator's findings, and sends nothing to the store: the code
    generation loop is never reached with a record to fill. *)
Theorem X1_missing_code_always_aborts sql_connect readExcelFile query uuidv4
    s excelPath rawData (i : nat) (r : gmap string jsval)
    (Hconn : pool s = true \/ sql_connect = None)
    (Hread : readExcelFile excelPath = inr rawData)
    (Hi : officesOf rawData !! i = Some r)
    (Hmissing : truthy (officeCodeOf r) = false) :
  exists s' res,
    importOffices sql_connect readExcelFile query uuidv4 s excelPath
      = (s', Returned res)
    /\ success res = false /\ recordsImported res = 0
    /\ errors res = validateOfficeData (officesOf rawData) 2
    /\ missingCodeError (i + 2) (officeCodeOf r) ∈ errors res
    /\ generatedCodes res = None
    /\ sent s' = sent s.
Proof.
  assert (missingCodeError (i + 2) (officeCodeOf r)
            ∈ validateOfficeData (officesOf rawData) 2) as Hin
    by (by apply missing_code_reported).
  eexists _, _. split.
  { eapply importOffices_critical;
      [done | done | exact Hin | apply missingCode_critical]. }
  cbn [success recordsImported errors generatedCodes sent withPool].
  split_and!; done.
Qed.

Lemma X1_missing_code_always_aborts_witness :
  exists s' res,
    importOffices None
      (sheet [mkRow (VStr "HQ") (VStr "Head Office");
              mkRow (VStr "") (VStr "Cape Town Branch!!")])
      acceptAll sampleUuid sampleSession "offices.xlsx" = (s', Returned res)
    /\ recordsImported res = 0 /\ generatedCodes res = None /\ sent s' = [].
Proof.
  destruct (X1_missing_code_always_aborts None
    (sheet [mkRow (VStr "HQ") (VStr "Head Office");
            mkRow (VStr "") (VStr "Cape Town Branch!!")])
    acceptAll sampleUuid sampleSession "offices.xlsx"
    [mkRow (VStr "HQ") (VStr "Head Office");
     mkRow (VStr "") (VStr "Cape Town Branch!!")]
    1 (mapExcelToSQL (mkRow (VStr "") (VStr "Cape Town Branch!!")) columnMap)
    (or_intror eq_refl) eq_refl eq_refl eq_refl)
    as (s' & res & Hrun & _ & Hn & _ & _ & Hg & Hsent).
  exists s', res. split_and!; assumption.
Defined.

(** X2.  The probing loop ends: entered with the base candidate and counter
    1 on a batch with [n] codes, it returns within [n + 1] further
    candidates, and what it returns is no code of the batch. *)
Theorem X2_probing_terminates (existing : list jsval) (baseCode : string) :
  exists code,
    probe (S (length existing)) existing baseCode 1 baseCode = Some code
    /\ (VStr code ∉ existing).
Proof.
  destruct (probe_total existing baseCode baseCode) as [code Hp].
  exists code. split; [done|].
  by destruct (probe_Some _ _ _ _ _ _ Hp) as [[-> H]|(_ & k & _ & _ & H & _)].
Qed.

Lemma officeCodeOf_insert o v : officeCodeOf (<["OfficeCode" := v]> o) = v.
Proof. unfold officeCodeOf, get. by rewrite lookup_insert_eq. Qed.

Lemma truthy_VStr code : code <> "" -> truthy (VStr code) = true.
Proof. intros H. simpl. by destruct code. Qed.

Lemma reconcileOffice_cases cur gen k :
  (reconcileOffice (cur, gen) k = Returned (cur, gen)
   /\ forall o, cur !! k = Some o -> truthy (officeCodeOf o) = true)
  \/ (exists o desc code,
        cur !! k = Some o /\ truthy (officeCodeOf o) = false
        /\ get o "OfficeDesc" = VStr desc
        /\ (VStr code ∉ existingCodes cur)
        /\ reconcileOffice (cur, gen) k =
             Returned (<[k := <["OfficeCode" := VStr code]> o]> cur,
                       setGenerated gen desc code))
  \/ (exists m, reconcileOffice (cur, gen) k = Thrown m).
Proof.
  destruct (cur !! k) as [o|] eqn:Hk.
  - destruct (truthy (officeCodeOf o)) eqn:Ht.
    + left. split; [by apply (reconcileOffice_keep cur gen k o)|].
      by intros ? [= <-].
    + destruct (get o "OfficeDesc") as [| | b | n | desc] eqn:Hd;
        try (right; right; unfold reconcileOffice; rewrite Hk, Ht, Hd;
             eexists; reflexivity).
      right; left.
      destruct (reconcileOffice_generate cur gen k o desc Hk Ht Hd)
        as (code & Hp & Hrun).
      exists o, desc, code. split_and!; try done.
      by destruct (probe_Some _ _ _ _ _ _ Hp) as [[-> H]|(_ & ? & _ & _ & H & _)].
  - left. split; [|done]. unfold reconcileOffice. by rewrite Hk.
Qed.

Lemma freshUpTo_step orig k cur gen cur' gen' :
  freshUpTo orig k cur ->
  reconcileOffice (cur, gen) k = Returned (cur', gen') ->
  freshUpTo orig (S k) cur'.
Proof.
  intros (Hlen & Hrest & Hdone) Hrun.
  destruct (reconcileOffice_cases cur gen k)
    as [[Hsame Htruthy]|[(o & desc & code & Hk & Hmiss & Hd & Hfree & Hgen)|[m Hm]]];
    [| |congruence].
  - rewrite Hsame in Hrun. injection Hrun as <- <-.
    split_and!; [done | intros j Hj; apply Hrest; lia |].
    intros j o Hj Ho. destruct (decide (j = k)) as [->|Hne].
    + rewrite <- Hrest in Ho by lia. split; [done|].
      intros Hmiss. by rewrite (Htruthy o Ho) in Hmiss.
    + apply Hdone; [lia | done].
  - rewrite Hgen in Hrun. injection Hrun as <- <-.
    assert (k < length cur) as Hklt by (by eapply lookup_lt_Some).
    split_and!.
    + by rewrite length_insert.
    + intros j Hj. rewrite list_lookup_insert_ne by lia. apply Hrest. lia.
    + intros j oj Hj Hoj. destruct (decide (j = k)) as [->|Hne].
      * rewrite <- Hrest in Hoj by lia. assert (oj = o) as -> by congruence.
        split; [intros Ht; congruence|]. intros _. exists code.
        split; [by rewrite list_lookup_insert_eq|].
        intros Hcode l o' Hl Hlo' Heq.
        rewrite list_lookup_insert_ne in Hlo' by done.
        apply Hfree. rewrite <- Heq.
        apply (existingCodes_elem cur l o' Hlo').
        rewrite Heq. by apply truthy_VStr.
      * destruct (Hdone j oj ltac:(lia) Hoj) as [Hkeep Hgenj].
        split.
        -- intros Ht. rewrite list_lookup_insert_ne by done. by apply Hkeep.
        -- intros Ht. destruct (Hgenj Ht) as (cj & Hcj & Hfreshj).
           exists cj. split; [by rewrite list_lookup_insert_ne|].
           intros Hne' l o' Hl Hlo'.
           destruct (decide (l = k)) as [->|Hlk].
           ++ rewrite list_lookup_insert_eq in Hlo' by done.
              injection Hlo' as <-. rewrite officeCodeOf_insert.
              intros [= ->]. apply Hfree.
              rewrite <- (officeCodeOf_insert oj (VStr cj)).
              apply (existingCodes_elem cur j _ Hcj).
              rewrite officeCodeOf_insert. by apply truthy_VStr.
           ++ rewrite list_lookup_insert_ne in Hlo' by done.
              by apply (Hfreshj Hne' l o').
Qed.

Lemma freshUpTo_loop orig n : forall k cur gen cur' gen',
  freshUpTo orig k cur ->
  reconcileLoop (seq k n) (cur, gen) = Returned (cur', gen') ->
  freshUpTo orig (k + n) cur'.
Proof.
  induction n as [|n IH]; intros k cur gen cur' gen' Hinv Hrun.
  - simpl in Hrun. injection Hrun as <- <-. by rewrite Nat.add_0_r.
  - cbn [seq reconcileLoop] in Hrun.
    destruct (reconcileOffice (cur, gen) k) as [[cur1 gen1]|m|] eqn:Hstep;
      try done.
    replace (k + S n) with (S k + n) by lia.
    apply (IH (S k) cur1 gen1 cur' gen'); [|done].
    by apply (freshUpTo_step orig k cur gen cur1 gen1).
Qed.

Lemma reconcileLoop_ends indices : forall st,
  (exists st', reconcileLoop indices st = Returned st')
  \/ (exists m, reconcileLoop indices st = Thrown m).
Proof.
  induction indices as [|k rest IH]; intros [cur gen]; [left; by eexists|].
  cbn [reconcileLoop].
  destruct (reconcileOffice_cases cur gen k)
    as [[-> _]|[(o & desc & code & _ & _ & _ & _ & ->)|[m ->]]];
    [apply IH | apply IH | right; by eexists].
Qed.

(** The loop returns when every record without a code has a string as
    description. *)
Lemma reconcileLoop_returns (orig : list (gmap string jsval)) n : forall k cur gen,
  (forall j, k <= j -> cur !! j = orig !! j) ->
  (forall o, o ∈ orig -> truthy (officeCodeOf o) = false ->
     exists desc, get o "OfficeDesc" = VStr desc) ->
  exists st', reconcileLoop (seq k n) (cur, gen) = Returned st'.
Proof.
  induction n as [|n IH]; intros k cur gen Hrest Hdesc; [by eexists|].
  cbn [seq reconcileLoop].
  destruct (reconcileOffice_cases cur gen k)
    as [[-> _]|[(o & desc & code & _ & _ & _ & _ & ->)|[m Hm]]].
  - apply IH; [|done]. intros j Hj. apply Hrest. lia.
  - apply IH; [|done]. intros j Hj.
    rewrite list_lookup_insert_ne by lia. apply Hrest. lia.
  - exfalso. unfold reconcileOffice in Hm.
    destruct (cur !! k) as [o|] eqn:Hk; [|done].
    destruct (truthy (officeCodeOf o)) eqn:Ht; [done|].
    rewrite Hrest in Hk by lia.
    destruct (Hdesc o) as [desc Hd]; [by eapply list_elem_of_lookup_2 | done |].
    rewrite Hd in Hm. by destruct (probe _ _ _ _ _).
Qed.

(** X5.  When the loop returns, the batch has its length, every record that
    had a code is unchanged, and every record that had none is the same
    record with a string code; a generated code that is not empty is carried
    by no other record of the batch. *)
Theorem X5_generated_codes_fresh (offices offices' : list (gmap string jsval))
    (generated : gmap string string)
    (Hrun : reconcile offices = Returned (offices', generated)) :
  length offices' = length offices
  /\ forall i o, offices !! i = Some o ->
       (truthy (officeCodeOf o) = true -> offices' !! i = Some o)
       /\ (truthy (officeCodeOf o) = false ->
           exists code,
             offices' !! i = Some (<["OfficeCode" := VStr code]> o)
             /\ (code <> "" ->
                 forall j o', j <> i -> offices' !! j = Some o' ->
                   officeCodeOf o' <> VStr code)).
Proof.
  assert (freshUpTo offices 0 offices) as Hinit.
  { split_and!; [done | done | intros j o Hj; lia]. }
  destruct (freshUpTo_loop offices (length offices) 0 offices ∅ offices'
              generated Hinit Hrun) as (Hlen & _ & Hdone).
  split; [done|]. intros i o Hi. apply Hdone; [|done].
  apply lookup_lt_Some in Hi. lia.
Qed.

Lemma X5_generated_codes_fresh_witness :
  length [mkRow (VStr "ACMECORP") (VStr "Acme Head Office");
          <["OfficeCode" := VStr "ACMECORP01"]> (mkRow VNull (VStr "Acme Corp"))]
    = 2
  /\ [mkRow (VStr "ACMECORP") (VStr "Acme Head Office");
      <["OfficeCode" := VStr "ACMECORP01"]> (mkRow VNull (VStr "Acme Corp"))]
       !! 0 = Some (mkRow (VStr "ACMECORP") (VStr "Acme Head Office")).
Proof.
  assert (reconcile [mkRow (VStr "ACMECORP") (VStr "Acme Head Office");
                     mkRow VNull (VStr "Acme Corp")]
          = Returned
              ([mkRow (VStr "ACMECORP") (VStr "Acme Head Office");
                <["OfficeCode" := VStr "ACMECORP01"]>
                  (mkRow VNull (VStr "Acme Corp"))],
               {["Acme Corp" := "ACMECORP01"]})) as Hrun
    by (vm_compute; reflexivity).
  destruct (X5_generated_codes_fresh _ _ _ Hrun) as [Hlen Hall].
  split; [exact Hlen|].
  exact (proj1 (Hall 0 (mkRow (VStr "ACMECORP") (VStr "Acme Head Office"))
                  eq_refl) eq_refl).
Defined.

(** X6.  The code generation loop always ends: it returns the batch, or it
    throws, and it throws only when the batch holds a record without a code
    whose description is no string. *)
Theorem X6_reconcile_ends (offices : list (gmap string jsval)) :
  (exists offices' generated, reconcile offices = Returned (offices', generated))
  \/ (exists m, reconcile offices = Thrown m
        /\ exists o, o ∈ offices /\ truthy (officeCodeOf o) = false
             /\ forall desc, get o "OfficeDesc" <> VStr desc).
Proof.
  destruct (existsb
              (fun o => negb (truthy (officeCodeOf o))
                        && match get o "OfficeDesc" with
                           | VStr _ => false
                           | _ => true
                           end) offices) eqn:Hbad.
  - apply existsb_exists in Hbad as (o & Ho & Hbad).
    apply andb_true_iff in Hbad as [Hmiss Hdesc].
    apply negb_true_iff in Hmiss. apply list_elem_of_In in Ho.
    destruct (reconcileLoop_ends (seq 0 (length offices)) (offices, ∅))
      as [[[offices' generated] H]|[m H]]; [left; eauto|].
    right. exists m. split; [done|]. exists o. split_and!; [done | done |].
    intros desc Hd. by rewrite Hd in Hdesc.
  - left.
    destruct (reconcileLoop_returns offices (length offices) 0 offices ∅
                ltac:(done)) as [[offices' generated] H]; [|eauto].
    intros o Ho Hmiss.
    destruct (get o "OfficeDesc") as [| | b | n | desc] eqn:Hd; [| | | |by eexists];
      exfalso;
      (assert (existsb
                 (fun o => negb (truthy (officeCodeOf o))
                           && match get o "OfficeDesc" with
                              | VStr _ => false
                              | _ => true
                              end) offices = true) as Hex;
       [apply existsb_exists; exists o; split;
          [by apply list_elem_of_In | by rewrite Hmiss, Hd]
       | congruence]).
Qed.

(** ** The code generation loop: empty codes and long codes *)

Lemma reconcileLoop_app l1 l2 : forall st,
  reconcileLoop (l1 ++ l2) st =
  match reconcileLoop l1 st with
  | Returned st' => reconcileLoop l2 st'
  | Thrown m => Thrown m
  | Diverged => Diverged
  end.
Proof.
  induction l1 as [|k l1 IH]; intros st; [done|].
  cbn [app reconcileLoop]. by destruct (reconcileOffice st k).
Qed.

(** The loop touches only the positions it visits. *)
Lemma reconcileLoop_other indices : forall cur gen cur' gen' j,
  j ∉ indices ->
  reconcileLoop indices (cur, gen) = Returned (cur', gen') ->
  cur' !! j = cur !! j.
Proof.
  induction indices as [|k rest IH]; intros cur gen cur' gen' j Hj Hrun.
  - cbn in Hrun. by injection Hrun as <- <-.
  - cbn [reconcileLoop] in Hrun.
    apply not_elem_of_cons in Hj as [Hjk Hj].
    destruct (reconcileOffice_cases cur gen k)
      as [[Hsame _]|[(o & desc & code & _ & _ & _ & _ & Hgen)|[m Hm]]].
    + rewrite Hsame in Hrun. by apply (IH _ _ _ _ j Hj) in Hrun.
    + rewrite Hgen in Hrun. apply (IH _ _ _ _ j Hj) in Hrun.
      rewrite Hrun. by apply list_lookup_insert_ne.
    + by rewrite Hm in Hrun.
Qed.

Lemma empty_code_not_existing offices : VStr "" ∉ existingCodes offices.
Proof.
  unfold existingCodes. intros H.
  apply list_elem_of_In, filter_In in H as [_ H]. done.
Qed.

(** X3.  The loop alone does not keep generated codes apart.  A record
    without a code whose description has no letter or digit among its first
    10 characters, so that its base candidate is empty, is given the empty
    string as code, wherever it stands in the batch and whatever the other
    records are: [filter(Boolean)] drops empty codes from the existing
    codes, so the empty candidate never collides.  Any number of such
    records end with the same code. *)
Theorem X3_generated_codes_can_repeat (offices offices' : list (gmap string jsval))
    (generated : gmap string string) (i : nat) (o : gmap string jsval)
    (desc : string)
    (Hrun : reconcile offices = Returned (offices', generated))
    (Hi : offices !! i = Some o)
    (Hmiss : truthy (officeCodeOf o) = false)
    (Hdesc : get o "OfficeDesc" = VStr desc)
    (Hbase : baseCodeOf desc = "") :
  offices' !! i = Some (<["OfficeCode" := VStr ""]> o).
Proof.
  unfold reconcile in Hrun.
  assert (i < length offices) as Hlt by (by eapply lookup_lt_Some).
  replace (length offices) with (i + S (length offices - S i)) in Hrun by lia.
  rewrite seq_app, reconcileLoop_app in Hrun.
  destruct (reconcileLoop (seq 0 i) (offices, ∅)) as [[cur gen]|m|] eqn:Hbefore;
    try done.
  assert (cur !! i = Some o) as Hcur.
  { rewrite <- Hi. apply (reconcileLoop_other (seq 0 i) offices ∅ cur gen i);
      [|done]. rewrite elem_of_seq. lia. }
  cbn [seq reconcileLoop] in Hrun. change (0 + i) with i in Hrun.
  destruct (reconcileOffice_generate cur gen i o desc Hcur Hmiss Hdesc)
    as (code & Hprobe & Hstep).
  rewrite Hbase, probe_fresh in Hprobe by apply empty_code_not_existing.
  injection Hprobe as <-. rewrite Hstep in Hrun.
  apply (reconcileLoop_other _ _ _ _ _ i) in Hrun;
    [|rewrite elem_of_seq; lia].
  rewrite Hrun. apply list_lookup_insert_eq. by eapply lookup_lt_Some.
Qed.

Lemma X3_generated_codes_can_repeat_witness :
  exists offices' generated,
    reconcile [mkRow VNull (VStr "!!!"); mkRow (VStr "HQ") (VStr "Head Office");
               mkRow VNull (VStr "???")]
      = Returned (offices', generated)
    /\ offices' !! 0 = Some (<["OfficeCode" := VStr ""]> (mkRow VNull (VStr "!!!")))
    /\ offices' !! 2 = Some (<["OfficeCode" := VStr ""]> (mkRow VNull (VStr "???"))).
Proof.
  destruct (reconcile [mkRow VNull (VStr "!!!");
                       mkRow (VStr "HQ") (VStr "Head Office");
                       mkRow VNull (VStr "???")])
    as [[offices' generated]|m|] eqn:Hrun;
    [|vm_compute in Hrun; discriminate Hrun..].
  exists offices', generated. split; [reflexivity|]. split.
  - exact (X3_generated_codes_can_repeat _ offices' generated 0
             (mkRow VNull (VStr "!!!")) "!!!" Hrun eq_refl eq_refl eq_refl eq_refl).
  - exact (X3_generated_codes_can_repeat _ offices' generated 2
             (mkRow VNull (VStr "???")) "???" Hrun eq_refl eq_refl eq_refl eq_refl).
Defined.

Lemma candidate_length baseCode k :
  0 < k < 100 -> String.length (candidate baseCode k) <= 10.
Proof.
  intros Hk. unfold candidate. rewrite string_app_length, two_digits by done.
  pose proof (substring_length_le baseCode 0 8). lia.
Qed.

(** The counter the loop stops at is at most one more than the number of
    codes: the candidates below it are distinct codes of the batch. *)
Lemma probe_counter_bound existing baseCode k :
  (forall k', 1 <= k' < k -> VStr (candidate baseCode k') ∈ existing) ->
  k <= S (length existing).
Proof.
  intros Hall.
  set (cands := map (fun k => VStr (candidate baseCode k)) (seq 1 (k - 1))).
  assert (NoDup cands) as Hnd.
  { apply NoDup_fmap_2; [|apply NoDup_seq].
    intros a b [= H]. by apply candidate_inj in H. }
  assert (cands ⊆+ existing) as Hsub.
  { apply NoDup_submseteq; [done|]. intros x Hx.
    apply list_elem_of_fmap in Hx as (k' & -> & Hk').
    apply elem_of_seq in Hk'. apply Hall. lia. }
  apply submseteq_length in Hsub. unfold cands in Hsub.
  rewrite length_map, length_seq in Hsub. lia.
Qed.

(** X4.  A generated code fits the ten characters of the column as long as
    the batch holds fewer than 99 codes: the base candidate has at most 10
    characters, and a candidate of the probing loop has the first 8 of them
    and a counter that is at most the number of codes plus one, written with
    two digits below 100.  The counter is padded to two digits, not cut to
    two, so the bound on the batch is needed
    ([generated_code_eleven_characters]). *)
Theorem X4_generated_code_length (existing : list jsval) (desc code : string)
    (Hascii : Forall (fun c => nat_of_ascii c < 128) (list_ascii_of_string desc))
    (Hprobe :
       probe (S (length existing)) existing (baseCodeOf desc) 1 (baseCodeOf desc)
         = Some code)
    (Hfew : length existing < 99) :
  String.length code <= 10.
Proof.
  apply probe_Some in Hprobe
    as [[-> _]|(_ & k & Hk & -> & _ & Hbelow)].
  - apply baseCodeOf_length.
  - apply candidate_length.
    pose proof (probe_counter_bound existing (baseCodeOf desc) k Hbelow). lia.
Qed.

Lemma X4_generated_code_length_witness :
  probe 2 [VStr "ACMECORP"] (baseCodeOf "Acme Corp") 1 (baseCodeOf "Acme Corp")
    = Some "ACMECORP01"
  /\ String.length "ACMECORP01" <= 10.
Proof.
  assert (probe (S (length [VStr "ACMECORP"])) [VStr "ACMECORP"]
            (baseCodeOf "Acme Corp") 1 (baseCodeOf "Acme Corp")
          = Some "ACMECORP01") as Hprobe by (vm_compute; reflexivity).
  split; [exact Hprobe|].
  apply (X4_generated_code_length [VStr "ACMECORP"] "Acme Corp" "ACMECORP01");
    [repeat constructor; vm_compute; lia | exact Hprobe | simpl; lia].
Defined.

(** With 99 codes in the batch the loop can return 11 characters. *)
Example generated_code_eleven_characters :
  length (map (fun k => VStr (candidate "ABCDEFGH01" k)) (seq 1 99)) = 99
  /\ baseCodeOf "ABCDEFGH01" = "ABCDEFGH01"
  /\ probe 100 (map (fun k => VStr (candidate "ABCDEFGH01" k)) (seq 1 99))
       "ABCDEFGH01" 1 "ABCDEFGH01" = Some "ABCDEFGH100"
  /\ String.length "ABCDEFGH100" = 11.
Proof. split_and!; vm_compute; reflexivity. Qed.

(** ** C7: the codes of the batch after the loop *)

Lemma reconcileLoop_length indices : forall cur gen cur' gen',
  reconcileLoop indices (cur, gen) = Returned (cur', gen') ->
  length cur' = length cur.
Proof.
  induction indices as [|k rest IH]; intros cur gen cur' gen' Hrun.
  - cbn in Hrun. by injection Hrun as <- <-.
  - cbn [reconcileLoop] in Hrun.
    destruct (reconcileOffice_cases cur gen k)
      as [[Hsame _]|[(o & desc & code & _ & _ & _ & _ & Hgen)|[m Hm]]].
    + rewrite Hsame in Hrun. by apply IH in Hrun.
    + rewrite Hgen in Hrun. apply IH in Hrun. by rewrite length_insert in Hrun.
    + by rewrite Hm in Hrun.
Qed.

(** The code of a record that the loop fills is what the probing returns on
    the batch as it stands when the loop reaches the record. *)
Lemma reconcile_generated_at offices offices' generated i o desc :
  reconcile offices = Returned (offices', generated) ->
  offices !! i = Some o -> truthy (officeCodeOf o) = false ->
  get o "OfficeDesc" = VStr desc ->
  exists cur code,
    length cur = length offices
    /\ cur !! i = Some o
    /\ probe (S (length (existingCodes cur))) (existingCodes cur)
         (baseCodeOf desc) 1 (baseCodeOf desc) = Some code
    /\ offices' !! i = Some (<["OfficeCode" := VStr code]> o).
Proof.
  intros Hrun Hi Hmiss Hdesc. unfold reconcile in Hrun.
  assert (i < length offices) as Hlt by (by eapply lookup_lt_Some).
  replace (length offices) with (i + S (length offices - S i)) in Hrun by lia.
  rewrite seq_app, reconcileLoop_app in Hrun.
  destruct (reconcileLoop (seq 0 i) (offices, ∅)) as [[cur gen]|m|] eqn:Hbefore;
    try done.
  assert (cur !! i = Some o) as Hcur.
  { rewrite <- Hi. apply (reconcileLoop_other (seq 0 i) offices ∅ cur gen i);
      [|done]. rewrite elem_of_seq. lia. }
  cbn [seq reconcileLoop] in Hrun. change (0 + i) with i in Hrun.
  destruct (reconcileOffice_generate cur gen i o desc Hcur Hmiss Hdesc)
    as (code & Hprobe & Hstep).
  rewrite Hstep in Hrun.
  apply (reconcileLoop_other _ _ _ _ _ i) in Hrun;
    [|rewrite elem_of_seq; lia].
  exists cur, code. split_and!; [|done|done|].
  - by apply reconcileLoop_length in Hbefore.
  - rewrite Hrun. apply list_lookup_insert_eq. by eapply lookup_lt_Some.
Qed.

Lemma existingCodes_length offices :
  length (existingCodes offices) <= length offices.
Proof.
  unfold existingCodes.
  pose proof (filter_length_le truthy (map officeCodeOf offices)) as H.
  by rewrite length_map in H.
Qed.

(** A record without a code is no source of an existing code. *)
Lemma existingCodes_length_lt offices : forall i o,
  offices !! i = Some o -> truthy (officeCodeOf o) = false ->
  length (existingCodes offices) < length offices.
Proof.
  induction offices as [|r l IH]; intros [|i] o Hi Ht; try done;
    unfold existingCodes in *; cbn [map List.filter length].
  - cbn in Hi. injection Hi as ->. rewrite Ht.
    pose proof (existingCodes_length l) as H. unfold existingCodes in H. lia.
  - specialize (IH i o Hi Ht).
    destruct (truthy (officeCodeOf r)); cbn [length]; lia.
Qed.

Lemma probe_length existing desc code :
  probe (S (length existing)) existing (baseCodeOf desc) 1 (baseCodeOf desc)
    = Some code ->
  length existing < 99 -> String.length code <= 10.
Proof.
  intros Hprobe Hfew.
  apply probe_Some in Hprobe as [[-> _]|(_ & k & Hk & -> & _ & Hbelow)].
  - apply baseCodeOf_length.
  - apply candidate_length.
    pose proof (probe_counter_bound existing (baseCodeOf desc) k Hbelow). lia.
Qed.

(** Without a duplicate finding, a code that sits on two records is a
    sentinel. *)
Lemma explicit_codes_distinct offices off :
  (forall e, e ∈ validateOfficeData offices off -> isCritical e = true ->
     exists k c, e = missingCodeError k c) ->
  forall i j ri rj, i < j ->
    offices !! i = Some ri -> offices !! j = Some rj ->
    truthy (officeCodeOf ri) = true -> officeCodeOf ri = officeCodeOf rj ->
    isSentinel (officeCodeOf ri) = true.
Proof.
  intros Hspec i j ri rj Hlt Hi Hj Ht Heq.
  destruct (isSentinel (officeCodeOf ri)) eqn:Hs; [done|]. exfalso.
  assert (duplicateError (j + off) (officeCodeOf ri)
            ∈ validateOfficeData offices off) as Hdup.
  { apply duplicate_reported_iff. exists rj. split_and!; try done.
    by exists i, ri. }
  destruct (Hspec _ Hdup (duplicate_critical _ _)) as (k & c & Hk).
  discriminate Hk.
Qed.

(** C7, against the claim as stated.  Two records carrying the sentinel code
    "Data" raise no finding, so the loop runs, and after it the two records
    still carry equal codes.  Run on records without a code, the loop gives
    two records whose descriptions have no letter or digit the same empty
    code, and gives the last record of a batch whose 99 other records carry
    the codes "ABCDEFGH01" to "ABCDEFGH99" a code of 11 characters; on
    neither batch validation raises a duplicate or a missing-description
    finding.  On a record without a code whose description is a number the
    loop throws and leaves the record without a code. *)
Lemma C7_counterexample :
  criticalErrors
    (validateOfficeData
       [mkRow (VStr "Data") (VStr "Depot North");
        mkRow (VStr "Data") (VStr "Depot South")] 2) = []
  /\ codesAfter [mkRow (VStr "Data") (VStr "Depot North");
                 mkRow (VStr "Data") (VStr "Depot South")]
     = Returned [VStr "Data"; VStr "Data"]
  /\ validateOfficeData [mkRow VNull (VStr "!!!"); mkRow VNull (VStr "???")] 2
     = [missingCodeError 2 VNull; missingCodeError 3 VNull]
  /\ codesAfter [mkRow VNull (VStr "!!!"); mkRow VNull (VStr "???")]
     = Returned [VStr ""; VStr ""]
  /\ validateOfficeData crowdedBatch 2 = [missingCodeError 101 VNull]
  /\ codesAfter crowdedBatch
     = Returned (map (fun k => VStr (candidate "ABCDEFGH01" k)) (seq 1 99)
                 ++ [VStr "ABCDEFGH100"])
  /\ String.length "ABCDEFGH100" = 11
  /\ length crowdedBatch = 100
  /\ codesAfter [mkRow VNull (VNum 42)]
     = Thrown "office.OfficeDesc.substring is not a function".
Proof. split_and!; vm_compute; reflexivity. Qed.

(** C7 (amended).  Reconciliation, taken on its own, of a batch whose
    records have a string as description and on which validation raises no
    critical finding other than the finding on a missing code: the loop
    returns, the batch keeps its length and every record that had a code
    keeps it; every record that was missing its code is the same record
    with a string code, which has at most 10 characters when the batch
    holds fewer than 100 records and the description is ASCII; and two
    records at different positions carry equal codes only when that code is
    one of the sentinels or the empty string. *)
Theorem C7_codes_after_reconciliation (offices : list (gmap string jsval))
    (Hdesc : forall o, o ∈ offices -> exists desc, get o "OfficeDesc" = VStr desc)
    (Hspec : forall e, e ∈ validateOfficeData offices 2 -> isCritical e = true ->
               exists k c, e = missingCodeError k c) :
  exists offices' generated,
    reconcile offices = Returned (offices', generated)
    /\ length offices' = length offices
    /\ (forall i o, offices !! i = Some o -> truthy (officeCodeOf o) = true ->
          offices' !! i = Some o)
    /\ (forall i o desc, offices !! i = Some o ->
          truthy (officeCodeOf o) = false -> get o "OfficeDesc" = VStr desc ->
          exists code,
            offices' !! i = Some (<["OfficeCode" := VStr code]> o)
            /\ (length offices < 100 ->
                Forall (fun c => nat_of_ascii c < 128) (list_ascii_of_string desc) ->
                String.length code <= 10))
    /\ (forall i j oi oj, i <> j ->
          offices' !! i = Some oi -> offices' !! j = Some oj ->
          officeCodeOf oi = officeCodeOf oj ->
          isSentinel (officeCodeOf oi) = true \/ officeCodeOf oi = VStr "").
Proof.
  destruct (reconcileLoop_returns offices (length offices) 0 offices ∅
              ltac:(done) (fun o Ho _ => Hdesc o Ho)) as [[offices' generated] Hrun].
  change (reconcile offices = Returned (offices', generated)) in Hrun.
  assert (freshUpTo offices 0 offices) as Hinit.
  { split_and!; [done | done | intros j o Hj; lia]. }
  destruct (freshUpTo_loop offices (length offices) 0 offices ∅ offices'
              generated Hinit Hrun) as (Hlen & _ & Hdone).
  assert (forall i o, offices !! i = Some o ->
            (truthy (officeCodeOf o) = true -> offices' !! i = Some o)
            /\ (truthy (officeCodeOf o) = false ->
                exists code,
                  offices' !! i = Some (<["OfficeCode" := VStr code]> o)
                  /\ (code <> "" ->
                      forall j o', j <> i -> offices' !! j = Some o' ->
                        officeCodeOf o' <> VStr code))) as Hafter.
  { intros i o Hi. apply Hdone; [|done]. apply lookup_lt_Some in Hi. lia. }
  exists offices', generated. split_and!; [done | done | | |].
  - intros i o Hi Ht. by apply (Hafter i o Hi).
  - intros i o desc Hi Hmiss Hd.
    destruct (reconcile_generated_at offices offices' generated i o desc
                Hrun Hi Hmiss Hd) as (cur & code & Hcur & Hat & Hprobe & Hcode).
    exists code. split; [done|]. intros Hfew _.
    apply (probe_length (existingCodes cur) desc code Hprobe).
    pose proof (existingCodes_length_lt cur i o Hat Hmiss). lia.
  - assert (forall i j oi oj ri, i <> j ->
              offices' !! i = Some oi -> offices' !! j = Some oj ->
              officeCodeOf oi = officeCodeOf oj ->
              offices !! i = Some ri -> truthy (officeCodeOf ri) = false ->
              officeCodeOf oi = VStr "") as Hfilled.
    { intros i j oi oj ri Hne Hi Hj Heq Hri Hmiss.
      destruct (proj2 (Hafter i ri Hri) Hmiss) as (code & Hcode & Hfresh).
      assert (oi = <["OfficeCode" := VStr code]> ri) as -> by congruence.
      rewrite officeCodeOf_insert in *.
      destruct (decide (code = "")) as [->|Hcne]; [done|].
      exfalso. by apply (Hfresh Hcne j oj). }
    intros i j oi oj Hne Hi Hj Heq.
    destruct (lookup_lt_is_Some_2 offices i) as [ri Hri];
      [rewrite <- Hlen; by eapply lookup_lt_Some|].
    destruct (lookup_lt_is_Some_2 offices j) as [rj Hrj];
      [rewrite <- Hlen; by eapply lookup_lt_Some|].
    destruct (truthy (officeCodeOf ri)) eqn:Hti;
      [|right; by apply (Hfilled i j oi oj ri)].
    destruct (truthy (officeCodeOf rj)) eqn:Htj;
      [|right; rewrite Heq; by apply (Hfilled j i oj oi rj)].
    left.
    assert (oi = ri) as -> by (pose proof (proj1 (Hafter i ri Hri) Hti); congruence).
    assert (oj = rj) as -> by (pose proof (proj1 (Hafter j rj Hrj) Htj); congruence).
    destruct (decide (i < j)) as [Hlt|Hge].
    + by apply (explicit_codes_distinct offices 2 Hspec i j ri rj).
    + rewrite Heq.
      apply (explicit_codes_distinct offices 2 Hspec j i rj ri); [lia | done..].
Qed.

Lemma C7_codes_after_reconciliation_witness :
  exists offices' generated code,
    reconcile [mkRow (VStr "HQ") (VStr "Head Office");
               mkRow VNull (VStr "Cape Town Branch!!");
               mkRow (VStr "Data") (VStr "Depot North");
               mkRow (VStr "Data") (VStr "Depot South")]
      = Returned (offices', generated)
    /\ offices' !! 1
       = Some (<["OfficeCode" := VStr code]> (mkRow VNull (VStr "Cape Town Branch!!")))
    /\ String.length code <= 10
    /\ offices' !! 0 = Some (mkRow (VStr "HQ") (VStr "Head Office")).
Proof.
  assert (validateOfficeData
            [mkRow (VStr "HQ") (VStr "Head Office");
             mkRow VNull (VStr "Cape Town Branch!!");
             mkRow (VStr "Data") (VStr "Depot North");
             mkRow (VStr "Data") (VStr "Depot South")] 2
          = [missingCodeError 3 VNull]) as Hfound by (vm_compute; reflexivity).
  destruct (C7_codes_after_reconciliation
    [mkRow (VStr "HQ") (VStr "Head Office");
     mkRow VNull (VStr "Cape Town Branch!!");
     mkRow (VStr "Data") (VStr "Depot North");
     mkRow (VStr "Data") (VStr "Depot South")])
    as (offices' & generated & Hrun & _ & Hkept & Hfilled & _).
  - intros o Ho.
    repeat (apply elem_of_cons in Ho as [->|Ho]; [by eexists|]).
    by apply elem_of_nil in Ho.
  - intros e He _. rewrite Hfound in He.
    apply list_elem_of_singleton in He as ->. by eexists _, _.
  - destruct (Hfilled 1 (mkRow VNull (VStr "Cape Town Branch!!"))
                "Cape Town Branch!!" eq_refl eq_refl eq_refl)
      as (code & Hcode & Hlength).
    exists offices', generated, code. split_and!; [exact Hrun | exact Hcode | |].
    + apply Hlength; [simpl; lia | repeat constructor; vm_compute; lia].
    + exact (Hkept 0 (mkRow (VStr "HQ") (VStr "Head Office")) eq_refl eq_refl).
Defined.

(** ** When validation lets a batch through *)

Lemma longCode_not_critical k c : isCritical (longCodeError k c) = false.
Proof. reflexivity. Qed.

Lemma longDesc_not_critical k d : isCritical (longDescError k d) = false.
Proof. reflexivity. Qed.

Lemma criticalErrors_nil_iff l :
  criticalErrors l = [] <-> forall e, e ∈ l -> isCritical e = false.
Proof.
  split.
  - intros Hnil e He. destruct (isCritical e) eqn:Hc; [|done].
    exfalso. by apply (criticalErrors_nil l e).
  - intros Hall. destruct (criticalErrors l) as [|e rest] eqn:Hl; [done|].
    assert (e ∈ criticalErrors l) as He by (rewrite Hl; apply list_elem_of_here).
    apply criticalErrors_elem in He as [He Hc].
    rewrite (Hall e He) in Hc. done.
Qed.

Lemma error_row_bounds data off e :
  e ∈ validateOfficeData data off -> off <= row e < length data + off.
Proof. intros He. apply errorsOf_rows in He. lia. Qed.

(** X7.  On a batch whose records all have a description, validation raises
    no critical finding exactly when every record carries a code and no code
    other than a sentinel sits on two records; findings on over-long codes
    or descriptions never block. *)
Theorem X7_validation_passes_iff (offices : list (gmap string jsval))
    (rowOffset : nat)
    (Hdesc : forall o, o ∈ offices -> truthy (get o "OfficeDesc") = true) :
  criticalErrors (validateOfficeData offices rowOffset) = [] <->
  (forall i r, offices !! i = Some r -> truthy (officeCodeOf r) = true)
  /\ (forall i j ri rj, i < j -> offices !! i = Some ri -> offices !! j = Some rj ->
        officeCodeOf ri = officeCodeOf rj -> isSentinel (officeCodeOf ri) = true).
Proof.
  split; [apply no_critical_codes|].
  intros [Hall Hdistinct]. apply criticalErrors_nil_iff. intros e He.
  pose proof (error_row_bounds _ _ _ He) as Hrow.
  remember (row e - rowOffset) as k eqn:Hk.
  destruct (error_at_row offices rowOffset k e He ltac:(lia)) as (r & Hr & Hin).
  apply rowErrors_elem in Hin as [Hns Hcases]. cbn zeta in Hcases.
  destruct Hcases
    as [[Heq Hf]|[[Heq Hf]|[(Heq & Ht & Hseen)|[[Heq _]|[Heq _]]]]].
  - rewrite (Hall _ _ Hr) in Hf. done.
  - rewrite (Hdesc r) in Hf; [done|]. apply list_elem_of_lookup. eauto.
  - exfalso.
    apply elem_of_list_to_set, tracked_elem in Hseen
      as (_ & _ & i & r' & Hi & Hcode).
    pose proof (lookup_lt_Some _ _ _ Hi) as Hlt. rewrite length_take in Hlt.
    rewrite lookup_take_lt in Hi by lia.
    pose proof (Hdistinct i k r' r ltac:(lia) Hi Hr Hcode) as H.
    rewrite Hcode in H. congruence.
  - rewrite Heq. apply longCode_not_critical.
  - rewrite Heq. apply longDesc_not_critical.
Qed.

Lemma X7_validation_passes_iff_witness :
  criticalErrors
    (validateOfficeData
       [mkRow (VStr "HEADQUARTERS-NORTH") (VStr "Head Office");
        mkRow (VNum 7) (VStr "Branch")] 2) = [] <->
  (forall i r,
     [mkRow (VStr "HEADQUARTERS-NORTH") (VStr "Head Office");
      mkRow (VNum 7) (VStr "Branch")] !! i = Some r ->
     truthy (officeCodeOf r) = true)
  /\ (forall i j ri rj, i < j ->
        [mkRow (VStr "HEADQUARTERS-NORTH") (VStr "Head Office");
         mkRow (VNum 7) (VStr "Branch")] !! i = Some ri ->
        [mkRow (VStr "HEADQUARTERS-NORTH") (VStr "Head Office");
         mkRow (VNum 7) (VStr "Branch")] !! j = Some rj ->
        officeCodeOf ri = officeCodeOf rj -> isSentinel (officeCodeOf ri) = true).
Proof.
  apply (X7_validation_passes_iff
    [mkRow (VStr "HEADQUARTERS-NORTH") (VStr "Head Office");
     mkRow (VNum 7) (VStr "Branch")] 2).
  intros o Ho. apply elem_of_cons in Ho as [->|Ho]; [reflexivity|].
  apply elem_of_cons in Ho as [->|Ho]; [reflexivity|].
  by apply elem_of_nil in Ho.
Defined.

(** X8.  A sheet that leaves no record after the description filter (an
    empty sheet, or rows without a description only) is answered with
    [success = false], no import, no error and the message "Successfully
    imported 0 of 0 office(s)"; nothing is sent to the store. *)
Theorem X8_empty_batch sql_connect readExcelFile query uuidv4 s excelPath rawData
    (Hconn : pool s = true \/ sql_connect = None)
    (Hread : readExcelFile excelPath = inr rawData)
    (Hempty : officesOf rawData = []) :
  importOffices sql_connect readExcelFile query uuidv4 s excelPath =
    (mkSession true (countryID s) (sent s) (uuidCalls s),
     Returned
       (mkImportResult false 0 [] "Successfully imported 0 of 0 office(s)" None)).
Proof.
  rewrite (importOffices_clean sql_connect readExcelFile query uuidv4 s
             excelPath rawData Hconn Hread) by (by rewrite Hempty).
  rewrite Hempty. cbn. by rewrite app_nil_r, Nat.add_0_r.
Qed.

Lemma X8_empty_batch_witness :
  importOffices None (sheet [mkRow (VStr "HQ") VNull; mkRow VNull (VStr "")])
    acceptAll sampleUuid sampleSession "offices.xlsx" =
    (mkSession true 1 [] 0,
     Returned
       (mkImportResult false 0 [] "Successfully imported 0 of 0 office(s)" None)).
Proof.
  apply (X8_empty_batch None
    (sheet [mkRow (VStr "HQ") VNull; mkRow VNull (VStr "")]) acceptAll
    sampleUuid sampleSession "offices.xlsx"
    [mkRow (VStr "HQ") VNull; mkRow VNull (VStr "")]
    (or_intror eq_refl) eq_refl eq_refl).
Defined.

(** ** What a run leaves behind *)

Lemma attempts_country uuidv4 country base offices p :
  p ∈ attempts uuidv4 country base offices -> ("CountryID", VNum country) ∈ p.
Proof.
  revert base. induction offices as [|o l IH]; intros base; simpl.
  - intros H. by apply elem_of_nil in H.
  - intros [->|H]%elem_of_cons; [|by eapply IH].
    unfold bindParams. apply list_elem_of_here.
Qed.

Lemma criticalErrors_cases l :
  criticalErrors l = [] \/ exists e, e ∈ l /\ isCritical e = true.
Proof.
  destruct (criticalErrors l) as [|e rest] eqn:Hl; [by left|]. right.
  exists e. apply criticalErrors_elem. rewrite Hl. apply list_elem_of_here.
Qed.

Lemma import_frame_connected sql_connect readExcelFile query uuidv4 s excelPath :
  pool s = true \/ sql_connect = None ->
  let run := importOffices sql_connect readExcelFile query uuidv4 s excelPath in
  countryID run.1 = countryID s
  /\ (exists new,
        sent run.1 = sent s ++ new
        /\ uuidCalls run.1 = uuidCalls s + length new
        /\ (forall p, p ∈ new -> ("CountryID", VNum (countryID s)) ∈ p)
        /\ (new = [] \/
            exists rawData, readExcelFile excelPath = inr rawData
              /\ length new = length (officesOf rawData)))
  /\ (forall m, run.2 <> Thrown m).
Proof.
  intros Hc. cbn zeta.
  assert (exists new : list (list (string * jsval)),
            sent s = sent s ++ new
            /\ uuidCalls s = uuidCalls s + length new
            /\ (forall p, p ∈ new -> ("CountryID", VNum (countryID s)) ∈ p)
            /\ (new = [] \/
                exists rawData, readExcelFile excelPath = inr rawData
                  /\ length new = length (officesOf rawData))) as Hsame.
  { exists []. rewrite app_nil_r, Nat.add_0_r.
    split_and!; try done; [|by left]. intros p Hp. by apply elem_of_nil in Hp. }
  destruct (readExcelFile excelPath) as [m|rawData] eqn:Hread.
  - rewrite importOffices_ok by done. unfold importBody. rewrite Hread.
    cbn. split_and!; done.
  - destruct (criticalErrors_cases (validateOfficeData (officesOf rawData) 2))
      as [Hnil|(e & He & Hcrit)].
    + rewrite (importOffices_clean sql_connect readExcelFile query uuidv4 s
                 excelPath rawData Hc Hread Hnil).
      cbn. split_and!; [done | | done].
      eexists. split_and!; [done | | |].
      * by rewrite length_attempts.
      * apply attempts_country.
      * right. exists rawData. split; [done | by rewrite length_attempts].
    + rewrite (importOffices_critical sql_connect readExcelFile query uuidv4 s
                 excelPath rawData e Hc Hread He Hcrit).
      cbn. split_and!; done.
Qed.

(** X9.  Whatever the sheet and the store do, a run of [importOffices] only
    appends to what the store has received: the statements sent before stay
    in place, the country of the session is unchanged, every new statement
    carries that country, one identifier is drawn per new statement, and
    the new statements are either none or one per record of the batch.
    When the run throws, the session is as it was. *)
Theorem X9_import_frame sql_connect readExcelFile query uuidv4 s excelPath :
  let run := importOffices sql_connect readExcelFile query uuidv4 s excelPath in
  countryID run.1 = countryID s
  /\ (exists new,
        sent run.1 = sent s ++ new
        /\ uuidCalls run.1 = uuidCalls s + length new
        /\ (forall p, p ∈ new -> ("CountryID", VNum (countryID s)) ∈ p)
        /\ (new = [] \/
            exists rawData, readExcelFile excelPath = inr rawData
              /\ length new = length (officesOf rawData)))
  /\ (forall m, run.2 = Thrown m -> run.1 = s).
Proof.
  cbn zeta. destruct (pool s) eqn:Hp; [|destruct sql_connect as [m|] eqn:Hconn].
  - destruct (import_frame_connected sql_connect readExcelFile query uuidv4 s
                excelPath (or_introl Hp)) as (H1 & H2 & H3).
    split_and!; [done | done |]. intros m Hm. by apply H3 in Hm.
  - unfold importOffices, connect. rewrite Hp. cbn.
    split_and!; [done | | done].
    exists []. rewrite app_nil_r, Nat.add_0_r.
    split_and!; try done; [|by left]. intros p Hq. by apply elem_of_nil in Hq.
  - destruct (import_frame_connected None readExcelFile query uuidv4 s
                excelPath (or_intror eq_refl)) as (H1 & H2 & H3).
    split_and!; [done | done |]. intros m Hm. by apply H3 in Hm.
Qed.

(** ** licenseDatabase: batches *)

Lemma trimStart_fixed s : trimStart (trimStart s) = trimStart s.
Proof.
  induction s as [|c s IH]; [done|]. simpl.
  destruct (isWhiteSpace c) eqn:Hc; [done|]. simpl. by rewrite Hc.
Qed.

Lemma trimEnd_cons c rest c' kept :
  trimEnd rest = String c' kept ->
  trimEnd (String c rest) = String c (String c' kept).
Proof. intros H. simpl. by rewrite H. Qed.

Lemma trimEnd_fixed s : trimEnd (trimEnd s) = trimEnd s.
Proof.
  induction s as [|c s IH]; [done|].
  destruct (trimEnd s) as [|c' kept] eqn:Hs.
  - simpl. rewrite Hs. destruct (isWhiteSpace c) eqn:Hc; [done|].
    simpl. by rewrite Hc.
  - rewrite (trimEnd_cons c s c' kept Hs). by apply trimEnd_cons.
Qed.

Lemma trimEnd_head c s :
  isWhiteSpace c = false -> exists kept, trimEnd (String c s) = String c kept.
Proof.
  intros Hc. simpl. destruct (trimEnd s); rewrite ?Hc; eauto.
Qed.

Lemma trimStart_head s :
  trimStart s = EmptyString \/
  exists c rest, trimStart s = String c rest /\ isWhiteSpace c = false.
Proof.
  induction s as [|c s IH]; [by left|]. simpl.
  destruct (isWhiteSpace c) eqn:Hc; [done|]. right. eauto.
Qed.

Lemma trim_trimmed s : trimStart (trim s) = trim s /\ trimEnd (trim s) = trim s.
Proof.
  unfold trim. split; [|apply trimEnd_fixed].
  destruct (trimStart_head s) as [->|(c & rest & -> & Hc)]; [done|].
  destruct (trimEnd_head c rest Hc) as [kept ->]. simpl. by rewrite Hc.
Qed.

Lemma batchesOf_elem script batch :
  batch ∈ batchesOf script ->
  batch <> EmptyString /\ trimStart batch = batch /\ trimEnd batch = batch.
Proof.
  unfold batchesOf. rewrite list_elem_of_In, filter_In, in_map_iff.
  intros [(piece & <- & _) Hlen]. apply bool_decide_eq_true in Hlen.
  split; [|apply trim_trimmed]. intros Heq. rewrite Heq in Hlen. simpl in Hlen. lia.
Qed.

Section LicenseFacts.

Variable sql_connect : option string.
Variable readFile : string -> string + string.
Variable queryBatch : list string -> string -> option string.

(** The loop sends the batches in order and stops at the first failure. *)
Lemma runBatches_spec batches : forall received,
  (runBatches queryBatch received batches = (received ++ batches, None)
   /\ forall done batch rest, batches = done ++ batch :: rest ->
        queryBatch (received ++ done) batch = None)
  \/ (exists done batch rest m,
        batches = done ++ batch :: rest
        /\ runBatches queryBatch received batches
             = (received ++ done ++ [batch], Some m)
        /\ queryBatch (received ++ done) batch = Some m
        /\ forall done1 b1 rest1, done = done1 ++ b1 :: rest1 ->
             queryBatch (received ++ done1) b1 = None).
Proof.
  induction batches as [|b l IH]; intros received.
  - left. simpl. rewrite app_nil_r. split; [done|].
    intros [|? ?] ? ? H; discriminate H.
  - simpl. destruct (queryBatch received b) as [m|] eqn:Hq.
    + right. exists [], b, l, m. rewrite app_nil_r. split_and!; try done.
      intros [|? ?] ? ? H; discriminate H.
    + destruct (IH (received ++ [b])) as [[Hrun Hall]|(done & b' & rest & m & -> & Hrun & Hfail & Hok)].
      * left. rewrite Hrun, <- app_assoc. split; [done|].
        intros [|d done] batch rest Heq; simplify_eq/=.
        -- by rewrite app_nil_r.
        -- specialize (Hall done batch rest eq_refl).
           by rewrite <- app_assoc in Hall.
      * right. exists (b :: done), b', rest, m.
        rewrite Hrun, <- !app_assoc. rewrite <- app_assoc in Hfail.
        split_and!; try done.
        intros [|d done1] b1 rest1 Heq; simplify_eq/=.
        -- by rewrite app_nil_r.
        -- specialize (Hok done1 b1 rest1 eq_refl).
           by rewrite <- app_assoc in Hok.
Qed.

Lemma licenseDatabase_ok s scriptPath :
  pool s = true \/ sql_connect = None ->
  licenseDatabase sql_connect readFile queryBatch s scriptPath =
    match readFile scriptPath with
    | inl m => (withPool s true, [], Returned (scriptError m))
    | inr script =>
        match runBatches queryBatch [] (batchesOf script) with
        | (received, None) =>
            (withPool s true, received,
             Returned
               (mkImportResult true 0 []
                  ("Database licensed successfully. Executed " +:+
                     natToString (length (batchesOf script)) +:+ " SQL batches.")
                  None))
        | (received, Some m) =>
            (withPool s true, received, Returned (scriptError m))
        end
    end.
Proof. intros H. unfold licenseDatabase. by rewrite connect_ok. Qed.

End LicenseFacts.

(** X10.  With the connection at hand and a readable script,
    [licenseDatabase] sends the batches of the script in order and stops at
    the first one the store refuses: either all were sent and the result is
    a success whose message counts them, or the store received exactly the
    batches up to the refused one and the result carries the refusal under
    the field "script".  Every batch the store receives is non-empty and has
    no whitespace at either end; [recordsImported] is 0 in both cases. *)
Theorem X10_license_runs_batches sql_connect readFile queryBatch s scriptPath
    script
    (Hconn : pool s = true \/ sql_connect = None)
    (Hread : readFile scriptPath = inr script) :
  let run := licenseDatabase sql_connect readFile queryBatch s scriptPath in
  let batches := batchesOf script in
  run.1.1 = withPool s true
  /\ (forall batch, batch ∈ run.1.2 ->
        batch <> EmptyString /\ trimStart batch = batch /\ trimEnd batch = batch)
  /\ ((run.1.2 = batches
       /\ run.2 =
            Returned
              (mkImportResult true 0 []
                 ("Database licensed successfully. Executed " +:+
                    natToString (length batches) +:+ " SQL batches.") None)
       /\ forall done batch rest, batches = done ++ batch :: rest ->
            queryBatch done batch = None)
      \/ (exists done batch rest m,
            batches = done ++ batch :: rest
            /\ run.1.2 = done ++ [batch]
            /\ queryBatch done batch = Some m
            /\ (forall done1 b1 rest1, done = done1 ++ b1 :: rest1 ->
                  queryBatch done1 b1 = None)
            /\ run.2 =
                 Returned
                   (mkImportResult false 0
                      [mkValidationError 0 "script" (VStr "") m]
                      ("Failed to license database: " +:+ m) None))).
Proof.
  cbn zeta. rewrite licenseDatabase_ok by done. rewrite Hread.
  destruct (runBatches_spec queryBatch (batchesOf script) [])
    as [[Hrun Hall]|(done & batch & rest & m & Heq & Hrun & Hfail & Hok)];
    rewrite Hrun; cbn [fst snd app].
  - split_and!; [done | intros b Hb; by apply (batchesOf_elem script) |].
    left. split_and!; done.
  - split_and!; [done | |].
    + intros b Hb. apply (batchesOf_elem script). rewrite Heq.
      apply elem_of_app in Hb as [Hb|Hb%list_elem_of_singleton];
        [apply elem_of_app; by left|].
      subst b. apply elem_of_app. right. apply list_elem_of_here.
    + right. exists done, batch, rest, m. split_and!; done.
Qed.

(** ** licenseDatabase: the split *)

Lemma append_cons c (x y : string) : String c x +:+ y = String c (x +:+ y).
Proof. reflexivity. Qed.

Lemma append_nil_l (x : string) : EmptyString +:+ x = x.
Proof. reflexivity. Qed.

Lemma append_nil_r (x : string) : x +:+ EmptyString = x.
Proof. induction x as [|c x IH]; [done|]. by rewrite append_cons, IH. Qed.

Lemma append_assoc (a b c : string) : (a +:+ b) +:+ c = a +:+ (b +:+ c).
Proof. induction a as [|x a IH]; [done|]. by rewrite !append_cons, IH. Qed.

Lemma splitFrom_nonempty s : forall prev piece skip,
  splitFrom prev piece skip s <> [].
Proof.
  induction s as [|c s IH]; intros prev piece skip; simpl; [done|].
  destruct skip; [|apply IH].
  destruct (matchSeparator prev (String c s)) as [[|k]|]; try apply IH. done.
Qed.

(** Where no separator matches, the scan only lengthens the piece. *)
Lemma scan_quiet x : forall prev piece rest,
  quiet prev x rest ->
  splitFrom prev piece 0 (x +:+ rest) =
  splitFrom (lastOr prev x) (piece +:+ x) 0 rest.
Proof.
  induction x as [|c x IH]; intros prev piece rest Hq.
  - cbn [lastOr]. by rewrite append_nil_r.
  - destruct Hq as [Hm Hq]. rewrite append_cons in *.
    cbn [splitFrom lastOr]. rewrite Hm.
    rewrite (IH (Some c) _ rest Hq). by rewrite append_assoc.
Qed.

Lemma matchSeparator_length prev s n : matchSeparator prev s = Some n -> 2 <= n.
Proof.
  unfold matchSeparator. destruct (atLineStart prev); [|done].
  destruct (dropChars (wsRun s) s) as [|g [|o rest]]; try done.
  destruct (isLetterG g && isLetterO o); [|done].
  destruct (trailing rest); [|done]. intros [= <-]. lia.
Qed.

(** A text that splits into one piece holds no separator. *)
Lemma one_piece_quiet x : forall prev piece y,
  splitFrom prev piece 0 x = [y] -> quiet prev x EmptyString.
Proof.
  induction x as [|c x IH]; intros prev piece y Hs; [done|].
  cbn [splitFrom] in Hs. cbn [quiet]. rewrite append_nil_r.
  destruct (matchSeparator prev (String c x)) as [[|k]|] eqn:Hm.
  - apply matchSeparator_length in Hm. lia.
  - injection Hs as _ Hs. by apply splitFrom_nonempty in Hs.
  - split; [done|]. by apply (IH (Some c) (piece +:+ String c EmptyString) y).
Qed.

Lemma trimEnd_tail c s :
  s <> EmptyString -> trimEnd (String c s) = String c s -> trimEnd s = s.
Proof.
  intros Hne. simpl. destruct (trimEnd s) as [|c' kept] eqn:Hs.
  - destruct (isWhiteSpace c); [done|]. intros [= <-]. done.
  - by intros [= <-].
Qed.

Lemma trimEnd_single c :
  trimEnd (String c EmptyString) = String c EmptyString -> isWhiteSpace c = false.
Proof. simpl. by destruct (isWhiteSpace c). Qed.

Lemma trailing_context t rest :
  t <> EmptyString -> trimEnd t = t -> trailing (t +:+ rest) = trailing t.
Proof.
  induction t as [|c t IH]; intros Hne Ht; [done|].
  rewrite append_cons. cbn [trailing].
  destruct (isWhiteSpace c) eqn:Hc; [|done].
  destruct t as [|c' t'].
  - apply trimEnd_single in Ht. congruence.
  - rewrite IH; [done | done | by apply (trimEnd_tail c)].
Qed.

Lemma isLetterO_terminator c : isLineTerminator c = true -> isLetterO c = false.
Proof.
  unfold isLineTerminator, isLetterO.
  intros [H|H]%orb_true_iff; apply Nat.eqb_eq in H; by rewrite H.
Qed.

Lemma isWhiteSpace_terminator c : isLineTerminator c = true -> isWhiteSpace c = true.
Proof.
  unfold isLineTerminator, isWhiteSpace.
  intros [H|H]%orb_true_iff; apply Nat.eqb_eq in H; by rewrite H.
Qed.

Lemma matchSeparator_prev p p' s :
  atLineStart p = atLineStart p' -> matchSeparator p s = matchSeparator p' s.
Proof. intros H. unfold matchSeparator. by rewrite H. Qed.

(** The whitespace run at the head of a text that ends in a character other
    than whitespace does not depend on what follows the text. *)
Lemma wsRun_context suf rest :
  suf <> EmptyString -> trimEnd suf = suf ->
  wsRun (suf +:+ rest) = wsRun suf
  /\ exists g tail,
       dropChars (wsRun suf) suf = String g tail
       /\ dropChars (wsRun suf) (suf +:+ rest) = String g (tail +:+ rest)
       /\ (tail = EmptyString \/ (tail <> EmptyString /\ trimEnd tail = tail)).
Proof.
  induction suf as [|c suf IH]; intros Hne Hsolid; [done|].
  rewrite append_cons. cbn [wsRun].
  destruct (isWhiteSpace c) eqn:Hc.
  - destruct suf as [|c' suf'].
    + apply trimEnd_single in Hsolid. congruence.
    + destruct IH as (Hrun & g & tail & Hd & Hd' & Htail);
        [done | by apply (trimEnd_tail c) |].
      rewrite Hrun. split; [done|]. exists g, tail. cbn [dropChars].
      split_and!; done.
  - split; [done|]. exists c, suf. cbn [dropChars]. split_and!; try done.
    destruct suf as [|c' suf']; [by left|]. right. split; [done|].
    by apply (trimEnd_tail c).
Qed.

Lemma matchSeparator_context p suf rest :
  suf <> EmptyString -> trimEnd suf = suf -> opensLine rest ->
  matchSeparator p suf = None -> matchSeparator p (suf +:+ rest) = None.
Proof.
  intros Hne Hsolid Hrest. unfold matchSeparator.
  destruct (atLineStart p); [|done].
  destruct (wsRun_context suf rest Hne Hsolid)
    as (-> & g & tail & -> & -> & Htail).
  destruct tail as [|o tail'].
  - intros _. rewrite append_nil_l.
    destruct rest as [|t r]; [done|]. simpl in Hrest.
    rewrite (isLetterO_terminator t Hrest). by rewrite andb_false_r.
  - rewrite append_cons.
    destruct (isLetterG g && isLetterO o); [|done].
    destruct Htail as [?|[_ Hsolid']]; [done|].
    destruct tail' as [|c' t''].
    + done.
    + rewrite trailing_context; [done | done | by apply (trimEnd_tail o)].
Qed.

Lemma quiet_context x : forall p p' rest,
  quiet p x EmptyString ->
  x = EmptyString \/ (x <> EmptyString /\ trimEnd x = x) ->
  opensLine rest -> atLineStart p = atLineStart p' ->
  quiet p' x rest.
Proof.
  induction x as [|c x IH]; intros p p' rest Hq Hsolid Hrest Hp; [done|].
  destruct Hq as [Hm Hq]. rewrite append_nil_r in Hm.
  destruct Hsolid as [?|[_ Hsolid]]; [done|].
  split.
  - apply matchSeparator_context; [done | done | done |].
    by rewrite <- (matchSeparator_prev p p').
  - apply (IH (Some c) (Some c)); [done | | done | done].
    destruct x as [|c' x']; [by left|]. right. split; [done|].
    by apply (trimEnd_tail c).
Qed.

Lemma lastOr_solid b : forall prev,
  b <> EmptyString -> trimEnd b = b ->
  exists l, lastOr prev b = Some l /\ isWhiteSpace l = false.
Proof.
  induction b as [|c b IH]; intros prev Hne Hsolid; [done|].
  cbn [lastOr]. destruct b as [|c' b'].
  - exists c. split; [done|]. by apply trimEnd_single.
  - apply IH; [done|]. by apply (trimEnd_tail c).
Qed.

Lemma splitFrom_skip prev piece k c rest :
  splitFrom prev piece (S k) (String c rest) = splitFrom (Some c) piece k rest.
Proof. reflexivity. Qed.

Lemma splitFrom_match prev piece k c rest :
  matchSeparator prev (String c rest) = Some (S k) ->
  splitFrom prev piece 0 (String c rest) =
  piece :: splitFrom (Some c) EmptyString k rest.
Proof. intros H. cbn [splitFrom]. by rewrite H. Qed.

Lemma splitFrom_nomatch prev piece c rest :
  matchSeparator prev (String c rest) = None ->
  splitFrom prev piece 0 (String c rest) =
  splitFrom (Some c) (piece +:+ String c EmptyString) 0 rest.
Proof. intros H. cbn [splitFrom]. by rewrite H. Qed.

Lemma matchSeparator_midline l s :
  isLineTerminator l = false -> matchSeparator (Some l) s = None.
Proof. intros H. unfold matchSeparator. cbn [atLineStart]. by rewrite H. Qed.

Lemma matchSeparator_GO c r :
  isWhiteSpace c = false ->
  matchSeparator (Some "010"%char)
    (String "G" (String "O" (String "010" (String c r)))) = Some 2.
Proof.
  intros Hc. unfold matchSeparator.
  change (atLineStart (Some "010"%char)) with true. cbn iota.
  change (wsRun (String "G" (String "O" (String "010" (String c r))))) with 0.
  cbn [dropChars].
  change (isLetterG "G" && isLetterO "O") with true. cbn iota.
  cbn [trailing]. change (isWhiteSpace "010") with true. cbn iota.
  rewrite Hc. change (isLineTerminator "010") with true. reflexivity.
Qed.

(** The scan over a line "GO" between two batches: the piece ends before
    the line, the next one starts after it. *)
Lemma scan_separator l piece c r :
  isLineTerminator l = false -> isWhiteSpace c = false ->
  splitFrom (Some l) piece 0
    (String "010" ("GO" +:+ String "010" (String c r))) =
  (piece +:+ String "010" EmptyString)
    :: splitFrom (Some "010"%char) (String "010" EmptyString) 0 (String c r).
Proof.
  intros Hl Hc.
  change ("GO" +:+ String "010" (String c r))
    with (String "G" (String "O" (String "010" (String c r)))).
  rewrite splitFrom_nomatch by (by apply matchSeparator_midline).
  rewrite (splitFrom_match _ _ 1) by (by apply matchSeparator_GO).
  rewrite splitFrom_skip.
  rewrite splitFrom_nomatch by (by apply matchSeparator_midline).
  reflexivity.
Qed.

Lemma trimEnd_allWhiteSpace w : allWhiteSpace w = true -> trimEnd w = EmptyString.
Proof.
  induction w as [|c w IH]; [done|]. simpl.
  intros [Hc Hw]%andb_true_iff. by rewrite IH, Hc.
Qed.

Lemma trimStart_allWhiteSpace w x :
  allWhiteSpace w = true -> trimStart (w +:+ x) = trimStart x.
Proof.
  induction w as [|c w IH]; [done|]. cbn [allWhiteSpace].
  intros [Hc Hw]%andb_true_iff. rewrite append_cons. cbn [trimStart].
  by rewrite Hc, IH.
Qed.

Lemma trimEnd_allWhiteSpace_r x w :
  allWhiteSpace w = true -> trimEnd (x +:+ w) = trimEnd x.
Proof.
  intros Hw. induction x as [|c x IH].
  - by apply trimEnd_allWhiteSpace.
  - rewrite append_cons. cbn [trimEnd]. by rewrite IH.
Qed.

Lemma trimStart_length s : String.length (trimStart s) <= String.length s.
Proof.
  induction s as [|c s IH]; [done|]. simpl.
  destruct (isWhiteSpace c); simpl; lia.
Qed.

Lemma trimStart_solid b :
  b <> EmptyString -> trimStart b = b ->
  exists c r, b = String c r /\ isWhiteSpace c = false.
Proof.
  destruct b as [|c r]; [done|]. intros _. simpl.
  destruct (isWhiteSpace c) eqn:Hc; [|eauto].
  intros H. pose proof (trimStart_length r) as Hlen.
  rewrite H in Hlen. simpl in Hlen. lia.
Qed.

Lemma trim_padded w1 b w2 :
  allWhiteSpace w1 = true -> allWhiteSpace w2 = true ->
  b <> EmptyString -> trimStart b = b -> trimEnd b = b ->
  trim (w1 +:+ (b +:+ w2)) = b.
Proof.
  intros Hw1 Hw2 Hne Hs He. unfold trim.
  rewrite trimStart_allWhiteSpace by done.
  destruct (trimStart_solid b Hne Hs) as (c & r & -> & Hc).
  rewrite append_cons. cbn [trimStart]. rewrite Hc.
  rewrite <- append_cons. by rewrite trimEnd_allWhiteSpace_r.
Qed.

Lemma joinGO_head b rest :
  cleanBatch b -> exists c r, joinGO (b :: rest) = String c r /\ isWhiteSpace c = false.
Proof.
  intros (Hne & Hs & _ & _).
  destruct (trimStart_solid b Hne Hs) as (c & r & -> & Hc).
  destruct rest as [|b2 rest']; cbn [joinGO]; rewrite ?append_cons; eauto.
Qed.

Lemma joinGO_cons b b2 rest :
  joinGO (b :: b2 :: rest) =
  b +:+ String "010" ("GO" +:+ String "010" (joinGO (b2 :: rest))).
Proof. reflexivity. Qed.

Lemma split_join batches :
  Forall cleanBatch batches ->
  forall prev piece,
    atLineStart prev = true -> allWhiteSpace piece = true ->
    List.filter (fun batch => bool_decide (0 < String.length batch))
      (map trim (splitFrom prev piece 0 (joinGO batches))) = batches.
Proof.
  induction 1 as [|b rest Hb Hrest IH]; intros prev piece Hprev Hpiece.
  - cbn. unfold trim. rewrite <- (append_nil_r piece).
    rewrite trimStart_allWhiteSpace by done. done.
  - pose proof Hb as (Hne & Hs & He & Hone).
    assert (forall follow, opensLine follow -> quiet prev b follow) as Hquiet.
    { intros follow Hf. apply (quiet_context b None prev follow);
        [by apply (one_piece_quiet b None EmptyString b) | by right | done
        | by rewrite Hprev]. }
    assert (trim ((piece +:+ b) +:+ String "010" EmptyString) = b) as Htrim1.
    { rewrite append_assoc. by apply trim_padded. }
    assert (bool_decide (0 < String.length b) = true) as Hlen.
    { apply bool_decide_eq_true. destruct b; [done | simpl; lia]. }
    destruct rest as [|b2 rest'].
    + cbn [joinGO].
      replace (splitFrom prev piece 0 b)
        with (splitFrom prev piece 0 (b +:+ EmptyString))
        by (by rewrite append_nil_r).
      rewrite (scan_quiet b prev piece EmptyString) by (by apply Hquiet).
      cbn [splitFrom map List.filter].
      replace (trim (piece +:+ b))
        with (trim (piece +:+ (b +:+ EmptyString)))
        by (by rewrite append_nil_r).
      rewrite trim_padded by done. by rewrite Hlen.
    + rewrite joinGO_cons.
      rewrite (scan_quiet b prev piece) by (apply Hquiet; reflexivity).
      destruct (lastOr_solid b prev Hne He) as (l & -> & Hl).
      apply Forall_cons in Hrest as Hrest'. destruct Hrest' as [Hb2 _].
      destruct (joinGO_head b2 rest' Hb2) as (c & r & Hj & Hc).
      rewrite Hj. rewrite scan_separator; [|
        destruct (isLineTerminator l) eqn:Ht; [|done];
        apply isWhiteSpace_terminator in Ht; congruence | done].
      cbn [map List.filter]. rewrite Htrim1, Hlen. f_equal.
      rewrite <- Hj. by apply IH.
Qed.

(** X11.  Splitting undoes joining: batches that are not empty, have no
    whitespace at either end and hold no separator line themselves, written
    out with a line "GO" between two of them, come back from the split,
    trim and filter of [licenseDatabase] as the same batches in the same
    order. *)
Theorem X11_batches_round_trip (batches : list string)
    (Hclean : Forall cleanBatch batches) :
  batchesOf (joinGO batches) = batches.
Proof. unfold batchesOf, splitGO. by apply split_join. Qed.

Lemma X11_batches_round_trip_witness :
  batchesOf
    (joinGO ["CREATE TABLE Office (id INT)";
             "SELECT 1" +:+ String "010" "GOTO done";
             "GRANT SELECT ON Office TO gouser"])
  = ["CREATE TABLE Office (id INT)";
     "SELECT 1" +:+ String "010" "GOTO done";
     "GRANT SELECT ON Office TO gouser"].
Proof.
  apply X11_batches_round_trip.
  repeat (apply Forall_cons; split;
            [split_and!; [discriminate | reflexivity | reflexivity
                         | vm_compute; reflexivity]|]).
  apply Forall_nil_2.
Defined.

Lemma X10_license_runs_batches_witness :
  (licenseDatabase None
     (fun _ => inr (joinGO ["CREATE TABLE Office (id INT)"; "DROP TABLE Nope";
                            "GRANT SELECT ON Office TO gouser"]))
     (fun _ batch => if includes "DROP" batch then Some "Cannot drop" else None)
     sampleSession "license.sql").1.2
  = ["CREATE TABLE Office (id INT)"; "DROP TABLE Nope"]
  /\ forall batch,
       batch ∈ (licenseDatabase None
                  (fun _ => inr (joinGO ["CREATE TABLE Office (id INT)";
                                         "DROP TABLE Nope";
                                         "GRANT SELECT ON Office TO gouser"]))
                  (fun _ batch =>
                     if includes "DROP" batch then Some "Cannot drop" else None)
                  sampleSession "license.sql").1.2 ->
       batch <> EmptyString /\ trimStart batch = batch /\ trimEnd batch = batch.
Proof.
  destruct (X10_license_runs_batches None
    (fun _ => inr (joinGO ["CREATE TABLE Office (id INT)"; "DROP TABLE Nope";
                           "GRANT SELECT ON Office TO gouser"]))
    (fun _ batch => if includes "DROP" batch then Some "Cannot drop" else None)
    sampleSession "license.sql"
    (joinGO ["CREATE TABLE Office (id INT)"; "DROP TABLE Nope";
             "GRANT SELECT ON Office TO gouser"])
    (or_intror eq_refl) eq_refl) as (_ & Hall & _).
  split; [vm_compute; reflexivity | exact Hall].
Defined.

(** ** licenseDatabase: blank scripts and faults *)

Lemma allWhiteSpace_run s :
  allWhiteSpace s = true -> dropChars (wsRun s) s = EmptyString.
Proof.
  induction s as [|c s IH]; [done|]. cbn [allWhiteSpace wsRun].
  intros [Hc Hs]%andb_true_iff. rewrite Hc. cbn [dropChars]. by apply IH.
Qed.

Lemma allWhiteSpace_quiet s : forall prev,
  allWhiteSpace s = true -> quiet prev s EmptyString.
Proof.
  induction s as [|c s IH]; intros prev Hs; [done|].
  split.
  - rewrite append_nil_r. unfold matchSeparator.
    destruct (atLineStart prev); [|done]. by rewrite allWhiteSpace_run.
  - apply IH. cbn [allWhiteSpace] in Hs. by apply andb_true_iff in Hs as [_ ?].
Qed.

Lemma batchesOf_blank script : allWhiteSpace script = true -> batchesOf script = [].
Proof.
  intros Hs. unfold batchesOf, splitGO.
  replace (splitFrom None EmptyString 0 script)
    with (splitFrom None EmptyString 0 (script +:+ EmptyString))
    by (by rewrite append_nil_r).
  rewrite scan_quiet by (by apply allWhiteSpace_quiet).
  cbn [splitFrom map]. rewrite append_nil_l. unfold trim.
  replace (trimStart script) with (trimStart (script +:+ EmptyString))
    by (by rewrite append_nil_r).
  by rewrite trimStart_allWhiteSpace.
Qed.

(** X12.  A script that holds nothing but whitespace (the empty file
    included) is a success: no batch is sent to the store and the message
    reports 0 batches. *)
Theorem X12_license_blank_script sql_connect readFile queryBatch s scriptPath script
    (Hconn : pool s = true \/ sql_connect = None)
    (Hread : readFile scriptPath = inr script)
    (Hblank : allWhiteSpace script = true) :
  licenseDatabase sql_connect readFile queryBatch s scriptPath =
    (withPool s true, [],
     Returned
       (mkImportResult true 0 []
          "Database licensed successfully. Executed 0 SQL batches." None)).
Proof.
  rewrite licenseDatabase_ok by done. rewrite Hread.
  by rewrite (batchesOf_blank script Hblank).
Qed.

Lemma X12_license_blank_script_witness :
  licenseDatabase None (fun _ => inr (String "010" (String "009" "  ")))
    (fun _ _ => Some "never asked") sampleSession "license.sql" =
    (mkSession true 1 [] 0, [],
     Returned
       (mkImportResult true 0 []
          "Database licensed successfully. Executed 0 SQL batches." None)).
Proof.
  apply (X12_license_blank_script None
    (fun _ => inr (String "010" (String "009" "  ")))
    (fun _ _ => Some "never asked") sampleSession "license.sql"
    (String "010" (String "009" "  ")) (or_intror eq_refl) eq_refl eq_refl).
Defined.

(** X13.  Faults of [licenseDatabase]: with the connection at hand, a script
    file that cannot be read is answered with one error under the field
    "script" carrying the fault's message, nothing is sent to the store and
    no exception leaves the function, whatever the store does; a connection
    that cannot be established is thrown by the function itself, before
    the script is read. *)
Theorem X13_license_faults sql_connect readFile queryBatch s scriptPath :
  (forall m, pool s = true \/ sql_connect = None ->
     readFile scriptPath = inl m ->
     licenseDatabase sql_connect readFile queryBatch s scriptPath =
       (withPool s true, [],
        Returned
          (mkImportResult false 0 [mkValidationError 0 "script" (VStr "") m]
             ("Failed to license database: " +:+ m) None)))
  /\ (pool s = true \/ sql_connect = None ->
      exists res,
        (licenseDatabase sql_connect readFile queryBatch s scriptPath).2
          = Returned res
        /\ recordsImported res = 0
        /\ (success res = true <-> errors res = []))
  /\ (forall m, pool s = false -> sql_connect = Some m ->
        licenseDatabase sql_connect readFile queryBatch s scriptPath
          = (s, [], Thrown m)).
Proof.
  split_and!.
  - intros m Hc Hread. rewrite licenseDatabase_ok by done. by rewrite Hread.
  - intros Hc. rewrite licenseDatabase_ok by done.
    destruct (readFile scriptPath) as [m|script].
    + eexists. cbn. split_and!; done.
    + destruct (runBatches queryBatch [] (batchesOf script)) as [received [m|]];
        eexists; cbn; split_and!; done.
  - intros m Hp Hm. unfold licenseDatabase, connect. by rewrite Hp, Hm.
Qed.

Lemma X13_license_faults_witness :
  licenseDatabase None (fun _ => inl "ENOENT: no such file or directory")
    (fun _ _ => None) sampleSession "missing.sql" =
    (mkSession true 1 [] 0, [],
     Returned
       (mkImportResult false 0
          [mkValidationError 0 "script" (VStr "")
             "ENOENT: no such file or directory"]
          "Failed to license database: ENOENT: no such file or directory" None))
  /\ licenseDatabase (Some "Login failed for user 'sa'")
       (fun _ => inr "SELECT 1") (fun _ _ => None) sampleSession "license.sql"
     = (sampleSession, [], Thrown "Login failed for user 'sa'").
Proof.
  split.
  - apply (proj1 (X13_license_faults None
      (fun _ => inl "ENOENT: no such file or directory") (fun _ _ => None)
      sampleSession "missing.sql") "ENOENT: no such file or directory"
      (or_intror eq_refl) eq_refl).
  - apply (proj2 (proj2 (X13_license_faults (Some "Login failed for user 'sa'")
      (fun _ => inr "SELECT 1") (fun _ _ => None) sampleSession "license.sql"))
      "Login failed for user 'sa'" eq_refl eq_refl).
Defined.

(** ** The request handler *)

Lemma import_connected_returns sql_connect readExcelFile query uuidv4 s excelPath :
  pool s = true \/ sql_connect = None ->
  exists res,
    (importOffices sql_connect readExcelFile query uuidv4 s excelPath).2
      = Returned res
    /\ generatedCodes res = None.
Proof.
  intros Hc.
  destruct (readExcelFile excelPath) as [m|rawData] eqn:Hread.
  - rewrite importOffices_ok by done. unfold importBody. rewrite Hread.
    eexists. split; reflexivity.
  - destruct (criticalErrors_cases (validateOfficeData (officesOf rawData) 2))
      as [Hnil|(e & He & Hcrit)].
    + rewrite (importOffices_clean sql_connect readExcelFile query uuidv4 s
                 excelPath rawData Hc Hread Hnil).
      eexists. split; reflexivity.
    + rewrite (importOffices_critical sql_connect readExcelFile query uuidv4 s
                 excelPath rawData e Hc Hread He Hcrit).
      eexists. split; reflexivity.
Qed.

Lemma import_unconnected_throws sql_connect readExcelFile query uuidv4 s excelPath m :
  pool s = false -> sql_connect = Some m ->
  importOffices sql_connect readExcelFile query uuidv4 s excelPath = (s, Thrown m).
Proof. intros Hp Hm. unfold importOffices, connect. by rewrite Hp, Hm. Qed.

Lemma connection_cases (sql_connect : option string) s :
  (pool s = true \/ sql_connect = None)
  \/ (pool s = false /\ exists m, sql_connect = Some m).
Proof.
  destruct (pool s); [by left; left|].
  destruct sql_connect as [m|]; [right; eauto | by left; right].
Qed.

Section HandlerFacts.

Variable sql_connect : ConnectionConfig -> option string.
Variable readExcelFile : string -> string + list (gmap string jsval).
Variable query : list (list (string * jsval)) -> list (string * jsval) -> option string.
Variable uuidv4 : nat -> string.
Variable readFile : string -> string + string.
Variable queryBatch : list string -> string -> option string.
Variable countQuery : string -> string + jsval.
Variable jsonStringify : ImportResult -> string.
Variable objectEntries : gmap string string -> list (string * string).

Lemma callTool_unfold st request :
  callTool sql_connect readExcelFile query uuidv4 readFile queryBatch
    countQuery jsonStringify objectEntries st request =
  match callToolBody sql_connect readExcelFile query uuidv4 readFile
          queryBatch countQuery jsonStringify objectEntries st request with
  | (st1, Thrown m) =>
      (st1, Returned (mkToolResponse (crossMark +:+ " Error: " +:+ m) true))
  | other => other
  end.
Proof. reflexivity. Qed.

End HandlerFacts.

(** X14.  Before [configure_database] has been called, every other tool
    name is answered with the error response "Database not configured. Call
    configure_database first."; the state of the server is left as it was,
    and neither the file system nor the store is consulted. *)
Theorem X14_tools_need_configuration sql_connect readExcelFile query uuidv4
    readFile queryBatch countQuery jsonStringify objectEntries
    (st : ServerState) (request : CallToolRequest)
    (Hnone : implementation st = None)
    (Hname : name request <> "configure_database") :
  callTool sql_connect readExcelFile query uuidv4 readFile queryBatch
    countQuery jsonStringify objectEntries st request =
  (st,
   Returned
     (mkToolResponse
        (crossMark +:+
           " Error: Database not configured. Call configure_database first.")
        true)).
Proof.
  rewrite callTool_unfold. unfold callToolBody.
  apply String.eqb_neq in Hname. rewrite Hname, Hnone. reflexivity.
Qed.

Lemma X14_tools_need_configuration_witness :
  callTool (fun _ => None) (sheet []) acceptAll sampleUuid (fun _ => inr "")
    (fun _ _ => None) (fun _ => inr (VNum 0)) (fun _ => "") (fun _ => [])
    (mkServerState None sampleSession [])
    (mkCallToolRequest "import_offices"
       (mkArguments "" "" "" "" None None "" "offices.xlsx")) =
  (mkServerState None sampleSession [],
   Returned
     (mkToolResponse
        (crossMark +:+
           " Error: Database not configured. Call configure_database first.")
        true)).
Proof.
  apply X14_tools_need_configuration; [reflexivity | discriminate].
Defined.

(** X15.  Once configured, a tool name other than the four the server
    offers is answered with the error response "Unknown tool: <name>", and
    the state of the server is left as it was. *)
Theorem X15_unknown_tool sql_connect readExcelFile query uuidv4
    readFile queryBatch countQuery jsonStringify objectEntries
    (st : ServerState) (request : CallToolRequest) (instance : ConnectionConfig)
    (Hsome : implementation st = Some instance)
    (Hname : name request ∉
               ["configure_database"; "license_database"; "import_offices";
                "get_implementation_status"]) :
  callTool sql_connect readExcelFile query uuidv4 readFile queryBatch
    countQuery jsonStringify objectEntries st request =
  (st,
   Returned
     (mkToolResponse (crossMark +:+ " Error: Unknown tool: " +:+ name request)
        true)).
Proof.
  rewrite callTool_unfold. unfold callToolBody. rewrite Hsome.
  rewrite !(proj2 (String.eqb_neq _ _)); [reflexivity | | | |];
    intros Heq; apply Hname; rewrite Heq; set_solver.
Qed.

Lemma X15_unknown_tool_witness :
  callTool (fun _ => None) (sheet []) acceptAll sampleUuid (fun _ => inr "")
    (fun _ _ => None) (fun _ => inr (VNum 0)) (fun _ => "") (fun _ => [])
    (mkServerState (Some (mkConnectionConfig "db" "GreatSoft" "sa" "pw" None None))
       sampleSession [])
    (mkCallToolRequest "import_employees"
       (mkArguments "" "" "" "" None None "" "")) =
  (mkServerState (Some (mkConnectionConfig "db" "GreatSoft" "sa" "pw" None None))
     sampleSession [],
   Returned
     (mkToolResponse (crossMark +:+ " Error: Unknown tool: import_employees")
        true)).
Proof.
  apply (X15_unknown_tool (fun _ => None) (sheet []) acceptAll sampleUuid
           (fun _ => inr "") (fun _ _ => None) (fun _ => inr (VNum 0))
           (fun _ => "") (fun _ => [])
           (mkServerState
              (Some (mkConnectionConfig "db" "GreatSoft" "sa" "pw" None None))
              sampleSession [])
           (mkCallToolRequest "import_employees"
              (mkArguments "" "" "" "" None None "" ""))
           (mkConnectionConfig "db" "GreatSoft" "sa" "pw" None None) eq_refl).
  intros H. repeat (apply elem_of_cons in H as [H|H]; [discriminate H|]).
  by apply elem_of_nil in H.
Defined.

(** X16.  The answer to [import_offices] on a configured server.  With the
    connection at hand the response is never marked as an error, also when
    the import failed: its text is the message of the result, followed by
    the "Validation Warnings" section with one line per error when there is
    any; the "Auto-generated Office Codes" section never appears.  Only a
    connection that cannot be established gives an error response, and then
    the state of the server is unchanged. *)
Theorem X16_import_offices_response sql_connect readExcelFile query uuidv4
    readFile queryBatch countQuery jsonStringify objectEntries
    (st : ServerState) (request : CallToolRequest) (instance : ConnectionConfig)
    (Hsome : implementation st = Some instance)
    (Hname : name request = "import_offices") :
  let run :=
    importOffices (sql_connect instance) readExcelFile query uuidv4 (session st)
      (argExcelPath (arguments request)) in
  let answer :=
    callTool sql_connect readExcelFile query uuidv4 readFile queryBatch
      countQuery jsonStringify objectEntries st request in
  answer.1 = mkServerState (Some instance) run.1 (batchesReceived st)
  /\ (pool (session st) = true \/ sql_connect instance = None ->
      exists res,
        run.2 = Returned res
        /\ answer.2 =
             Returned
               (mkToolResponse
                  (if bool_decide (0 < length (errors res))
                   then resultMessage res +:+ nl +:+ nl
                          +:+ "**Validation Warnings:**" +:+ nl
                          +:+ concatStrings (map warningLine (errors res))
                   else resultMessage res)
                  false))
  /\ (forall m, pool (session st) = false -> sql_connect instance = Some m ->
        run.1 = session st
        /\ answer.2 =
             Returned (mkToolResponse (crossMark +:+ " Error: " +:+ m) true)).
Proof.
  cbn zeta. rewrite callTool_unfold. unfold callToolBody.
  rewrite Hsome, Hname. cbn [String.eqb Ascii.eqb Bool.eqb].
  change ("import_offices" =? "configure_database")%string with false.
  change ("import_offices" =? "license_database")%string with false.
  change ("import_offices" =? "import_offices")%string with true.
  cbn iota.
  destruct (importOffices (sql_connect instance) readExcelFile query uuidv4
              (session st) (argExcelPath (arguments request)))
    as [s1 out] eqn:Hrun.
  split_and!.
  - by destruct out.
  - intros Hc.
    destruct (import_connected_returns (sql_connect instance) readExcelFile
                query uuidv4 (session st) (argExcelPath (arguments request)) Hc)
      as (res & Hres & Hgen).
    rewrite Hrun in Hres. cbn in Hres. subst out. exists res.
    split; [done|]. cbn. unfold importText. by rewrite Hgen.
  - intros m Hp Hm.
    rewrite (import_unconnected_throws (sql_connect instance) readExcelFile
               query uuidv4 (session st) _ m Hp Hm) in Hrun.
    injection Hrun as <- <-. done.
Qed.

Lemma X16_import_offices_response_witness :
  (callTool (fun _ => None) (sheet [mkRow VNull (VStr "Cape Town")]) acceptAll
     sampleUuid (fun _ => inr "") (fun _ _ => None) (fun _ => inr (VNum 0))
     (fun _ => "") (fun _ => [])
     (mkServerState (Some (mkConnectionConfig "db" "GreatSoft" "sa" "pw" None None))
        sampleSession [])
     (mkCallToolRequest "import_offices"
        (mkArguments "" "" "" "" None None "" "offices.xlsx"))).2 =
  Returned
    (mkToolResponse
       ("Validation failed with 1 critical error(s)" +:+ nl +:+ nl
          +:+ "**Validation Warnings:**" +:+ nl +:+ "  " +:+ bullet
          +:+ " Row 2, OfficeCode: Office Code is required and will be auto-generated if missing"
          +:+ nl)
       false).
Proof.
  destruct (X16_import_offices_response (fun _ => None)
    (sheet [mkRow VNull (VStr "Cape Town")]) acceptAll sampleUuid
    (fun _ => inr "") (fun _ _ => None) (fun _ => inr (VNum 0)) (fun _ => "")
    (fun _ => [])
    (mkServerState (Some (mkConnectionConfig "db" "GreatSoft" "sa" "pw" None None))
       sampleSession [])
    (mkCallToolRequest "import_offices"
       (mkArguments "" "" "" "" None None "" "offices.xlsx"))
    (mkConnectionConfig "db" "GreatSoft" "sa" "pw" None None) eq_refl eq_refl)
    as (_ & Hconn & _).
  destruct (Hconn (or_intror eq_refl)) as (res & Hres & Hans).
  rewrite Hans. vm_compute in Hres. injection Hres as <-.
  vm_compute. reflexivity.
Defined.

(** X17.  What [configure_database] leaves behind, whether or not the
    connection succeeds: the module variable holds a new instance whose port
    is the given one, or 1433 when it is absent or 0, and whose options have
    [encrypt] and [trustServerCertificate] set; the country of the instance
    is the given one, or 1 when it is absent or 0, whatever it was before;
    the logs of the store are untouched.  The response is an error exactly
    when [sql.connect] rejects, and then the instance stays in place without
    a pool. *)
Theorem X17_configure_database sql_connect readExcelFile query uuidv4
    readFile queryBatch countQuery jsonStringify objectEntries
    (st : ServerState) (args : Arguments) :
  let config :=
    mkConnectionConfig (argServer args) (argDatabase args) (argUser args)
      (argPassword args) (Some (numberOr (argPort args) 1433))
      (Some (<["trustServerCertificate" := VBool true]>
               (<["encrypt" := VBool true]> ∅))) in
  let instance := newImplementation config in
  let answer :=
    callTool sql_connect readExcelFile query uuidv4 readFile queryBatch
      countQuery jsonStringify objectEntries st
      (mkCallToolRequest "configure_database" args) in
  implementation answer.1 = Some instance
  /\ port instance = Some (numberOr (argPort args) 1433)
  /\ (exists o, options instance = Some o
        /\ o !! "encrypt" = Some (VBool true)
        /\ o !! "trustServerCertificate" = Some (VBool true))
  /\ countryID (session answer.1) = numberOr (argCountryID args) 1
  /\ sent (session answer.1) = sent (session st)
  /\ uuidCalls (session answer.1) = uuidCalls (session st)
  /\ batchesReceived answer.1 = batchesReceived st
  /\ (sql_connect instance = None ->
      pool (session answer.1) = true
      /\ exists t, answer.2 = Returned (mkToolResponse t false))
  /\ (forall m, sql_connect instance = Some m ->
      pool (session answer.1) = false
      /\ answer.2 =
           Returned (mkToolResponse (crossMark +:+ " Error: " +:+ m) true)).
Proof.
  cbn zeta. rewrite callTool_unfold. unfold callToolBody.
  cbn [name arguments].
  change ("configure_database" =? "configure_database")%string with true.
  cbn iota.
  match goal with
  | |- context [connect _ ?s] =>
      assert (s = mkSession false (numberOr (argCountryID args) 1)
                    (sent (session st)) (uuidCalls (session st))) as ->
  end.
  { unfold numberOr. destruct (argCountryID args) as [k|]; [|done].
    by destruct (k =? 0)%Z. }
  unfold connect. cbn [pool]. set (instance := newImplementation _).
  assert (exists o, options instance = Some o
            /\ o !! "encrypt" = Some (VBool true)
            /\ o !! "trustServerCertificate" = Some (VBool true)) as Hopts.
  { eexists. split; [reflexivity|]. split; reflexivity. }
  destruct (sql_connect instance) as [m|] eqn:Hconn; cbn;
    split_and!; try done.
  - intros m' [= <-]. done.
  - intros _. split; [done | by eexists].
Qed.

(** ** The constructor: server and instance name *)

Lemma includes_backslash_cons c r :
  includes "\" (String c r) = Ascii.eqb c "\" || includes "\" r.
Proof.
  cbn [includes String.prefix].
  destruct (Ascii.eqb_spec c "\") as [->|Hne].
  - destruct (ascii_dec "\" "\"); [by destruct r|done].
  - destruct (ascii_dec "\" c) as [Heq|_]; [by rewrite Heq in Hne|done].
Qed.

Lemma splitChar_plain x : forall piece,
  includes "\" x = false -> splitChar "\" piece x = [piece +:+ x].
Proof.
  induction x as [|c x IH]; intros piece Hx.
  - by rewrite append_nil_r.
  - rewrite includes_backslash_cons in Hx.
    apply orb_false_iff in Hx as [Hc Hx]. cbn [splitChar]. rewrite Hc.
    rewrite IH by done. by rewrite append_assoc.
Qed.

Lemma splitChar_first x : forall piece y,
  includes "\" x = false ->
  splitChar "\" piece (x +:+ String "\" y) =
  (piece +:+ x) :: splitChar "\" EmptyString y.
Proof.
  induction x as [|c x IH]; intros piece y Hx.
  - rewrite append_nil_l, append_nil_r. cbn [splitChar].
    by change (Ascii.eqb "\" "\") with true.
  - rewrite includes_backslash_cons in Hx.
    apply orb_false_iff in Hx as [Hc Hx]. rewrite append_cons.
    cbn [splitChar]. rewrite Hc. rewrite IH by done. by rewrite append_assoc.
Qed.

Lemma includes_backslash_app x y : includes "\" (x +:+ String "\" y) = true.
Proof.
  induction x as [|c x IH].
  - rewrite append_nil_l, includes_backslash_cons. done.
  - rewrite append_cons, includes_backslash_cons, IH. apply orb_true_r.
Qed.

(** X18.  How the constructor reads the server name.  A name without a
    backslash is kept and no instance name is set; in "host\instance" the
    server becomes the text before the first backslash and the instance
    name the text up to the next one, so that whatever follows a second
    backslash is dropped.  The options given with the configuration take
    precedence over the three the constructor sets, and the other fields of
    the configuration are kept. *)
Theorem X18_constructor_server_instance (config : ConnectionConfig) :
  (includes "\" (server config) = false ->
     server (newImplementation config) = server config
     /\ exists o, options (newImplementation config) = Some o
          /\ (default ∅ (options config) !! "instanceName" = None ->
              o !! "instanceName" = Some VUndefined))
  /\ (forall host instance,
        includes "\" host = false -> includes "\" instance = false ->
        server config = host +:+ String "\" instance ->
        server (newImplementation config) = host
        /\ exists o, options (newImplementation config) = Some o
             /\ (default ∅ (options config) !! "instanceName" = None ->
                 o !! "instanceName" = Some (VStr instance)))
  /\ (forall host instance more,
        includes "\" host = false -> includes "\" instance = false ->
        server config = host +:+ String "\" (instance +:+ String "\" more) ->
        server (newImplementation config) = host
        /\ exists o, options (newImplementation config) = Some o
             /\ (default ∅ (options config) !! "instanceName" = None ->
                 o !! "instanceName" = Some (VStr instance)))
  /\ (exists o, options (newImplementation config) = Some o
        /\ (forall key v, default ∅ (options config) !! key = Some v ->
              o !! key = Some v)
        /\ (default ∅ (options config) !! "encrypt" = None ->
            o !! "encrypt" = Some (VBool true))
        /\ (default ∅ (options config) !! "trustServerCertificate" = None ->
            o !! "trustServerCertificate" = Some (VBool true)))
  /\ database (newImplementation config) = database config
  /\ user (newImplementation config) = user config
  /\ password (newImplementation config) = password config
  /\ port (newImplementation config) = port config.
Proof.
  split_and!; try reflexivity.
  - intros Hplain. unfold newImplementation. rewrite Hplain. cbn.
    split; [done|]. eexists. split; [done|]. intros Hnone.
    rewrite lookup_union_r by done. apply lookup_insert_eq.
  - intros host instance Hhost Hinst Hserver. unfold newImplementation.
    rewrite Hserver, includes_backslash_app, splitChar_first by done.
    rewrite splitChar_plain by done. cbn.
    split; [done|]. eexists. split; [done|]. intros Hnone.
    rewrite lookup_union_r by done. apply lookup_insert_eq.
  - intros host instance more Hhost Hinst Hserver. unfold newImplementation.
    rewrite Hserver, includes_backslash_app, splitChar_first by done.
    rewrite splitChar_first by done. cbn.
    split; [done|]. eexists. split; [done|]. intros Hnone.
    rewrite lookup_union_r by done. apply lookup_insert_eq.
  - eexists. split; [reflexivity|]. split_and!.
    + intros key v Hkey. by apply lookup_union_Some_l.
    + intros Hnone. rewrite lookup_union_r by done.
      rewrite lookup_insert_ne by done. rewrite lookup_insert_ne by done.
      apply lookup_insert_eq.
    + intros Hnone. rewrite lookup_union_r by done.
      rewrite lookup_insert_ne by done. apply lookup_insert_eq.
Qed.

Lemma X18_constructor_server_instance_witness :
  server
    (newImplementation
       (mkConnectionConfig "localhost\SQLEXPRESS17" "GreatSoft" "sa" "pw" None None))
  = "localhost"
  /\ exists o,
       options
         (newImplementation
            (mkConnectionConfig "localhost\SQLEXPRESS17" "GreatSoft" "sa" "pw"
               None None)) = Some o
       /\ o !! "instanceName" = Some (VStr "SQLEXPRESS17").
Proof.
  destruct (proj1 (proj2 (X18_constructor_server_instance
    (mkConnectionConfig "localhost\SQLEXPRESS17" "GreatSoft" "sa" "pw" None None)))
    "localhost" "SQLEXPRESS17" eq_refl eq_refl eq_refl) as (Hs & o & Ho & Hi).
  split; [exact Hs|]. exists o. split; [exact Ho | exact (Hi eq_refl)].
Defined.

(** ** The handler: what a call can change *)

Lemma import_session sql_connect readExcelFile query uuidv4 s excelPath :
  exists p new out,
    importOffices sql_connect readExcelFile query uuidv4 s excelPath
      = (mkSession p (countryID s) (sent s ++ new) (uuidCalls s + length new), out)
    /\ (pool s = true -> p = true)
    /\ out <> Diverged.
Proof.
  destruct (connection_cases sql_connect s) as [Hc|(Hp & m & Hm)].
  - destruct (readExcelFile excelPath) as [m|rawData] eqn:Hread.
    + exists true, [], (Returned (generalError m)).
      rewrite importOffices_ok by done. unfold importBody. rewrite Hread.
      unfold withPool. by rewrite app_nil_r, Nat.add_0_r.
    + destruct (criticalErrors_cases (validateOfficeData (officesOf rawData) 2))
        as [Hnil|(e & He & Hcrit)].
      * rewrite (importOffices_clean sql_connect readExcelFile query uuidv4 s
                   excelPath rawData Hc Hread Hnil).
        eexists true, _, _. rewrite length_attempts. done.
      * rewrite (importOffices_critical sql_connect readExcelFile query uuidv4 s
                   excelPath rawData e Hc Hread He Hcrit).
        eexists true, [], _. unfold withPool.
        by rewrite app_nil_r, Nat.add_0_r.
  - exists false, [], (Thrown m).
    rewrite (import_unconnected_throws _ _ _ _ _ _ m) by done.
    destruct s as [p c snt u]. simpl in *. subst p.
    rewrite app_nil_r, Nat.add_0_r. done.
Qed.

Lemma license_session sql_connect readFile queryBatch s scriptPath :
  exists p received out,
    licenseDatabase sql_connect readFile queryBatch s scriptPath
      = (mkSession p (countryID s) (sent s) (uuidCalls s), received, out)
    /\ (pool s = true -> p = true)
    /\ out <> Diverged.
Proof.
  destruct (connection_cases sql_connect s) as [Hc|(Hp & m & Hm)].
  - rewrite licenseDatabase_ok by done.
    destruct (readFile scriptPath) as [m|script]; [by eexists true, _, _|].
    destruct (runBatches _ _ _) as [received [m|]]; by eexists true, _, _.
  - exists false, [], (Thrown m). unfold licenseDatabase, connect.
    rewrite Hp, Hm. destruct s as [p c snt u]. simpl in *. by subst p.
Qed.

Lemma status_session sql_connect countQuery config s :
  exists p out,
    getImplementationStatus sql_connect countQuery config s
      = (mkSession p (countryID s) (sent s) (uuidCalls s), out)
    /\ (pool s = true -> p = true)
    /\ out <> Diverged.
Proof.
  unfold getImplementationStatus.
  destruct (connection_cases (sql_connect config) s) as [Hc|(Hp & m & Hm)].
  - rewrite connect_ok by done. unfold withPool.
    repeat (destruct (countQuery _)); by eexists true, _.
  - exists false, (Thrown m). unfold connect.
    rewrite Hp, Hm. destruct s as [p c snt u]. simpl in *. by subst p.
Qed.

Ltac unchanged_log := exists []; rewrite app_nil_r; reflexivity.

(** X19.  Every call of a tool is answered: the handler returns a response
    and never lets an exception out, whatever the tool name, the state of
    the server, the file system and the store.  The statements and batches
    the store has received are only added to, and a call of a tool other
    than [configure_database] leaves the configured instance and its
    country as they were and never gives up a connection that was open. *)
Theorem X19_handler_always_answers sql_connect readExcelFile query uuidv4
    readFile queryBatch countQuery jsonStringify objectEntries
    (st : ServerState) (request : CallToolRequest) :
  let run :=
    callTool sql_connect readExcelFile query uuidv4 readFile queryBatch
      countQuery jsonStringify objectEntries st request in
  (exists response, run.2 = Returned response)
  /\ (exists new, sent (session run.1) = sent (session st) ++ new)
  /\ (exists received, batchesReceived run.1 = batchesReceived st ++ received)
  /\ (name request <> "configure_database" ->
        implementation run.1 = implementation st
        /\ countryID (session run.1) = countryID (session st)
        /\ (pool (session st) = true -> pool (session run.1) = true)).
Proof.
  cbn zeta. rewrite callTool_unfold. unfold callToolBody.
  destruct (String.eqb_spec (name request) "configure_database") as [Hcfg|Hcfg].
  { cbn zeta.
    match goal with
    | |- context [connect ?c ?s] =>
        destruct (connection_cases c s) as [Hc|(Hp & m & Hm)];
        [rewrite (connect_ok c s Hc)
        |unfold connect; rewrite Hp, Hm]
    end; cbn; (split_and!; [by eexists | | unchanged_log | done]).
    - exists []. rewrite app_nil_r.
      destruct (argCountryID (arguments request)) as [k|]; [|done].
      by destruct (k =? 0)%Z.
    - exists []. rewrite app_nil_r.
      destruct (argCountryID (arguments request)) as [k|]; [|done].
      by destruct (k =? 0)%Z. }
  destruct (implementation st) as [instance|] eqn:Hinst.
  2:{ cbn. split_and!; [by eexists | unchanged_log | unchanged_log |].
      intros _. by rewrite Hinst. }
  destruct (String.eqb_spec (name request) "license_database") as [Hlic|Hlic].
  { destruct (license_session (sql_connect instance) readFile queryBatch
                (session st) (argScriptPath (arguments request)))
      as (p & received & out & -> & Hpool & Hout).
    destruct out as [res|m|]; [| |done]; cbn;
      (split_and!; [by eexists | unchanged_log | by exists received | done]). }
  destruct (String.eqb_spec (name request) "import_offices") as [Himp|Himp].
  { destruct (import_session (sql_connect instance) readExcelFile query uuidv4
                (session st) (argExcelPath (arguments request)))
      as (p & new & out & -> & Hpool & Hout).
    destruct out as [res|m|]; [| |done]; cbn;
      (split_and!; [by eexists | by exists new | unchanged_log | done]). }
  destruct (String.eqb_spec (name request) "get_implementation_status")
    as [Hsta|Hsta].
  { destruct (status_session sql_connect countQuery instance (session st))
      as (p & out & -> & Hpool & Hout).
    destruct out as [[[offices employees] clients]|m|]; [| |done]; cbn;
      (split_and!; [by eexists | unchanged_log | unchanged_log | done]). }
  cbn. split_and!; [by eexists | unchanged_log | unchanged_log |].
  intros _. by rewrite Hinst.
Qed.

(** X20.  The answer to [license_database] on a configured server.  With
    the connection at hand the response is never marked as an error: its
    text is the serialised result, also when the script could not be read or
    a batch failed, in which case the result has [success] false and one
    error under the field "script".  The batches the store received in the
    call, up to and including a failing one, are added to those it had
    received before; the statements and the country of the session are
    untouched.  Only a connection that cannot be established gives an error
    response, and then the state of the server is unchanged. *)
Theorem X20_license_database_response sql_connect readExcelFile query uuidv4
    readFile queryBatch countQuery jsonStringify objectEntries
    (st : ServerState) (request : CallToolRequest) (instance : ConnectionConfig)
    (Hsome : implementation st = Some instance)
    (Hname : name request = "license_database") :
  let answer :=
    callTool sql_connect readExcelFile query uuidv4 readFile queryBatch
      countQuery jsonStringify objectEntries st request in
  (pool (session st) = true \/ sql_connect instance = None ->
     exists received res,
       answer =
         (mkServerState (Some instance) (withPool (session st) true)
            (batchesReceived st ++ received),
          Returned (mkToolResponse (jsonStringify res) false))
       /\ recordsImported res = 0
       /\ (success res = true ->
             errors res = []
             /\ forall script,
                  readFile (argScriptPath (arguments request)) = inr script ->
                  received = batchesOf script)
       /\ (success res = false ->
             exists m done,
               res = scriptError m
               /\ (readFile (argScriptPath (arguments request)) = inl m
                     /\ received = []
                   \/ exists script batch rest,
                        readFile (argScriptPath (arguments request)) = inr script
                        /\ batchesOf script = done ++ batch :: rest
                        /\ received = done ++ [batch]
                        /\ queryBatch done batch = Some m)))
  /\ (forall m, pool (session st) = false -> sql_connect instance = Some m ->
        answer =
          (st, Returned (mkToolResponse (crossMark +:+ " Error: " +:+ m) true))).
Proof.
  cbn zeta. rewrite callTool_unfold. unfold callToolBody.
  rewrite Hsome, Hname.
  change ("license_database" =? "configure_database")%string with false.
  change ("license_database" =? "license_database")%string with true.
  cbn iota. split.
  - intros Hc. rewrite licenseDatabase_ok by done.
    destruct (readFile (argScriptPath (arguments request))) as [m|script]
      eqn:Hread.
    + exists [], (scriptError m). split_and!; try done.
      intros _. exists m, []. split; [done|]. by left.
    + destruct (runBatches_spec queryBatch (batchesOf script) [])
        as [[Hrun _]|(done & batch & rest & m & Hsplit & Hrun & Hfail & _)];
        rewrite Hrun; cbn [app].
      * eexists _, _. split_and!; try done.
        intros _. split; [done|]. by intros ? [= <-].
      * exists (done ++ [batch]), (scriptError m). split_and!; try done.
        intros _. exists m, done. split; [done|]. right.
        by exists script, batch, rest.
  - intros m Hp Hm. unfold licenseDatabase, connect. rewrite Hp, Hm.
    destruct st as [impl s received]. cbn in *. subst impl.
    by rewrite app_nil_r.
Qed.

Lemma X20_license_database_response_witness :
  exists received res,
    callTool (fun _ => None) (fun _ => inl "") acceptAll sampleUuid
      (fun _ => inr ("CREATE TABLE t (a int)" +:+ nl +:+ "GO" +:+ nl +:+ "DROP TABLE u"))
      (fun _ batch => if String.eqb batch "DROP TABLE u" then Some "no table u" else None)
      (fun _ => inr (VNum 0)) (fun res => resultMessage res) (fun _ => [])
      (mkServerState (Some (mkConnectionConfig "db" "GreatSoft" "sa" "pw" None None))
         sampleSession [])
      (mkCallToolRequest "license_database"
         (mkArguments "" "" "" "" None None "license.sql" "")) =
    (mkServerState (Some (mkConnectionConfig "db" "GreatSoft" "sa" "pw" None None))
       (withPool sampleSession true) ([] ++ received),
     Returned (mkToolResponse (resultMessage res) false))
    /\ recordsImported res = 0
    /\ received = ["CREATE TABLE t (a int)"; "DROP TABLE u"]
    /\ resultMessage res = "Failed to license database: no table u".
Proof.
  destruct (X20_license_database_response (fun _ => None) (fun _ => inl "")
    acceptAll sampleUuid
    (fun _ => inr ("CREATE TABLE t (a int)" +:+ nl +:+ "GO" +:+ nl +:+ "DROP TABLE u"))
    (fun _ batch => if String.eqb batch "DROP TABLE u" then Some "no table u" else None)
    (fun _ => inr (VNum 0)) (fun res => resultMessage res) (fun _ => [])
    (mkServerState (Some (mkConnectionConfig "db" "GreatSoft" "sa" "pw" None None))
       sampleSession [])
    (mkCallToolRequest "license_database"
       (mkArguments "" "" "" "" None None "license.sql" ""))
    (mkConnectionConfig "db" "GreatSoft" "sa" "pw" None None) eq_refl eq_refl)
    as (Hconn & _).
  destruct (Hconn (or_intror eq_refl)) as (received & res & Hans & Hrec & _).
  exists received, res. split; [exact Hans|]. split; [exact Hrec|].
  vm_compute in Hans. injection Hans as Hreceived Hmessage.
  split; [by rewrite <- Hreceived | exact (eq_sym Hmessage)].
Defined.

(** X21.  The answer to [get_implementation_status] on a configured server:
    with the connection at hand and the three counting queries answered, the
    report lists the three counts and ends with "Status: In Progress"
    whatever they are; when a counting query fails the answer is the error
    response with the message of the first one that failed.  The pool is the
    only part of the state the call can change.  A connection that cannot be
    established gives the error response and leaves the state as it was. *)
Theorem X21_status_response sql_connect readExcelFile query uuidv4
    readFile queryBatch countQuery jsonStringify objectEntries
    (st : ServerState) (request : CallToolRequest) (instance : ConnectionConfig)
    (Hsome : implementation st = Some instance)
    (Hname : name request = "get_implementation_status") :
  let answer :=
    callTool sql_connect readExcelFile query uuidv4 readFile queryBatch
      countQuery jsonStringify objectEntries st request in
  let failed m :=
    Returned (mkToolResponse (crossMark +:+ " Error: " +:+ m) true) in
  (pool (session st) = true \/ sql_connect instance = None ->
     answer.1 =
       mkServerState (Some instance) (withPool (session st) true)
         (batchesReceived st)
     /\ (forall offices employees clients,
           countQuery "SELECT COUNT(*) as count FROM dbo.Office" = inr offices ->
           countQuery "SELECT COUNT(*) as count FROM dbo.Employee" = inr employees ->
           countQuery "SELECT COUNT(*) as count FROM dbo.Client" = inr clients ->
           answer.2 =
             Returned
               (mkToolResponse
                  ("**GreatSoft Implementation Status**" +:+ nl +:+ nl
                     +:+ "Offices: " +:+ toString offices +:+ nl
                     +:+ "Employees: " +:+ toString employees +:+ nl
                     +:+ "Clients: " +:+ toString clients +:+ nl +:+ nl
                     +:+ "Status: In Progress")
                  false))
     /\ (forall m,
           countQuery "SELECT COUNT(*) as count FROM dbo.Office" = inl m ->
           answer.2 = failed m)
     /\ (forall offices m,
           countQuery "SELECT COUNT(*) as count FROM dbo.Office" = inr offices ->
           countQuery "SELECT COUNT(*) as count FROM dbo.Employee" = inl m ->
           answer.2 = failed m)
     /\ (forall offices employees m,
           countQuery "SELECT COUNT(*) as count FROM dbo.Office" = inr offices ->
           countQuery "SELECT COUNT(*) as count FROM dbo.Employee" = inr employees ->
           countQuery "SELECT COUNT(*) as count FROM dbo.Client" = inl m ->
           answer.2 = failed m))
  /\ (forall m, pool (session st) = false -> sql_connect instance = Some m ->
        answer = (st, failed m)).
Proof.
  cbn zeta. rewrite callTool_unfold. unfold callToolBody.
  rewrite Hsome, Hname.
  change ("get_implementation_status" =? "configure_database")%string with false.
  change ("get_implementation_status" =? "license_database")%string with false.
  change ("get_implementation_status" =? "import_offices")%string with false.
  change ("get_implementation_status" =? "get_implementation_status")%string
    with true.
  cbn iota. unfold getImplementationStatus. split.
  - intros Hc. rewrite connect_ok by done. split_and!.
    + by repeat (destruct (countQuery _)).
    + by intros offices employees clients -> -> ->.
    + by intros m ->.
    + by intros offices m -> ->.
    + by intros offices employees m -> -> ->.
  - intros m Hp Hm. unfold connect. rewrite Hp, Hm.
    destruct st as [impl s received]. cbn in *. by subst impl.
Qed.

Lemma X21_status_response_witness :
  (callTool (fun _ => None) (fun _ => inl "") acceptAll sampleUuid
     (fun _ => inr "") (fun _ _ => None)
     (fun q => if includes "Office" q then inr (VNum 3) else inl "Invalid object name")
     (fun _ => "") (fun _ => [])
     (mkServerState (Some (mkConnectionConfig "db" "GreatSoft" "sa" "pw" None None))
        sampleSession [])
     (mkCallToolRequest "get_implementation_status"
        (mkArguments "" "" "" "" None None "" ""))).2 =
  Returned (mkToolResponse (crossMark +:+ " Error: " +:+ "Invalid object name") true).
Proof.
  destruct (X21_status_response (fun _ => None) (fun _ => inl "") acceptAll
    sampleUuid (fun _ => inr "") (fun _ _ => None)
    (fun q => if includes "Office" q then inr (VNum 3) else inl "Invalid object name")
    (fun _ => "") (fun _ => [])
    (mkServerState (Some (mkConnectionConfig "db" "GreatSoft" "sa" "pw" None None))
       sampleSession [])
    (mkCallToolRequest "get_implementation_status"
       (mkArguments "" "" "" "" None None "" ""))
    (mkConnectionConfig "db" "GreatSoft" "sa" "pw" None None) eq_refl eq_refl)
    as (Hconn & _).
  destruct (Hconn (or_intror eq_refl)) as (_ & _ & _ & Hsecond & _).
  exact (Hsecond (VNum 3) "Invalid object name" eq_refl eq_refl).
Defined.

(** X22.  A [configure_database] whose connection fails still installs the
    new instance: the next call of one of the three working tools is not
    answered with "Database not configured" but tries the connection again
    with the same configuration, and, the store rejecting it again, answers
    with the message of that rejection and changes nothing. *)
Theorem X22_failed_configuration_is_kept sql_connect readExcelFile query uuidv4
    readFile queryBatch countQuery jsonStringify objectEntries
    (st : ServerState) (args : Arguments) (request : CallToolRequest)
    (m : string)
    (Hreject :
       sql_connect
         (newImplementation
            (mkConnectionConfig (argServer args) (argDatabase args)
               (argUser args) (argPassword args)
               (Some (numberOr (argPort args) 1433))
               (Some (<["trustServerCertificate" := VBool true]>
                        (<["encrypt" := VBool true]> ∅))))) = Some m)
    (Hname : name request ∈
       ["license_database"; "import_offices"; "get_implementation_status"]) :
  let handler :=
    callTool sql_connect readExcelFile query uuidv4 readFile queryBatch
      countQuery jsonStringify objectEntries in
  let first := handler st (mkCallToolRequest "configure_database" args) in
  let second := handler first.1 request in
  first.2 = Returned (mkToolResponse (crossMark +:+ " Error: " +:+ m) true)
  /\ second = (first.1,
               Returned (mkToolResponse (crossMark +:+ " Error: " +:+ m) true)).
Proof.
  cbn zeta. rewrite !callTool_unfold.
  assert (exists s0,
    callToolBody sql_connect readExcelFile query uuidv4 readFile queryBatch
      countQuery jsonStringify objectEntries st
      (mkCallToolRequest "configure_database" args)
    = (mkServerState
         (Some
            (newImplementation
               (mkConnectionConfig (argServer args) (argDatabase args)
                  (argUser args) (argPassword args)
                  (Some (numberOr (argPort args) 1433))
                  (Some (<["trustServerCertificate" := VBool true]>
                           (<["encrypt" := VBool true]> ∅))))))
         s0 (batchesReceived st), Thrown m)
    /\ pool s0 = false) as (s0 & -> & Hp).
  { unfold callToolBody. cbn [name arguments].
    change ("configure_database" =? "configure_database")%string with true.
    cbn iota zeta. unfold connect. rewrite Hreject.
    destruct (argCountryID args) as [k|]; [destruct (k =? 0)%Z|];
      cbn; by eexists. }
  split; [done|]. cbn [fst snd].
  unfold callToolBody. cbn [implementation session batchesReceived].
  repeat (apply elem_of_cons in Hname as [->|Hname]);
    [| | |by apply elem_of_nil in Hname].
  - change ("license_database" =? "configure_database")%string with false.
    change ("license_database" =? "license_database")%string with true.
    cbn iota. unfold licenseDatabase, connect. rewrite Hp, Hreject.
    by rewrite app_nil_r.
  - change ("import_offices" =? "configure_database")%string with false.
    change ("import_offices" =? "license_database")%string with false.
    change ("import_offices" =? "import_offices")%string with true.
    cbn iota. unfold importOffices, connect. by rewrite Hp, Hreject.
  - change ("get_implementation_status" =? "configure_database")%string with false.
    change ("get_implementation_status" =? "license_database")%string with false.
    change ("get_implementation_status" =? "import_offices")%string with false.
    change ("get_implementation_status" =? "get_implementation_status")%string
      with true.
    cbn iota. unfold getImplementationStatus, connect. by rewrite Hp, Hreject.
Qed.

Lemma X22_failed_configuration_is_kept_witness :
  (callTool (fun _ => Some "Login failed for user 'sa'") (fun _ => inl "")
     acceptAll sampleUuid (fun _ => inr "") (fun _ _ => None)
     (fun _ => inr (VNum 0)) (fun _ => "") (fun _ => [])
     (callTool (fun _ => Some "Login failed for user 'sa'") (fun _ => inl "")
        acceptAll sampleUuid (fun _ => inr "") (fun _ _ => None)
        (fun _ => inr (VNum 0)) (fun _ => "") (fun _ => [])
        (mkServerState None sampleSession [])
        (mkCallToolRequest "configure_database"
           (mkArguments "host\SQL" "GreatSoft" "sa" "pw" None None "" ""))).1
     (mkCallToolRequest "import_offices"
        (mkArguments "" "" "" "" None None "" "offices.xlsx"))).2 =
  Returned
    (mkToolResponse (crossMark +:+ " Error: " +:+ "Login failed for user 'sa'")
       true).
Proof.
  destruct (X22_failed_configuration_is_kept
    (fun _ => Some "Login failed for user 'sa'") (fun _ => inl "")
    acceptAll sampleUuid (fun _ => inr "") (fun _ _ => None)
    (fun _ => inr (VNum 0)) (fun _ => "") (fun _ => [])
    (mkServerState None sampleSession [])
    (mkArguments "host\SQL" "GreatSoft" "sa" "pw" None None "" "")
    (mkCallToolRequest "import_offices"
       (mkArguments "" "" "" "" None None "" "offices.xlsx"))
    "Login failed for user 'sa'" eq_refl
    ltac:(apply list_elem_of_further, list_elem_of_here)) as (_ & Hsecond).
  exact (f_equal snd Hsecond).
Defined.

(** ** Length findings *)

Lemma long_not_sentinel v : lengthExceeds v 10 = true -> isSentinel v = false.
Proof.
  intros Hlong. destruct (isSentinel v) eqn:Hs; [|done].
  apply isSentinel_spec in Hs as [-> | [-> | ->]]; discriminate Hlong.
Qed.

Lemma long_truthy v n : lengthExceeds v n = true -> truthy v = true.
Proof.
  destruct v as [| | b | k | str]; try done. by destruct str.
Qed.

(** X23.  The two length findings are advisory.  When the connection is at
    hand and validation raised no critical finding, a record whose code has
    more than 10 characters, or whose description has more than 100 (its
    code being no sentinel), is reported under its row with the matching
    message, and its INSERT is issued all the same; the values bound to the
    parameters [OfficeCode] and [OfficeDesc] are the code and the description
    as they stand in the record: the program cuts nothing (what the driver
    does with a value longer than the declared [NVarChar] is outside the
    model).  If the store accepts that insert the import succeeds; the
    finding stays in the errors of the result. *)
Theorem X23_length_findings_advisory sql_connect readExcelFile query uuidv4
    s excelPath rawData (i : nat) (o : gmap string jsval)
    (Hconn : pool s = true \/ sql_connect = None)
    (Hread : readExcelFile excelPath = inr rawData)
    (Hclean : criticalErrors (validateOfficeData (officesOf rawData) 2) = [])
    (Hi : officesOf rawData !! i = Some o) :
  let statements :=
    attempts uuidv4 (countryID s) (uuidCalls s) (officesOf rawData) in
  exists s' res statement,
    importOffices sql_connect readExcelFile query uuidv4 s excelPath
      = (s', Returned res)
    /\ sent s' = sent s ++ statements
    /\ statements !! i = Some statement
    /\ ("OfficeCode", officeCodeOf o) ∈ statement
    /\ ("OfficeDesc", get o "OfficeDesc") ∈ statement
    /\ (lengthExceeds (officeCodeOf o) 10 = true ->
          longCodeError (i + 2) (officeCodeOf o) ∈ errors res)
    /\ (lengthExceeds (get o "OfficeDesc") 100 = true ->
        isSentinel (officeCodeOf o) = false ->
          longDescError (i + 2) (get o "OfficeDesc") ∈ errors res)
    /\ (query (sent s ++ take i statements) statement = None ->
          success res = true).
Proof.
  intros statements. subst statements.
  rewrite (importOffices_clean sql_connect readExcelFile query uuidv4 s
             excelPath rawData Hconn Hread Hclean).
  pose proof (attempts_lookup uuidv4 (countryID s) (uuidCalls s)
                (officesOf rawData) i o Hi) as Hstatement.
  destruct (validate_at (officesOf rawData) 2 i o Hi) as (b & a & Hsplit & _).
  eexists _, _, _. split; [reflexivity|]. cbn [sent errors success].
  split_and!; [done | exact Hstatement | | | | |].
  - unfold bindParams, officeCodeOf. set_solver.
  - unfold bindParams. set_solver.
  - intros Hlong. rewrite Hsplit, !elem_of_app. left; right; left.
    apply rowErrors_elem. split; [by apply long_not_sentinel|].
    right; right; right; left. split_and!; [done | | done].
    by apply (long_truthy _ 10).
  - intros Hlong Hns. rewrite Hsplit, !elem_of_app. left; right; left.
    apply rowErrors_elem. split; [done|].
    right; right; right; right. split_and!; [done | | done].
    by apply (long_truthy _ 100).
  - intros Hok. apply bool_decide_eq_true. apply (successes_pos _ i).
    rewrite (outcomes_lookup query (sent s) _ i _ Hstatement).
    by rewrite Hok.
Qed.

Lemma X23_length_findings_advisory_witness :
  exists s' res statement,
    importOffices None (sheet [mkRow (VStr "JOHANNESBURG") (VStr "Johannesburg")])
      acceptAll sampleUuid sampleSession "offices.xlsx" = (s', Returned res)
    /\ sent s' = [statement]
    /\ ("OfficeCode", VStr "JOHANNESBURG") ∈ statement
    /\ longCodeError 2 (VStr "JOHANNESBURG") ∈ errors res
    /\ success res = true.
Proof.
  assert (officesOf [mkRow (VStr "JOHANNESBURG") (VStr "Johannesburg")] !! 0
          = Some (mapExcelToSQL (mkRow (VStr "JOHANNESBURG") (VStr "Johannesburg"))
                    columnMap)) as Hi by (vm_compute; reflexivity).
  assert (criticalErrors
            (validateOfficeData
               (officesOf [mkRow (VStr "JOHANNESBURG") (VStr "Johannesburg")]) 2)
          = []) as Hclean by (vm_compute; reflexivity).
  destruct (X23_length_findings_advisory None
    (sheet [mkRow (VStr "JOHANNESBURG") (VStr "Johannesburg")]) acceptAll
    sampleUuid sampleSession "offices.xlsx"
    [mkRow (VStr "JOHANNESBURG") (VStr "Johannesburg")] 0 _
    (or_intror eq_refl) eq_refl Hclean Hi)
    as (s' & res & statement & Hrun & Hsent & Hst & Hcode & _ & Hlong & _ & Hok).
  exists s', res, statement. split; [exact Hrun|].
  assert (statement =
          bindParams 1
            (mapExcelToSQL (mkRow (VStr "JOHANNESBURG") (VStr "Johannesburg"))
               columnMap) (sampleUuid 0)) as Hstatement.
  { vm_compute in Hst. injection Hst as <-. vm_compute. reflexivity. }
  split_and!.
  - rewrite Hsent, Hstatement. vm_compute. reflexivity.
  - exact Hcode.
  - exact (Hlong eq_refl).
  - exact (Hok eq_refl).
Defined.

(** ** What the import reads of a sheet *)

Lemma mapExcelToSQL_ext r1 r2 mappings :
  (forall excelCol sqlCol, (excelCol, sqlCol) ∈ mappings ->
     normalizeCell (get r1 excelCol) = normalizeCell (get r2 excelCol)) ->
  mapExcelToSQL r1 mappings = mapExcelToSQL r2 mappings.
Proof.
  unfold mapExcelToSQL. generalize (∅ : gmap string jsval).
  induction mappings as [|[e q] l IH]; intros acc Hagree; [done|].
  cbn [fold_left fst snd].
  change (if bool_decide (get r1 e = VStr "NULL")
             || bool_decide (get r1 e = VStr "null")
          then VNull else get r1 e) with (normalizeCell (get r1 e)).
  change (if bool_decide (get r2 e = VStr "NULL")
             || bool_decide (get r2 e = VStr "null")
          then VNull else get r2 e) with (normalizeCell (get r2 e)).
  rewrite (Hagree e q) by apply list_elem_of_here.
  apply IH. intros e' q' Hin. apply (Hagree e' q').
  by apply list_elem_of_further.
Qed.

(** X24.  The import reads nothing of a sheet but the fourteen mapped
    columns of its rows, and reads the texts "NULL" and "null" as empty
    cells: two sheets with the same number of rows whose rows agree on those
    columns, up to that reading, give the same run, that is the same result,
    the same statements sent to the store and the same session.  Columns
    outside the mapping never reach the validator or the store. *)
Theorem X24_import_reads_mapped_columns sql_connect readExcelFile1 readExcelFile2
    query uuidv4 s excelPath (raw1 raw2 : list (gmap string jsval))
    (Hread1 : readExcelFile1 excelPath = inr raw1)
    (Hread2 : readExcelFile2 excelPath = inr raw2)
    (Hrows :
       Forall2
         (fun r1 r2 =>
            forall excelCol sqlCol, (excelCol, sqlCol) ∈ columnMap ->
              normalizeCell (get r1 excelCol) = normalizeCell (get r2 excelCol))
         raw1 raw2) :
  importOffices sql_connect readExcelFile1 query uuidv4 s excelPath =
  importOffices sql_connect readExcelFile2 query uuidv4 s excelPath.
Proof.
  assert (officesOf raw1 = officesOf raw2) as Heq.
  { unfold officesOf. f_equal. clear Hread1 Hread2.
    induction Hrows as [|r1 r2 l1 l2 Hr _ IH]; [done|].
    cbn [map]. by rewrite IH, (mapExcelToSQL_ext r1 r2 columnMap Hr). }
  unfold importOffices, importBody. by rewrite Hread1, Hread2, Heq.
Qed.

Lemma X24_import_reads_mapped_columns_witness :
  importOffices None
    (sheet [<["Region" := VStr "EMEA"]>
              (<["OfficeTel" := VStr "NULL"]> (mkRow (VStr "HQ") (VStr "Head Office")))])
    acceptAll sampleUuid sampleSession "offices.xlsx" =
  importOffices None
    (sheet [<["OfficeTel" := VNull]> (mkRow (VStr "HQ") (VStr "Head Office"))])
    acceptAll sampleUuid sampleSession "offices.xlsx".
Proof.
  apply (X24_import_reads_mapped_columns None _ _ acceptAll sampleUuid
           sampleSession "offices.xlsx" _ _ eq_refl eq_refl).
  repeat constructor. intros excelCol sqlCol Hin.
  repeat (apply elem_of_cons in Hin as [[= -> ->]|Hin]; [reflexivity|]).
  by apply elem_of_nil in Hin.
Defined.

(** ** The order of the findings *)

Lemma errorsOf_ordered off data : forall k seen a b e1 e2,
  a <= b ->
  errorsOf off k data seen !! a = Some e1 ->
  errorsOf off k data seen !! b = Some e2 ->
  row e1 <= row e2.
Proof.
  induction data as [|r l IH]; intros k seen a b e1 e2 Hab Ha Hb.
  - unfold errorsOf in Ha. cbn in Ha. by rewrite lookup_nil in Ha.
  - rewrite errorsOf_cons in Ha, Hb.
    apply lookup_app_Some in Ha as [Ha|[Hla Ha]];
      apply lookup_app_Some in Hb as [Hb|[Hlb Hb]].
    + apply list_elem_of_lookup_2, rowErrors_row in Ha.
      apply list_elem_of_lookup_2, rowErrors_row in Hb. lia.
    + apply list_elem_of_lookup_2, rowErrors_row in Ha.
      apply list_elem_of_lookup_2, errorsOf_rows in Hb. lia.
    + apply lookup_lt_Some in Hb. lia.
    + eapply IH; [|exact Ha|exact Hb]. lia.
Qed.

(** X25.  The findings of the validator come in the order of the rows, those
    of one row together; every finding sits on the row of a record of the
    batch that has no sentinel code, numbered from the row offset, and
    carries as value the code or the description of that record according
    to its field. *)
Theorem X25_findings_in_row_order (data : list (gmap string jsval)) (off : nat) :
  let found := validateOfficeData data off in
  (forall a b e1 e2, a <= b -> found !! a = Some e1 -> found !! b = Some e2 ->
     row e1 <= row e2)
  /\ (forall e, e ∈ found ->
        exists i r,
          data !! i = Some r /\ row e = i + off
          /\ isSentinel (officeCodeOf r) = false
          /\ (field e = "OfficeCode" /\ value e = officeCodeOf r
              \/ field e = "OfficeDesc" /\ value e = get r "OfficeDesc")).
Proof.
  cbn zeta. split.
  - intros a b e1 e2. apply (errorsOf_ordered off data 0 ∅).
  - intros e He.
    pose proof (errorsOf_rows off 0 data ∅ e He) as Hrows.
    destruct (error_at_row data off (row e - off) e He ltac:(lia))
      as (r & Hr & Hin).
    exists (row e - off), r. split; [done|]. split; [lia|].
    apply rowErrors_elem in Hin as [Hns Hcases]. split; [done|].
    cbn zeta in Hcases.
    destruct Hcases as [[Heq _]|[[Heq _]|[[Heq _]|[[Heq _]|[Heq _]]]]];
      rewrite Heq; cbn; tauto.
Qed.
